(** * Ryanair price-alert bots: shallow embedding and checked properties

    The development follows the Python sources file by file:
    - [ryanair_api]   : [ryanair_api.py]   (query window, plain-text fare listing)
    - [check_flights] : [check_flights.py] (command-line checker)
    - [telegram_bot]  : [telegram_bot.py]  (Telegram front-end, alert job)
    - [bot]           : [bot.py]           (Discord front-end, alert loop)

    Conventions of the embedding.
    - A JSON number of the provider is a rational [Q]; Python compares ints
      and finite floats exactly, so [Qle]/[Qlt] is the comparison the code
      performs.  NaN and Infinity are no JSON numbers and the provider does
      not send them.
    - A number the user types is a Python [float]: [float(text)] also
      accepts ["nan"] and ["inf"], and [json.dump]/[json.load] carry them
      through the alerts file.  Alert targets and the price limit of the
      command line are therefore [pyfloat]s, with the comparisons of IEEE
      floats (every comparison with NaN is false).
    - A JSON object of the provider is a record.  [day], [value] and
      [currencyCode] are options whose [None] is an absent key: the code
      reads them by subscript in one place ([KeyError] when absent) and by
      [.get] in another, and the provider sends a string or a number under a
      key that is present (a null there is outside the model).  The price
      object is only ever tested for truthiness, so its [None] is an absent
      key, a null or an empty object.  The two timestamps do come as null, and
      one consumer reads them by subscript: they keep the three cases apart.
    - A Python dict keyed by ids is an association list in insertion order,
      because the alert loops iterate [dict.items()] in that order.  Keys are
      the ids themselves ([str(id)] and [int(key)] are inverse on them).
    - A [try/except] block is a function into an explicit outcome; the
      network, the clock and the disk are explicit inputs. *)

From Stdlib Require Import List String Ascii QArith ZArith Lia Lqa Bool.
From Stdlib Require Import Sorted Permutation OrdersEx.
Import ListNotations.
Open Scope string_scope.
Open Scope list_scope.
Open Scope Q_scope.

(** ** Provider data: the [cheapestPerDay] response *)

(** [fare["price"]]: [{"value": ..., "currencyCode": ...}]. *)
Record Price : Type := mkPrice {
  value : option Q;
  currencyCode : option string
}.

(** [fare["departureDate"]] and [fare["arrivalDate"]]: the key is absent,
    holds null, or holds an ISO timestamp. *)
Inductive stamp : Type :=
| NoKey
| Null
| At (t : string).

(** One element of [results["outbound"]["fares"]]. [unavailable] is the
    truthiness of [fare.get("unavailable")]. *)
Record Fare : Type := mkFare {
  day : option string;
  price : option Price;
  unavailable : bool;
  departureDate : stamp;
  arrivalDate : stamp
}.

(** The fares array; a [None] element is a null (or empty) entry, which every
    consumer skips with [if not fare]. *)
Definition Fares : Type := list (option Fare).

(** Outcome of [api.get_cheapest_fares(...)]: the call raises (network error,
    HTTP status, unparsable body) or returns the parsed document, of which
    only [outbound.fares] is read (missing keys default to the empty list). *)
Inductive FetchResult : Type :=
| FetchError
| FetchOk (fares : Fares).

(** Python truthiness of a number and of a string. *)
Definition truthy_num (v : Q) : bool := negb (Qeq_bool v 0).

Definition truthy_str (s : string) : bool :=
  match s with EmptyString => false | _ => true end.

(** [v < w] on numbers. *)
Definition Qltb (v w : Q) : bool := negb (Qle_bool w v).

(** A Python [float] as [float(text)], a slash-command argument or
    [json.load] yields it. *)
Inductive pyfloat : Type :=
| Finite (q : Q)
| PosInf
| NegInf
| NaN.

Coercion Finite : Q >-> pyfloat.

(** [v <= t] for a number [v] and a float [t]. *)
Definition le_float (v : Q) (t : pyfloat) : bool :=
  match t with
  | Finite q => Qle_bool v q
  | PosInf => true
  | NegInf => false
  | NaN => false
  end.

(** [v > t] for a number [v] and a float [t]: not the negation of
    [v <= t], both are false on NaN. *)
Definition gt_float (v : Q) (t : pyfloat) : bool :=
  match t with
  | Finite q => Qltb q v
  | PosInf => false
  | NegInf => true
  | NaN => false
  end.

(** [s[11:16]]: the HH:MM part of an ISO timestamp. *)
Definition hhmm (s : string) : string := String.substring 11 5 s.

(** ** Python dict in insertion order *)

Section Dict.
Context {V : Type}.

Definition dict : Type := list (Z * V).

(** [d.get(k)] / [k in d]. *)
Fixpoint dict_get (k : Z) (d : dict) : option V :=
  match d with
  | [] => None
  | (k', v) :: d' => if Z.eqb k k' then Some v else dict_get k d'
  end.

(** [d[k] = v]: an existing key keeps its position, a new key goes last. *)
Fixpoint dict_set (k : Z) (v : V) (d : dict) : dict :=
  match d with
  | [] => [(k, v)]
  | (k', v') :: d' =>
      if Z.eqb k k' then (k', v) :: d' else (k', v') :: dict_set k v d'
  end.

Definition dict_mem (k : Z) (d : dict) : bool :=
  match dict_get k d with Some _ => true | None => false end.
End Dict.

Arguments dict V : clear implicits.

(** ** The alerts file *)

(** What [os.path.exists] / [open] / [json.load] find on disk. *)
Inductive file (A : Type) : Type :=
| Absent                (* no such file *)
| Unreadable            (* exists, [open] raises *)
| Garbled               (* exists, [json.load] raises *)
| Stored (content : A). (* exists and parses to [content] *)

Arguments Absent {A}.
Arguments Unreadable {A}.
Arguments Garbled {A}.
Arguments Stored {A} content.

(** What happens inside [save_alerts]: everything works, [open(.., 'w')]
    raises (the file is untouched), or [json.dump] raises after the file was
    truncated by [open]. *)
Inductive write_outcome : Type :=
| WriteOk
| OpenFails
| DumpFails.

(** The body of [save_alerts] as a function on the disk; both bots catch and
    drop the exception, so the caller never sees [w]. *)
Definition write_file {A : Type} (mem : A) (disk : file A) (w : write_outcome)
  : file A :=
  match w with
  | WriteOk => Stored mem
  | OpenFails => disk
  | DumpFails => Garbled
  end.

(** The body of [load_alerts]: the global is reassigned only when the file
    exists; any exception resets it to the empty dict. *)
Definition read_file {A : Type} (empty : A) (mem : A) (disk : file A) : A :=
  match disk with
  | Absent => mem
  | Unreadable => empty
  | Garbled => empty
  | Stored content => content
  end.

(** ** Calendar dates, as [datetime] computes them *)

Module datetime.
Open Scope Z_scope.

(** A parsed ["%Y-%m-%d"] string. *)
Record date : Type := mkDate { year : Z; month : Z; dayOfMonth : Z }.

Definition MINYEAR : Z := 1.
Definition MAXYEAR : Z := 9999.
Definition MAXORDINAL : Z := 3652059.

Definition DI400Y : Z := 146097.
Definition DI100Y : Z := 36524.
Definition DI4Y : Z := 1461.

Definition is_leap (y : Z) : bool :=
  (y mod 4 =? 0) && (negb (y mod 100 =? 0) || (y mod 400 =? 0)).

Definition DAYS_IN_MONTH (m : Z) : Z :=
  match m with
  | 1 => 31 | 2 => 28 | 3 => 31 | 4 => 30 | 5 => 31 | 6 => 30
  | 7 => 31 | 8 => 31 | 9 => 30 | 10 => 31 | 11 => 30 | 12 => 31
  | _ => -1
  end.

Definition DAYS_BEFORE_MONTH (m : Z) : Z :=
  match m with
  | 1 => 0 | 2 => 31 | 3 => 59 | 4 => 90 | 5 => 120 | 6 => 151
  | 7 => 181 | 8 => 212 | 9 => 243 | 10 => 273 | 11 => 304 | 12 => 334
  | _ => -1
  end.

Definition days_before_year (y : Z) : Z :=
  let y := y - 1 in y * 365 + y / 4 - y / 100 + y / 400.

Definition days_in_month (y m : Z) : Z :=
  if (m =? 2) && is_leap y then 29 else DAYS_IN_MONTH m.

Definition days_before_month (y m : Z) : Z :=
  DAYS_BEFORE_MONTH m + (if (2 <? m) && is_leap y then 1 else 0).

(** [date.toordinal()]: 0001-01-01 is day 1. *)
Definition ymd2ord (d : date) : Z :=
  days_before_year (year d) + days_before_month (year d) (month d)
  + dayOfMonth d.

(** [date.fromordinal(n)]. *)
Definition ord2ymd (n : Z) : date :=
  let n := n - 1 in
  let n400 := n / DI400Y in
  let n := n mod DI400Y in
  let n100 := n / DI100Y in
  let n := n mod DI100Y in
  let n4 := n / DI4Y in
  let n := n mod DI4Y in
  let n1 := n / 365 in
  let n := n mod 365 in
  let y := n400 * 400 + 1 + n100 * 100 + n4 * 4 + n1 in
  if (n1 =? 4) || (n100 =? 4) then mkDate (y - 1) 12 31
  else
    let leapyear := (n1 =? 3) && (negb (n4 =? 24) || (n100 =? 3)) in
    let m := Z.shiftr (n + 50) 5 in
    let preceding :=
      DAYS_BEFORE_MONTH m + (if (2 <? m) && leapyear then 1 else 0) in
    if n <? preceding then
      let m' := m - 1 in
      let preceding' :=
        preceding
        - (DAYS_IN_MONTH m' + (if (m' =? 2) && leapyear then 1 else 0)) in
      mkDate y m' (n - preceding' + 1)
    else mkDate y m (n - preceding + 1).

(** The range check of [strptime(s, "%Y-%m-%d")]; an invalid date raises
    [ValueError]. *)
Definition valid (d : date) : bool :=
  (MINYEAR <=? year d) && (year d <=? MAXYEAR)
  && (1 <=? month d) && (month d <=? 12)
  && (1 <=? dayOfMonth d) && (dayOfMonth d <=? days_in_month (year d) (month d)).

(** [d + timedelta(days=n)]; a result outside 0001-01-01 .. 9999-12-31
    raises [OverflowError]. *)
Definition add_days (d : date) (n : Z) : option date :=
  let o := ymd2ord d + n in
  if (1 <=? o) && (o <=? MAXORDINAL) then Some (ord2ymd o) else None.
End datetime.

(** ** ryanair_api.py *)

Module ryanair_api.
Import datetime.

(** The [params] dict of [get_cheapest_fares]. *)
Record query : Type := mkQuery {
  outboundDateFrom : date;
  outboundDateTo : date
}.

(** [RyanairAPI.get_cheapest_fares] up to the HTTP call: the query it
    builds, or [None] when [strptime] or the date addition raises.
    [date_out] is passed through to [outboundDateFrom] as given. *)
Definition get_cheapest_fares (date_out : date) (flex_days : Z)
  : option query :=
  if valid date_out then
    match add_days date_out (flex_days * 2)%Z with
    | Some d => Some (mkQuery date_out d)
    | None => None
    end
  else None.

(** A line of the text produced by [format_cheapest_fares]; the float
    rendering [{amount:.2f}] is kept as the number itself. *)
Inductive line : Type :=
| Text (s : string)
| FareLine (d : string) (amount : Q) (currency : string).

Definition price_value (f : Fare) : option Q :=
  match price f with Some p => value p | None => None end.

(** [sorted(xs, key=...)]: Python's sort is stable, and a stable sort has a
    unique result, computed here by insertion from the right. *)
Section Sorted.
Context {A : Type} (le : A -> A -> bool).

Fixpoint insert (x : A) (l : list A) : list A :=
  match l with
  | [] => [x]
  | y :: l' => if le x y then x :: l else y :: insert x l'
  end.

Definition sorted (l : list A) : list A := fold_right insert [] l.
End Sorted.

(** The filter loop of [format_cheapest_fares]:
    [if not f: continue; if price.get("value"): valid_fares.append(f)].
    There is no test of the [unavailable] flag here. *)
Definition keeps (f : option Fare) : option Fare :=
  match f with
  | Some f' =>
      match price_value f' with
      | Some v => if truthy_num v then Some f' else None
      | None => None
      end
  | None => None
  end.

Definition valid_fares (fares : Fares) : list Fare :=
  flat_map (fun f => match keeps f with Some f' => [f'] | None => [] end) fares.

(** Sort key [(x.get("price") or {}).get("value", inf)]; [None] is [inf]. *)
Definition key_le (f g : Fare) : bool :=
  match price_value f, price_value g with
  | Some v, Some w => Qle_bool v w
  | Some _, None => true
  | None, Some _ => false
  | None, None => true
  end.

Definition fare_line (f : Fare) : list line :=
  match price_value f with
  | Some amount =>
      if truthy_num amount then
        [FareLine (match day f with Some d => d | None => "" end)
                  amount
                  (match price f with
                   | Some p => match currencyCode p with
                               | Some c => c | None => "EUR" end
                   | None => "EUR"
                   end)]
      else []
  | None => []
  end.

(** ['='*60] and the newline of the header lines. *)
Definition rule : string := String.concat "" (repeat "=" 60).
Definition nl : string := String (Ascii.ascii_of_nat 10) EmptyString.

Definition no_fares : list line :=
  [Text "No fares found for the specified route and dates"].

(** [format_cheapest_fares(results)] for a document whose fares array is
    [fares]. *)
Definition format_cheapest_fares (fares : Fares) : list line :=
  match fares with
  | [] => no_fares
  | _ =>
      [Text (nl ++ rule)%string; Text "Cheapest Fares by Date";
       Text (rule ++ nl)%string]
      ++ flat_map fare_line (sorted key_le (valid_fares fares))
  end.

(** [datetime(y, m, 1)]: [ValueError] outside years 1..9999, months 1..12. *)
Definition first_of_month (y m : Z) : option date :=
  if valid (mkDate y m 1) then Some (mkDate y m 1) else None.

(** [RyanairAPI.get_monthly_prices] up to the HTTP call, on the two integers
    of [year_month.split("-")].  [outboundDateFrom] is the string
    [year_month + "-01"], which is not checked; [outboundDateTo] is the day
    before the first of the next month. *)
Definition get_monthly_prices (y m : Z) : option query :=
  match (if (m =? 12)%Z then first_of_month (y + 1) 1
         else first_of_month y (m + 1)) with
  | Some next_month =>
      match add_days next_month (-1) with
      | Some last_day => Some (mkQuery (mkDate y m 1) last_day)
      | None => None
      end
  | None => None
  end.
End ryanair_api.

(** ** check_flights.py *)

Module check_flights.
Import datetime.

(** [get_flights(days, specific_date)] up to the HTTP call: the [params]
    it sends, with [today] the date of [datetime.now()].  [None] when a
    date addition overflows. *)
Definition get_flights (today : date) (days : Z) (specific_date : option date)
  : option ryanair_api.query :=
  match specific_date with
  | Some d => Some (ryanair_api.mkQuery d d)
  | None =>
      match add_days today 1, add_days today days with
      | Some s, Some e => Some (ryanair_api.mkQuery s e)
      | _, _ => None
      end
  end.

(** [f and f.get('price') and not f.get('unavailable')]: the price object
    is tested for presence only, its [value] is not looked at. *)
Definition is_valid (f : option Fare) : option Fare :=
  match f with
  | Some f' =>
      match price f' with
      | Some _ => if unavailable f' then None else Some f'
      | None => None
      end
  | None => None
  end.

Definition valid_fares (fares : Fares) : list Fare :=
  flat_map (fun f => match is_valid f with Some f' => [f'] | None => [] end)
           fares.

(** What [display_flights] prints, up to the rendering of a row.  [Raises]
    is an uncaught exception: the [KeyError] of [f['price']['value']],
    [x['day']] or a timestamp subscript on an absent key, or the
    [ValueError] of [strptime]; what was printed before it is not kept. *)
Inductive shown : Type :=
| NoFlightsUnder (limit : pyfloat)
| NoFlightsAvailable
| Listing (lowest : Fare) (by_date : list Fare)
| Raises.

(** [[f for f in valid_fares if f['price']['value'] <= price_limit]]. *)
Fixpoint under_limit (limit : pyfloat) (l : list Fare) : option (list Fare) :=
  match l with
  | [] => Some []
  | f :: l' =>
      match ryanair_api.price_value f, under_limit limit l' with
      | Some v, Some r => Some (if le_float v limit then f :: r else r)
      | _, _ => None
      end
  end.

Definition has_value (f : Fare) : bool :=
  match ryanair_api.price_value f with Some _ => true | None => false end.

Definition has_day (f : Fare) : bool :=
  match day f with Some _ => true | None => false end.

(** [f['departureDate']] and [f['arrivalDate']] do not raise. *)
Definition has_stamps (f : Fare) : bool :=
  match departureDate f, arrivalDate f with
  | NoKey, _ => false
  | _, NoKey => false
  | _, _ => true
  end.

(** The lines of a fare can be printed: [datetime.strptime(f['day'],
    '%Y-%m-%d').strftime('%A')] returns ([weekday] is that composition,
    [None] when [strptime] raises) and both timestamp keys are there. *)
Definition printable (weekday : string -> option string) (f : Fare) : bool :=
  match day f with
  | Some d =>
      match weekday d with
      | Some _ => has_stamps f
      | None => false
      end
  | None => false
  end.

Definition value_le (f g : Fare) : bool :=
  match ryanair_api.price_value f, ryanair_api.price_value g with
  | Some v, Some w => Qle_bool v w
  | _, _ => true
  end.

Definition day_le (f g : Fare) : bool :=
  match day f, day g with
  | Some d, Some e => String.leb d e
  | _, _ => true
  end.

(** The part of [display_flights] after the filters: sort by price, print
    the head, and list by date when [show_all] and more than one row. *)
Definition display_valid (weekday : string -> option string)
           (show_all : bool) (l : list Fare) : shown :=
  match l with
  | [] => NoFlightsAvailable
  | _ =>
      if forallb has_value l then
        match ryanair_api.sorted value_le l with
        | [] => NoFlightsAvailable
        | (lowest :: _) as s =>
            if printable weekday lowest then
              if show_all && Nat.ltb 1 (List.length s) then
                if forallb has_day s then
                  if forallb (printable weekday) (ryanair_api.sorted day_le s)
                  then Listing lowest (ryanair_api.sorted day_le s)
                  else Raises
                else Raises
              else Listing lowest []
            else Raises
        end
      else Raises
  end.

Definition display_flights (weekday : string -> option string)
           (fares : Fares) (show_all : bool) (price_limit : option pyfloat)
  : shown :=
  match price_limit with
  | Some limit =>
      match under_limit limit (valid_fares fares) with
      | Some [] => NoFlightsUnder limit
      | Some l => display_valid weekday show_all l
      | None => Raises
      end
  | None => display_valid weekday show_all (valid_fares fares)
  end.
End check_flights.

(** ** telegram_bot.py *)

Module telegram_bot.

(** A value of [price_alerts]:
    [{"target_price": float, "active": bool, "created": iso-timestamp}]. *)
Record alert : Type := mkAlert {
  target_price : pyfloat;
  active : bool;
  created : string
}.

(** The two globals the commands touch: the [price_alerts] dict and the
    file named by [ALERTS_FILE]. *)
Record state : Type := mkState {
  price_alerts : dict alert;
  ALERTS_FILE : file (dict alert)
}.

Definition load_alerts (st : state) : state :=
  mkState (read_file [] (price_alerts st) (ALERTS_FILE st)) (ALERTS_FILE st).

(** [save_alerts()]: the exception is printed and dropped. *)
Definition save_alerts (st : state) (w : write_outcome) : state :=
  mkState (price_alerts st) (write_file (price_alerts st) (ALERTS_FILE st) w).

(** The non-[None] result [(lowest_price, lowest_date, currency)]. *)
Record lowest : Type := mkLowest {
  lowest_price : Q;
  lowest_date : string;
  currency : string
}.

(** One iteration of [for fare in fares]; [acc = None] is the initial
    [lowest_price = float('inf')]. *)
Definition lowest_step (acc : option lowest) (fare : option Fare)
  : option lowest :=
  match fare with
  | None => acc
  | Some f =>
      if unavailable f then acc
      else
        match price f with
        | None => acc
        | Some p =>
            match value p with
            | None => acc
            | Some v =>
                if truthy_num v
                   && match acc with
                      | None => true
                      | Some a => Qltb v (lowest_price a)
                      end
                then Some (mkLowest v
                             (match day f with Some d => d | None => "" end)
                             (match currencyCode p with
                              | Some c => c | None => "MAD" end))
                else acc
            end
        end
  end.

(** The [try] body of [get_current_lowest_price] on a fetched fares array. *)
Definition lowest_of (fares : Fares) : option lowest :=
  fold_left lowest_step fares None.

(** [get_current_lowest_price()]: [(None, None, None)] is [None]; the
    [except] branch prints and returns the same as "no fares". *)
Definition get_current_lowest_price (r : FetchResult) : option lowest :=
  match r with
  | FetchError => None
  | FetchOk fares => lowest_of fares
  end.

(** What the chat sees. *)
Inductive reply : Type :=
| Usage
| InvalidPrice
| AlertActivated (target : pyfloat) (current : option lowest)
| NoActiveAlert
| YourAlert (a : alert) (current : option lowest)
| AlertStopped.

(** [set_alert_command]: [args] is [context.args], [float] is Python's
    [float()] ([None] for [ValueError]), [now] is
    [datetime.now().isoformat()], [w] what happens to the write and [r]
    the fetch made for the comparison text. *)
Definition set_alert_command (float : string -> option pyfloat)
           (st : state) (chat_id : Z) (args : list string) (now : string)
           (w : write_outcome) (r : FetchResult) : state * reply :=
  match args with
  | [] => (st, Usage)
  | a :: _ =>
      match float a with
      | None => (st, InvalidPrice)
      | Some target =>
          let st1 :=
            mkState (dict_set chat_id (mkAlert target true now)
                              (price_alerts st))
                    (ALERTS_FILE st) in
          (save_alerts st1 w,
           AlertActivated target (get_current_lowest_price r))
      end
  end.

(** [my_alert_command]. *)
Definition my_alert_command (st : state) (chat_id : Z) (r : FetchResult)
  : reply :=
  match dict_get chat_id (price_alerts st) with
  | Some a =>
      if active a then YourAlert a (get_current_lowest_price r)
      else NoActiveAlert
  | None => NoActiveAlert
  end.

(** [stop_alert_command]: the entry stays in the dict with
    ["active": False]. *)
Definition stop_alert_command (st : state) (chat_id : Z) (w : write_outcome)
  : state * reply :=
  match dict_get chat_id (price_alerts st) with
  | Some a =>
      let st1 :=
        mkState (dict_set chat_id
                   (mkAlert (target_price a) false (created a))
                   (price_alerts st))
                (ALERTS_FILE st) in
      (save_alerts st1 w, AlertStopped)
  | None => (st, NoActiveAlert)
  end.

(** The alert text, by the values interpolated into it. *)
Record message : Type := mkMessage {
  msg_target : pyfloat;
  msg_price : Q;
  msg_currency : string;
  msg_date : string
}.

(** What one run of the job does, in order. *)
Inductive event : Type :=
| Sent (chat_id : Z) (m : message)            (* [send_message] returned *)
| SendFailed (chat_id : Z) (m : message).     (* it raised; the error is printed *)

(** The [for chat_id, alert in price_alerts.items()] loop of
    [check_alerts_job]; [send_ok c] tells whether [send_message] to chat
    [c] returns. *)
Fixpoint alert_loop (send_ok : Z -> bool) (low : lowest)
         (items : dict alert) : list event :=
  match items with
  | [] => []
  | (chat_id, a) :: rest =>
      if negb (active a) then alert_loop send_ok low rest
      else if le_float (lowest_price low) (target_price a) then
        let m := mkMessage (target_price a) (lowest_price low)
                           (currency low) (lowest_date low) in
        (if send_ok chat_id then Sent chat_id m else SendFailed chat_id m)
        :: alert_loop send_ok low rest
      else alert_loop send_ok low rest
  end.

(** [check_alerts_job]: nothing is fetched when there are no alerts; the
    globals are not assigned. *)
Definition check_alerts_job (send_ok : Z -> bool) (st : state)
           (r : FetchResult) : state * list event :=
  match price_alerts st with
  | [] => (st, [])
  | _ =>
      match get_current_lowest_price r with
      | None => (st, [])
      | Some low => (st, alert_loop send_ok low (price_alerts st))
      end
  end.

(** An element of [valid_fares] in [get_flight_prices_formatted]:
    [{"date", "price", "currency", "departure", "arrival"}]. *)
Record entry : Type := mkEntry {
  entry_date : string;
  entry_price : Q;
  entry_currency : string;
  departure : string;
  arrival : string
}.

(** [t[11:16] if t else ""] on [fare.get(key, "")]. *)
Definition clock (s : stamp) : string :=
  match s with
  | At t => if truthy_str t then hhmm t else ""
  | Null => ""
  | NoKey => ""
  end.

(** One iteration of the collecting loop: what [fare] appends, if anything. *)
Definition entry_of (fare : option Fare) : option entry :=
  match fare with
  | None => None
  | Some f =>
      if unavailable f then None
      else
        match price f with
        | None => None
        | Some p =>
            match value p with
            | None => None
            | Some v =>
                if truthy_num v then
                  Some (mkEntry (match day f with Some d => d | None => "" end)
                                v
                                (match currencyCode p with
                                 | Some c => c | None => "MAD" end)
                                (clock (departureDate f))
                                (clock (arrivalDate f)))
                else None
            end
        end
  end.

Definition valid_entries (fares : Fares) : list entry :=
  flat_map (fun x => match entry_of x with Some e => [e] | None => [] end) fares.

Definition by_price (x y : entry) : bool :=
  Qle_bool (entry_price x) (entry_price y).

Definition by_date (x y : entry) : bool :=
  String.leb (entry_date x) (entry_date y).

(** A line of the list: the green mark, the day name and the fare. *)
Record row : Type := mkRow {
  is_lowest : bool;
  day_name : string;
  shown : entry
}.

(** The display loop; [weekday d] is
    [datetime.strptime(d, '%Y-%m-%d').strftime('%a')], [None] when [strptime]
    raises. *)
Fixpoint rows_of (weekday : string -> option string) (low : entry)
         (l : list entry) : option (list row) :=
  match l with
  | [] => Some []
  | e :: l' =>
      match weekday (entry_date e), rows_of weekday low l' with
      | Some d, Some rows =>
          Some (mkRow (Qeq_bool (entry_price e) (entry_price low)) d e :: rows)
      | _, _ => None
      end
  end.

(** What [get_flight_prices_formatted] returns. *)
Inductive formatted : Type :=
| NoFlightsFound
| NoFaresAvailable
| ErrorFetching
| PriceList (best : entry) (best_day : string) (rows : list row)
            (more : option nat).

(** [get_flight_prices_formatted(days)]: every exception, of the fetch or of
    [strptime], ends in the error text. *)
Definition get_flight_prices_formatted (weekday : string -> option string)
           (r : FetchResult) : formatted :=
  match r with
  | FetchError => ErrorFetching
  | FetchOk [] => NoFlightsFound
  | FetchOk fares =>
      match ryanair_api.sorted by_price (valid_entries fares) with
      | [] => NoFaresAvailable
      | (low :: _) as valid_fares =>
          match weekday (entry_date low) with
          | None => ErrorFetching
          | Some d =>
              match rows_of weekday low
                            (ryanair_api.sorted by_date (firstn 15 valid_fares))
              with
              | None => ErrorFetching
              | Some rows =>
                  PriceList low d rows
                    (if Nat.ltb 15 (List.length valid_fares)
                     then Some (List.length valid_fares - 15)%nat
                     else None)
              end
          end
      end
  end.

(** [sum(1 for a in price_alerts.values() if a.get("active"))] in [main]. *)
Definition alerts_count (st : state) : nat :=
  List.length (filter (fun item => active (snd item)) (price_alerts st)).
End telegram_bot.

(** ** bot.py *)

Module bot.

(** A value of [alerts]: [{"price": float, "channel": id, "active": bool}]
    (the key ["price"] is [alert_price] here, [price] being the fare's). *)
Record alert : Type := mkAlert {
  alert_price : pyfloat;
  channel : Z;
  active : bool
}.

Record state : Type := mkState {
  alerts : dict alert;
  ALERTS_FILE : file (dict alert)
}.

Definition load_alerts (st : state) : state :=
  mkState (read_file [] (alerts st) (ALERTS_FILE st)) (ALERTS_FILE st).

(** [save_alerts()]: [except: pass]. *)
Definition save_alerts (st : state) (w : write_outcome) : state :=
  mkState (alerts st) (write_file (alerts st) (ALERTS_FILE st) w).

(** An element of the list built by [get_flights]:
    [{"date", "price", "currency", "dep", "arr"}]. *)
Record flight : Type := mkFlight {
  date : string;
  flight_price : Q;
  flight_currency : string;
  dep : string;
  arr : string
}.

(** The comprehension's condition
    [f and f.get("price") and not f.get("unavailable")]. *)
Definition selected (f : Fare) : bool :=
  match price f with
  | Some _ => negb (unavailable f)
  | None => false
  end.

(** [f[key][11:16] if f.get(key) else "N/A"]. *)
Definition time_of (s : stamp) : string :=
  match s with
  | At t => if truthy_str t then hhmm t else "N/A"
  | Null => "N/A"
  | NoKey => "N/A"
  end.

(** The comprehension's element; [None] is the [KeyError] of [f["day"]],
    [f["price"]["value"]] or [f["price"]["currencyCode"]] on an absent
    key. *)
Definition flight_of (f : Fare) : option flight :=
  match day f, price f with
  | Some d, Some p =>
      match value p, currencyCode p with
      | Some v, Some c =>
          Some (mkFlight d v c (time_of (departureDate f))
                         (time_of (arrivalDate f)))
      | _, _ => None
      end
  | _, _ => None
  end.

Fixpoint comprehension (fares : Fares) : option (list flight) :=
  match fares with
  | [] => Some []
  | None :: rest => comprehension rest
  | Some f :: rest =>
      if selected f then
        match flight_of f, comprehension rest with
        | Some x, Some xs => Some (x :: xs)
        | _, _ => None
        end
      else comprehension rest
  end.

Definition price_le (x y : flight) : bool :=
  Qle_bool (flight_price x) (flight_price y).

(** [get_flights()]: the bare [except] turns every exception, of the fetch
    or of the comprehension, into the empty list. *)
Definition get_flights (r : FetchResult) : list flight :=
  match r with
  | FetchError => []
  | FetchOk fares =>
      match comprehension fares with
      | Some l => ryanair_api.sorted price_le l
      | None => []
      end
  end.

Definition get_lowest (r : FetchResult) : option flight :=
  match get_flights r with
  | x :: _ => Some x
  | [] => None
  end.

Inductive reply : Type :=
| AlertSet (target : pyfloat)
| NoActiveAlert
| YourAlert (a : alert) (current : option flight)
| AlertDisabled.

(** [/alert price]. *)
Definition cmd_alert (st : state) (uid channel_id : Z) (target : pyfloat)
           (w : write_outcome) : state * reply :=
  let st1 :=
    mkState (dict_set uid (mkAlert target channel_id true) (alerts st))
            (ALERTS_FILE st) in
  (save_alerts st1 w, AlertSet target).

(** [/myalert]. *)
Definition cmd_myalert (st : state) (uid : Z) (r : FetchResult) : reply :=
  match dict_get uid (alerts st) with
  | Some a =>
      if active a then YourAlert a (get_lowest r) else NoActiveAlert
  | None => NoActiveAlert
  end.

(** [/stopalert]: the same reply whether or not an alert existed. *)
Definition cmd_stopalert (st : state) (uid : Z) (w : write_outcome)
  : state * reply :=
  match dict_get uid (alerts st) with
  | Some a =>
      let st1 :=
        mkState (dict_set uid (mkAlert (alert_price a) (channel a) false)
                          (alerts st))
                (ALERTS_FILE st) in
      (save_alerts st1 w, AlertDisabled)
  | None => (st, AlertDisabled)
  end.

(** The client as the loop sees it: [bot.get_channel(id)] finds the channel
    or returns [None]; [channel.send] returns or raises. *)
Record client : Type := mkClient {
  get_channel : Z -> bool;
  send : Z -> bool
}.

(** The embed, by the values interpolated into it. *)
Record embed : Type := mkEmbed {
  mention : Z;
  embed_target : pyfloat;
  embed_current : Q;
  embed_date : string
}.

(** How the coroutine ends: it returns, or an exception of [channel.send]
    leaves the [for] loop (there is no [try] around it). *)
Inductive ending : Type :=
| Returned
| Raised (uid : Z).

(** The [for uid, data in list(alerts.items())] loop: the embeds sent to
    channels, in order, and how the loop ended.  The guard is
    [not data.get("active") or lowest["price"] > data["price"]]. *)
Fixpoint alert_loop (c : client) (low : flight) (items : dict alert)
  : list (Z * embed) * ending :=
  match items with
  | [] => ([], Returned)
  | (uid, data) :: rest =>
      if negb (active data) || gt_float (flight_price low) (alert_price data)
      then alert_loop c low rest
      else if get_channel c (channel data) then
        if send c (channel data) then
          let (sent, e) := alert_loop c low rest in
          ((channel data,
            mkEmbed uid (alert_price data) (flight_price low) (date low))
             :: sent, e)
        else ([], Raised uid)
      else alert_loop c low rest
  end.

(** One iteration of the [check_alerts] task. *)
Definition check_alerts (c : client) (st : state) (r : FetchResult)
  : state * (list (Z * embed) * ending) :=
  match get_lowest r with
  | None => (st, ([], Returned))
  | Some low => (st, alert_loop c low (alerts st))
  end.

(** [min(prices)] and [max(prices)] on a non-empty list: the first smallest
    and the first largest element. *)
Definition py_min (x : Q) (l : list Q) : Q :=
  fold_left (fun m v => if Qltb v m then v else m) l x.

Definition py_max (x : Q) (l : list Q) : Q :=
  fold_left (fun m v => if Qltb m v then v else m) l x.

(** What [make_stats_embed] shows; the average is a float division and is
    left out. *)
Inductive stats_embed : Type :=
| NoData
| Statistics (low high : Q) (total : nat) (best_day : string).

Definition make_stats_embed (r : FetchResult) : stats_embed :=
  match get_flights r with
  | [] => NoData
  | x :: rest =>
      Statistics (py_min (flight_price x) (map flight_price rest))
                 (py_max (flight_price x) (map flight_price rest))
                 (List.length (x :: rest))
                 (date x)
  end.

Definition date_le (x y : flight) : bool := String.leb (date x) (date y).

(** A line of the flights field: the green mark, the day name, the flight. *)
Record row : Type := mkRow {
  is_lowest : bool;
  day_name : string;
  shown : flight
}.

(** The loop over [sorted(flights[:15], key=date)]; [weekday d] is
    [datetime.strptime(d, '%Y-%m-%d').strftime('%a')], [None] when [strptime]
    raises. *)
Fixpoint rows_of (weekday : string -> option string) (lowest : Q)
         (l : list flight) : option (list row) :=
  match l with
  | [] => Some []
  | f :: l' =>
      match weekday (date f), rows_of weekday lowest l' with
      | Some d, Some rows =>
          Some (mkRow (Qeq_bool (flight_price f) lowest) d f :: rows)
      | _, _ => None
      end
  end.

Inductive prices_embed : Type :=
| NoFlights
| NoFlightsUnder (limit : Q)
| Flights (filtered : bool) (found : nat) (rows : list row)
| PricesRaise.            (* the uncaught [ValueError] of [strptime] *)

(** The part of [make_prices_embed] after the limit filter. *)
Definition prices_field (weekday : string -> option string) (filtered : bool)
           (flights : list flight) (lowest : Q) : prices_embed :=
  match rows_of weekday lowest
                (ryanair_api.sorted date_le (firstn 15 flights)) with
  | Some rows => Flights filtered (List.length flights) rows
  | None => PricesRaise
  end.

(** [make_prices_embed(limit)]; [if limit:] is false for [None] and for 0.
    Every call in the repository leaves [limit] out; a limit is a number
    here. *)
Definition make_prices_embed (weekday : string -> option string)
           (limit : option Q) (r : FetchResult) : prices_embed :=
  match get_flights r with
  | [] => NoFlights
  | (x :: _) as flights =>
      match limit with
      | Some l =>
          if truthy_num l then
            match filter (fun f => Qle_bool (flight_price f) l) flights with
            | [] => NoFlightsUnder l
            | (y :: _) as under =>
                prices_field weekday true under (flight_price y)
            end
          else prices_field weekday false flights (flight_price x)
      | None => prices_field weekday false flights (flight_price x)
      end
  end.

(** What the modal answers. *)
Inductive modal_reply : Type :=
| ModalAlertSet (target : pyfloat) (already_at : option Q)
| ModalInvalidPrice.

(** [AlertModal.on_submit]: [text] is the input field, [float] Python's
    [float()] ([None] for [ValueError]). *)
Definition on_submit (float : string -> option pyfloat) (st : state)
           (uid channel_id : Z) (text : string) (w : write_outcome)
           (r : FetchResult) : state * modal_reply :=
  match float text with
  | Some target =>
      let st1 :=
        mkState (dict_set uid (mkAlert target channel_id true) (alerts st))
                (ALERTS_FILE st) in
      (save_alerts st1 w,
       ModalAlertSet target
         (match get_lowest r with
          | Some low =>
              if le_float (flight_price low) target
              then Some (flight_price low) else None
          | None => None
          end))
  | None => (st, ModalInvalidPrice)
  end.
End bot.

(** * Vocabulary of the properties *)

(** ** The lowest fare (C1) *)

(** A fare counts for the lowest-price query when it is not flagged
    unavailable and carries a non-zero price value: the tests of the loop in
    [get_current_lowest_price]. *)
Definition available (f : Fare) : bool :=
  negb (unavailable f)
  && match ryanair_api.price_value f with
     | Some v => truthy_num v
     | None => false
     end.

Definition day_of (f : Fare) : string :=
  match day f with Some d => d | None => "" end.

(** [r] is read off fare [f]. *)
Definition reads (r : telegram_bot.lowest) (f : Fare) : Prop :=
  available f = true
  /\ ryanair_api.price_value f = Some (telegram_bot.lowest_price r)
  /\ telegram_bot.lowest_date r = day_of f
  /\ telegram_bot.currency r
     = match price f with
       | Some p => match currencyCode p with Some c => c | None => "MAD" end
       | None => "MAD"
       end.

(** [r] is the first fare of minimum price in [fares]: every available fare
    listed before it is strictly dearer, every one after it is at least as
    dear. *)
Definition first_minimum (fares : Fares) (r : telegram_bot.lowest) : Prop :=
  exists pre f post,
    fares = pre ++ Some f :: post
    /\ reads r f
    /\ (forall g w, In (Some g) pre -> available g = true ->
                    ryanair_api.price_value g = Some w ->
                    telegram_bot.lowest_price r < w)
    /\ (forall g w, In (Some g) post -> available g = true ->
                    ryanair_api.price_value g = Some w ->
                    telegram_bot.lowest_price r <= w).

Definition none_available (fares : Fares) : Prop :=
  forall f, In (Some f) fares -> available f = false.

(** The lowest-fare rule as the specification words it: minimum price among
    the available fares, the earliest date among equal minimum prices (dates
    are ISO strings, compared as strings), nothing exactly when no fare is
    available. *)
Definition Lowest_by_earliest_date (fares : Fares)
           (res : option telegram_bot.lowest) : Prop :=
  match res with
  | None => none_available fares
  | Some r =>
      (exists f, In (Some f) fares /\ reads r f)
      /\ forall g w, In (Some g) fares -> available g = true ->
                     ryanair_api.price_value g = Some w ->
                     telegram_bot.lowest_price r <= w
                     /\ (w == telegram_bot.lowest_price r ->
                         String.leb (telegram_bot.lowest_date r) (day_of g)
                         = true)
  end.

(** The loop invariant: what the accumulator says about the fares seen. *)
Definition best_so_far (seen : Fares) (acc : option telegram_bot.lowest)
  : Prop :=
  match acc with
  | None => none_available seen
  | Some r => first_minimum seen r
  end.

(** The summary [(price, date, currency)] of a flight of [bot.get_flights]. *)
Definition summary (x : bot.flight) : telegram_bot.lowest :=
  telegram_bot.mkLowest (bot.flight_price x) (bot.date x) (bot.flight_currency x).

(** A fare that [bot.get_flights] selects is complete when it carries a day,
    a currency code and a non-zero price value. *)
Definition complete (f : Fare) : bool :=
  implb (bot.selected f)
        (available f
         && match bot.flight_of f with Some _ => true | None => false end).

Definition all_complete (fares : Fares) : bool :=
  forallb (fun o => match o with Some f => complete f | None => true end) fares.

(** What a fare contributes to the loop of [get_current_lowest_price]. *)
Definition candidate (x : option Fare) : option telegram_bot.lowest :=
  match x with
  | Some f =>
      if available f then
        match price f with
        | Some p =>
            match value p with
            | Some v =>
                Some (telegram_bot.mkLowest v (day_of f)
                        (match currencyCode p with
                         | Some c => c | None => "MAD" end))
            | None => None
            end
        | None => None
        end
      else None
  | None => None
  end.

(** The earlier of two results wins unless the later is strictly cheaper. *)
Definition earlier_or_cheaper (a c : telegram_bot.lowest) : telegram_bot.lowest :=
  if Qle_bool (telegram_bot.lowest_price a) (telegram_bot.lowest_price c)
  then a else c.

Definition merge (a c : option telegram_bot.lowest) : option telegram_bot.lowest :=
  match a, c with
  | None, _ => c
  | Some _, None => a
  | Some x, Some y => Some (earlier_or_cheaper x y)
  end.

(** A fare of the AGA-FEZ route as the provider sends it: day [d], price
    [v] MAD, the 09:35 departure. *)
Definition fare (d : string) (v : Q) (gone : bool) : Fare :=
  mkFare (Some d) (Some (mkPrice (Some v) (Some "MAD"))) gone
         (At (d ++ "T09:35:00.000")%string)
         (At (d ++ "T10:55:00.000")%string).

(** The fares array lists its entries in ascending date order, as the
    provider's per-day listing does. *)
Fixpoint days_ascending (fares : Fares) : bool :=
  match fares with
  | [] => true
  | None :: rest => days_ascending rest
  | Some f :: rest =>
      forallb (fun o => match o with
                        | Some g => String.leb (day_of f) (day_of g)
                        | None => true
                        end) rest
      && days_ascending rest
  end.

Definition march_fares : Fares :=
  [Some (fare "2025-03-01" 180 false);
   Some (fare "2025-03-04" 150 false);
   None;
   Some (fare "2025-03-08" 150 true);
   Some (fare "2025-03-11" 150 false)].

(** Two fares at the same minimum price, the later date listed first. *)
Definition unordered_fares : Fares :=
  [Some (fare "2025-03-08" 150 false); Some (fare "2025-03-04" 150 false)].

(** ** Failed fetches (C2) *)

(** The alert task over a history of fetch outcomes. *)
Fixpoint ticks (c : bot.client) (st : bot.state) (history : list FetchResult)
  : bot.state :=
  match history with
  | [] => st
  | r :: rest => ticks c (fst (bot.check_alerts c st r)) rest
  end.

Fixpoint job_runs (send_ok : Z -> bool) (st : telegram_bot.state)
         (history : list FetchResult) : telegram_bot.state :=
  match history with
  | [] => st
  | r :: rest =>
      job_runs send_ok (fst (telegram_bot.check_alerts_job send_ok st r)) rest
  end.

(** The failure handling as the specification words it: the caller can tell
    a failed fetch from a fetched fare set, and a tick whose fetch fails
    evaluates the alerts against the fares of the previous successful tick. *)
Definition Fetch_error_reported : Prop :=
  forall fares, bot.get_flights FetchError <> bot.get_flights (FetchOk fares).

Definition Stale_snapshot_evaluated : Prop :=
  forall c st fares,
    let st1 := fst (bot.check_alerts c st (FetchOk fares)) in
    snd (bot.check_alerts c st1 FetchError)
    = snd (bot.check_alerts c st1 (FetchOk fares)).

Definition always_delivers : bot.client :=
  bot.mkClient (fun _ => true) (fun _ => true).

Definition one_alert_160 : bot.state :=
  bot.mkState [(7%Z, bot.mkAlert 160 42%Z true)]
              (Stored [(7%Z, bot.mkAlert 160 42%Z true)]).

(** ** Persistence of alerts (C3) *)

(** Memory and disk agree. *)
Definition in_sync (st : bot.state) : Prop :=
  bot.ALERTS_FILE st = Stored (bot.alerts st).

(** Atomic persistence as the specification words it: starting in sync, a
    subscribe or unsubscribe ends in sync whatever happens to the write (the
    write took effect, or the in-memory change was rolled back). *)
Definition Persistence_atomic : Prop :=
  forall st uid channel_id target w,
    in_sync st ->
    in_sync (fst (bot.cmd_alert st uid channel_id target w))
    /\ in_sync (fst (bot.cmd_stopalert st uid w)).

Definition fresh : bot.state := bot.mkState [] (Stored []).

(** [float()] on the literals used in the examples. *)
Definition float_of (s : string) : option pyfloat :=
  if String.eqb s "160" then Some (Finite 160)
  else if String.eqb s "140" then Some (Finite 140)
  else if String.eqb s "nan" then Some NaN
  else None.

(** ** Who is notified on a tick (C4) *)

(** The alert condition: the alert is active and the lowest price is at or
    below its target. *)
Definition tg_due (low : telegram_bot.lowest) (item : Z * telegram_bot.alert)
  : bool :=
  telegram_bot.active (snd item)
  && le_float (telegram_bot.lowest_price low)
              (telegram_bot.target_price (snd item)).

Definition due (low : bot.flight) (item : Z * bot.alert) : bool :=
  bot.active (snd item)
  && le_float (bot.flight_price low) (bot.alert_price (snd item)).

Definition is_nan (t : pyfloat) : bool :=
  match t with NaN => true | _ => false end.

(** What the guard of the Discord loop lets through: the alert is active
    and the lowest price is not above its target.  That is a due alert, or
    an active alert whose target is NaN. *)
Definition passes (low : bot.flight) (item : Z * bot.alert) : bool :=
  bot.active (snd item)
  && negb (gt_float (bot.flight_price low) (bot.alert_price (snd item))).

(** No stored target is NaN. *)
Definition targets_are_numbers (items : dict bot.alert) : bool :=
  forallb (fun item => negb (is_nan (bot.alert_price (snd item)))) items.

(** The send attempted for a due alert. *)
Definition tg_notify (send_ok : Z -> bool) (low : telegram_bot.lowest)
           (item : Z * telegram_bot.alert) : telegram_bot.event :=
  let m := telegram_bot.mkMessage
             (telegram_bot.target_price (snd item))
             (telegram_bot.lowest_price low)
             (telegram_bot.currency low) (telegram_bot.lowest_date low) in
  if send_ok (fst item) then telegram_bot.Sent (fst item) m
  else telegram_bot.SendFailed (fst item) m.

Definition notify (low : bot.flight) (item : Z * bot.alert) : Z * bot.embed :=
  (bot.channel (snd item),
   bot.mkEmbed (fst item) (bot.alert_price (snd item))
               (bot.flight_price low) (bot.date low)).

(** The Discord loop also needs the stored channel id to resolve. *)
Definition reachable (c : bot.client) (item : Z * bot.alert) : bool :=
  bot.get_channel c (bot.channel (snd item)).

(** No [channel.send] that the loop attempts raises. *)
Definition sends_succeed (c : bot.client) (low : bot.flight)
           (items : dict bot.alert) : bool :=
  forallb (fun item => implb (passes low item && reachable c item)
                             (bot.send c (bot.channel (snd item))))
          items.

(** The rule as the specification words it, for the Discord task: the users
    notified on a tick are exactly those with a due alert. *)
Definition Notifies_exactly_due : Prop :=
  forall c st r low,
    bot.get_lowest r = Some low ->
    map (fun e => bot.mention (snd e)) (fst (snd (bot.check_alerts c st r)))
    = map fst (filter (due low) (bot.alerts st)).

Definition knows_no_channel : bot.client :=
  bot.mkClient (fun _ => false) (fun _ => true).

Definition three_alerts : bot.state :=
  bot.mkState [(7%Z, bot.mkAlert 160 42%Z true);
               (8%Z, bot.mkAlert 140 43%Z true);
               (9%Z, bot.mkAlert 155 44%Z true)]
              Absent.

Definition tg_three_alerts : telegram_bot.state :=
  telegram_bot.mkState
    [(7%Z, telegram_bot.mkAlert 160 true "2025-02-01T10:00:00");
     (8%Z, telegram_bot.mkAlert 140 true "2025-02-02T10:00:00");
     (9%Z, telegram_bot.mkAlert 155 false "2025-02-03T10:00:00")]
    Absent.

(** ** Unavailable and zero-price fares in listings (C5) *)

(** A fare flagged unavailable, with a price. *)
Definition sold_out : Fare := fare "2025-03-08" 150 true.

(** A fare whose price object has the value zero. *)
Definition free_seat : Fare := fare "2025-03-04" 0 false.

(** A decimal digit. *)
Definition digit (a : Ascii.ascii) : option Z :=
  let n := Z.of_nat (Ascii.nat_of_ascii a) in
  if ((48 <=? n) && (n <=? 57))%Z then Some (n - 48)%Z else None.

(** The date written as zero-padded [YYYY-MM-DD]. *)
Definition iso_date (s : string) : option datetime.date :=
  match s with
  | String y1 (String y2 (String y3 (String y4 (String "-"%char
      (String m1 (String m2 (String "-"%char
         (String d1 (String d2 EmptyString))))))))) =>
      match digit y1, digit y2, digit y3, digit y4,
            digit m1, digit m2, digit d1, digit d2 with
      | Some a, Some b, Some c, Some d, Some e, Some f, Some g, Some h =>
          Some (datetime.mkDate (1000 * a + 100 * b + 10 * c + d)%Z
                                (10 * e + f)%Z (10 * g + h)%Z)
      | _, _, _, _, _, _, _, _ => None
      end
  | _ => None
  end.

(** [date.strftime('%a')]: [toordinal() + 6] modulo 7, Monday first. *)
Definition day_abbr (d : datetime.date) : string :=
  nth (Z.to_nat ((datetime.ymd2ord d + 6) mod 7))
      ["Mon"; "Tue"; "Wed"; "Thu"; "Fri"; "Sat"; "Sun"] "".

(** The [weekday] used in the examples:
    [datetime.strptime(s, '%Y-%m-%d').strftime('%a')] on zero-padded dates
    (the unpadded spellings [strptime] also accepts are not needed there). *)
Definition weekday_iso (s : string) : option string :=
  match iso_date s with
  | Some d => if datetime.valid d then Some (day_abbr d) else None
  | None => None
  end.

(** [date.strftime('%A')]. *)
Definition day_full (d : datetime.date) : string :=
  nth (Z.to_nat ((datetime.ymd2ord d + 6) mod 7))
      ["Monday"; "Tuesday"; "Wednesday"; "Thursday"; "Friday"; "Saturday";
       "Sunday"] "".

(** [datetime.strptime(s, '%Y-%m-%d').strftime('%A')] on zero-padded
    dates. *)
Definition weekday_full (s : string) : option string :=
  match iso_date s with
  | Some d => if datetime.valid d then Some (day_full d) else None
  | None => None
  end.

(** The fares a listing shows. *)
Definition listed (out : list ryanair_api.line) : list (string * Q) :=
  flat_map (fun l => match l with
                     | ryanair_api.FareLine d amount _ => [(d, amount)]
                     | ryanair_api.Text _ => []
                     end) out.

(** ** The query window (C6) *)

Module calendar.
Import datetime.
Open Scope Z_scope.

(** [ord2ymd] after its first [divmod]: [n400] whole 400-year cycles and
    [r] days into the current one. *)
Definition within_cycle (n400 r : Z) : date :=
  let n100 := r / DI100Y in
  let n := r mod DI100Y in
  let n4 := n / DI4Y in
  let n := n mod DI4Y in
  let n1 := n / 365 in
  let n := n mod 365 in
  let y := n400 * 400 + 1 + n100 * 100 + n4 * 4 + n1 in
  if (n1 =? 4) || (n100 =? 4) then mkDate (y - 1) 12 31
  else
    let leapyear := (n1 =? 3) && (negb (n4 =? 24) || (n100 =? 3)) in
    let m := Z.shiftr (n + 50) 5 in
    let preceding :=
      DAYS_BEFORE_MONTH m + (if (2 <? m) && leapyear then 1 else 0) in
    if n <? preceding then
      let m' := m - 1 in
      let preceding' :=
        preceding
        - (DAYS_IN_MONTH m' + (if (m' =? 2) && leapyear then 1 else 0)) in
      mkDate y m' (n - preceding' + 1)
    else mkDate y m (n - preceding + 1).

(** The same day [q] cycles of 400 years later. *)
Definition shift (q : Z) (d : date) : date :=
  mkDate (year d + 400 * q) (month d) (dayOfMonth d).

(** [P] holds at [r], [r+1], ..., [r + fuel - 1]. *)
Fixpoint all_from (P : Z -> bool) (fuel : nat) (r : Z) : bool :=
  match fuel with
  | O => true
  | S k => P r && all_from P k (r + 1)
  end.

(** What is checked on each day [r] of one 400-year cycle: the date
    converts back to its ordinal, is a calendar date, and its year is within
    the cycle (the last 366 days being year 400). *)
Definition day_checks (r : Z) : bool :=
  let d := within_cycle 0 r in
  (ymd2ord d =? r + 1)
  && (1 <=? month d) && (month d <=? 12)
  && (1 <=? dayOfMonth d) && (dayOfMonth d <=? days_in_month (year d) (month d))
  && (1 <=? year d) && (year d <=? 400)
  && ((145730 <? r) || (year d <=? 399)).

(** The window of a query, in days from its first to its last date. *)
Definition span (q : ryanair_api.query) : Z :=
  ymd2ord (ryanair_api.outboundDateTo q)
  - ymd2ord (ryanair_api.outboundDateFrom q).

(** The window as the specification words it: it ends [windowDays] days
    after [windowStart]. *)
Definition Window_is_start_plus_days : Prop :=
  forall date_out flex_days q,
    ryanair_api.get_cheapest_fares date_out flex_days = Some q ->
    ryanair_api.outboundDateFrom q = date_out /\ span q = flex_days.
End calendar.

(** ** Delivery failures (C9) *)

(** A client whose send to channel 42 raises. *)
Definition channel_42_fails : bot.client :=
  bot.mkClient (fun _ => true) (fun ch => negb (Z.eqb ch 42)).

(** ** The flight list of the Discord bot *)

(** What the comprehension of [get_flights] yields for one fare. *)
Definition picked (o : option Fare) : list bot.flight :=
  match o with
  | Some f =>
      if bot.selected f then
        match bot.flight_of f with Some x => [x] | None => [] end
      else []
  | None => []
  end.

(** A selected fare on which the comprehension raises [KeyError]: it has a
    price object but lacks the key ["day"], or its price object lacks the
    key ["value"] or ["currencyCode"]. *)
Definition malformed (f : Fare) : bool :=
  bot.selected f
  && match bot.flight_of f with Some _ => false | None => true end.

Definition well_formed (fares : Fares) : bool :=
  forallb (fun o => match o with Some f => negb (malformed f) | None => true end)
          fares.

(** A fare that passes the filter but whose price object has no key
    ["currencyCode"]: [{"day": "2025-03-15", "price": {"value": 120},
    "unavailable": false, "departureDate": null, "arrivalDate": null}]. *)
Definition no_currency : Fare :=
  mkFare (Some "2025-03-15") (Some (mkPrice (Some 120) None)) false Null Null.

(** ** Statistics and price list of the Discord bot *)

(** The flights [make_prices_embed] keeps: all of them, or with a non-zero
    limit those at or below it. *)
Definition within (limit : option Q) (flights : list bot.flight)
  : list bot.flight :=
  match limit with
  | Some l =>
      if truthy_num l
      then filter (fun f => Qle_bool (bot.flight_price f) l) flights
      else flights
  | None => flights
  end.

(** ** The alert store and the alert loops *)

(** A command of the Discord bot that touches the alerts. *)
Inductive command : Type :=
| Alert (uid channel_id : Z) (target : pyfloat)
| StopAlert (uid : Z).

Definition subject (cmd : command) : Z :=
  match cmd with
  | Alert uid _ _ => uid
  | StopAlert uid => uid
  end.

Definition run_command (st : bot.state) (step : command * write_outcome)
  : bot.state :=
  match fst step with
  | Alert uid channel_id target =>
      fst (bot.cmd_alert st uid channel_id target (snd step))
  | StopAlert uid => fst (bot.cmd_stopalert st uid (snd step))
  end.

(** The commands of a session, each with what happened to its write. *)
Definition run (st : bot.state) (steps : list (command * write_outcome))
  : bot.state :=
  fold_left run_command steps st.

(** No step of [steps] is about [uid]. *)
Definition leaves_alone (uid : Z) (steps : list (command * write_outcome))
  : bool :=
  forallb (fun step => negb (Z.eqb (subject (fst step)) uid)) steps.

(** The alerts the Discord loop sends to: active, with the lowest price at
    or below the target or with a NaN target, and with a channel that
    resolves. *)
Definition deliverable (c : bot.client) (low : bot.flight)
           (item : Z * bot.alert) : bool :=
  bot.active (snd item)
  && (le_float (bot.flight_price low) (bot.alert_price (snd item))
      || is_nan (bot.alert_price (snd item)))
  && reachable c item.

(** The flight of the examples' lowest fare. *)
Definition tuesday_150 : bot.flight :=
  bot.mkFlight "2025-03-04" 150 "MAD" "09:35" "10:55".

(** The chat an event of the Telegram job is about. *)
Definition event_chat (e : telegram_bot.event) : Z :=
  match e with
  | telegram_bot.Sent chat _ => chat
  | telegram_bot.SendFailed chat _ => chat
  end.

(** ** The price list of the Telegram bot *)

(** The available fares of a response as [get_flight_prices_formatted]
    collects and orders them. *)
Definition cheapest_first (fares : Fares) : list telegram_bot.entry :=
  ryanair_api.sorted telegram_bot.by_price (telegram_bot.valid_entries fares).

(** Price, date and currency of a list entry. *)
Definition entry_summary (e : telegram_bot.entry) : telegram_bot.lowest :=
  telegram_bot.mkLowest (telegram_bot.entry_price e)
                        (telegram_bot.entry_date e)
                        (telegram_bot.entry_currency e).

(** Sixteen available fares on consecutive days, the dearest first. *)
Definition sixteen_fares : Fares :=
  map (fun n => Some (fare (String.append "2025-03-"
                              (String (Ascii.ascii_of_nat (48 + n / 10))
                                 (String (Ascii.ascii_of_nat (48 + n mod 10))
                                         EmptyString)))
                           (inject_Z (Z.of_nat (300 - n))) false))
      (seq 10 16).

(** ** The listings of the command-line tools *)

(** The fares [display_flights] keeps: those with a price object that are
    not flagged unavailable and, with a limit, are priced at or below it. *)
Definition kept (fares : Fares) (price_limit : option pyfloat) : list Fare :=
  match price_limit with
  | Some limit =>
      filter (fun f => match ryanair_api.price_value f with
                       | Some v => le_float v limit
                       | None => false
                       end)
             (check_flights.valid_fares fares)
  | None => check_flights.valid_fares fares
  end.

(** Order by day with a missing day last: [day_le] on fares with a day. *)
Definition day_key_le (f g : Fare) : bool :=
  match day f, day g with
  | Some d, Some e => String.leb d e
  | Some _, None => true
  | None, Some _ => false
  | None, None => true
  end.

(** The fare a row of [format_cheapest_fares] is printed from. *)
Definition has_amount (x : option Fare) : bool :=
  match x with
  | Some f =>
      match ryanair_api.price_value f with
      | Some v => truthy_num v
      | None => false
      end
  | None => false
  end.

(** A day that is no calendar date, with both timestamps. *)
Definition february_30 : Fare := fare "2025-02-30" 120 false.

(** Day and amount of the line printed for a fare. *)
Definition printed (f : Fare) : string * Q :=
  (day_of f,
   match ryanair_api.price_value f with Some v => v | None => 0 end).

(** ** The month queried by [get_monthly_prices] *)

(** The first day of the month after month [m] of year [y], as
    [get_monthly_prices] computes it. *)
Definition month_after (y m : Z) : datetime.date :=
  if (m =? 12)%Z then datetime.mkDate (y + 1) 1 1
  else datetime.mkDate y (m + 1) 1.

(** * Properties *)

(** ** The lowest fare (C1) *)

Lemma Qltb_true (v w : Q) : Qltb v w = true <-> v < w.
Proof.
  unfold Qltb. rewrite negb_true_iff, <- not_true_iff_false, Qle_bool_iff.
  split; [apply Qnot_le_lt | apply Qlt_not_le].
Qed.

Lemma Qltb_false (v w : Q) : Qltb v w = false <-> w <= v.
Proof.
  unfold Qltb. rewrite negb_false_iff. apply Qle_bool_iff.
Qed.

Lemma available_spec (f : Fare) :
  available f = true <->
  unavailable f = false
  /\ exists p v, price f = Some p /\ value p = Some v /\ truthy_num v = true.
Proof.
  unfold available, ryanair_api.price_value.
  rewrite andb_true_iff, negb_true_iff.
  destruct (price f) as [p|]; [destruct (value p) as [v|] eqn:Hv|]; split.
  - intros [H1 H2]. split; [exact H1|]. now exists p, v.
  - intros (H1 & p' & v' & Hp & Hv' & Ht). injection Hp as <-.
    rewrite Hv in Hv'. injection Hv' as <-. now split.
  - intros [_ H]. discriminate H.
  - intros (_ & p' & v' & Hp & Hv' & _). injection Hp as <-. congruence.
  - intros [_ H]. discriminate H.
  - intros (_ & p' & v' & Hp & _). discriminate Hp.
Qed.

Lemma first_minimum_lower_bound (fares : Fares) (r : telegram_bot.lowest) :
  first_minimum fares r ->
  forall g w, In (Some g) fares -> available g = true ->
              ryanair_api.price_value g = Some w ->
              telegram_bot.lowest_price r <= w.
Proof.
  intros (pre & f & post & -> & (Hav & Hval & _) & Hpre & Hpost) g w Hin Hg Hw.
  apply in_app_or in Hin. destruct Hin as [Hin | [Heq | Hin]].
  - apply Qlt_le_weak. eapply Hpre; eauto.
  - injection Heq as <-. rewrite Hval in Hw. injection Hw as <-.
    apply Qle_refl.
  - eapply Hpost; eauto.
Qed.

Lemma best_skip (seen : Fares) (acc : option telegram_bot.lowest)
      (x : option Fare) :
  (forall f, x = Some f -> available f = false) ->
  best_so_far seen acc -> best_so_far (seen ++ [x]) acc.
Proof.
  intros Hx. destruct acc as [r|]; simpl.
  - intros (pre & f & post & -> & Hr & Hpre & Hpost).
    exists pre, f, (post ++ [x]).
    split; [now rewrite <- app_assoc|].
    split; [assumption|]. split; [assumption|].
    intros g w Hin Hg Hw. apply in_app_or in Hin.
    destruct Hin as [Hin | [Heq | []]]; [eapply Hpost; eauto|].
    rewrite (Hx g Heq) in Hg. discriminate Hg.
  - intros Hnone f Hin. apply in_app_or in Hin.
    destruct Hin as [Hin | [Heq | []]]; auto.
Qed.

Lemma best_later (seen : Fares) (r : telegram_bot.lowest) (f : Fare) (v : Q) :
  ryanair_api.price_value f = Some v ->
  telegram_bot.lowest_price r <= v ->
  first_minimum seen r -> first_minimum (seen ++ [Some f]) r.
Proof.
  intros Hv Hle (pre & f0 & post & -> & Hr & Hpre & Hpost).
  exists pre, f0, (post ++ [Some f]).
  split; [now rewrite <- app_assoc|].
  split; [assumption|]. split; [assumption|].
  intros g w Hin Hg Hw. apply in_app_or in Hin.
  destruct Hin as [Hin | [Heq | []]]; [eapply Hpost; eauto|].
  injection Heq as <-. rewrite Hv in Hw. now injection Hw as <-.
Qed.

Lemma best_new (seen : Fares) (acc : option telegram_bot.lowest)
      (f : Fare) (p : Price) (v : Q) :
  available f = true -> price f = Some p -> value p = Some v ->
  match acc with
  | None => True
  | Some r => v < telegram_bot.lowest_price r
  end ->
  best_so_far seen acc ->
  first_minimum (seen ++ [Some f])
    (telegram_bot.mkLowest v (day_of f)
       (match currencyCode p with Some c => c | None => "MAD" end)).
Proof.
  intros Hav Hp Hv Hlt Hbest.
  exists seen, f, []. split; [reflexivity|]. split; [|split].
  - unfold reads; simpl. split; [assumption|]. split; [|split].
    + unfold ryanair_api.price_value. now rewrite Hp.
    + reflexivity.
    + now rewrite Hp.
  - simpl. intros g w Hin Hg Hw. destruct acc as [r|]; simpl in Hbest.
    + eapply Qlt_le_trans; [exact Hlt|].
      eapply first_minimum_lower_bound; eauto.
    + rewrite (Hbest g Hin) in Hg. discriminate Hg.
  - intros g w [].
Qed.

Lemma lowest_step_keeps (seen : Fares) (acc : option telegram_bot.lowest)
      (x : option Fare) :
  best_so_far seen acc ->
  best_so_far (seen ++ [x]) (telegram_bot.lowest_step acc x).
Proof.
  intros Hbest. unfold telegram_bot.lowest_step.
  destruct x as [f|]; [|apply best_skip; [discriminate | assumption]].
  assert (Hskip : available f = false -> best_so_far (seen ++ [Some f]) acc).
  { intros Hf. apply best_skip; [|assumption].
    intros f' Heq. now injection Heq as <-. }
  unfold available, ryanair_api.price_value in Hskip.
  destruct (unavailable f) eqn:Hun; [now apply Hskip|].
  destruct (price f) as [p|] eqn:Hp; [|now apply Hskip].
  destruct (value p) as [v|] eqn:Hv; [|now apply Hskip].
  destruct (truthy_num v) eqn:Ht; [|now apply Hskip].
  assert (Hav : available f = true).
  { apply available_spec. split; [assumption|]. now exists p, v. }
  destruct acc as [r|]; simpl.
  - destruct (Qltb v (telegram_bot.lowest_price r)) eqn:Hcmp.
    + apply Qltb_true in Hcmp.
      apply (best_new seen (Some r) f p v); assumption.
    + apply Qltb_false in Hcmp.
      apply (best_later seen r f v); try assumption.
      unfold ryanair_api.price_value. now rewrite Hp.
  - apply (best_new seen None f p v); auto.
Qed.

Lemma lowest_fold_keeps (rest seen : Fares) (acc : option telegram_bot.lowest) :
  best_so_far seen acc ->
  best_so_far (seen ++ rest) (fold_left telegram_bot.lowest_step rest acc).
Proof.
  revert seen acc. induction rest as [|x rest IH]; intros seen acc Hbest.
  - now rewrite app_nil_r.
  - simpl. replace (seen ++ x :: rest) with ((seen ++ [x]) ++ rest)
      by now rewrite <- app_assoc.
    apply IH. now apply lowest_step_keeps.
Qed.

Lemma lowest_of_best (fares : Fares) :
  best_so_far fares (telegram_bot.lowest_of fares).
Proof.
  apply (lowest_fold_keeps fares [] None). intros f [].
Qed.

Lemma first_minimum_available (fares : Fares) (r : telegram_bot.lowest) :
  first_minimum fares r -> ~ none_available fares.
Proof.
  intros (pre & f & post & -> & (Hav & _) & _) Hnone.
  rewrite (Hnone f) in Hav; [discriminate|].
  apply in_or_app. right. now left.
Qed.

Lemma no_lowest_iff_none_available (fares : Fares) :
  none_available fares <->
  telegram_bot.get_current_lowest_price (FetchOk fares) = None.
Proof.
  simpl. pose proof (lowest_of_best fares) as Hbest.
  destruct (telegram_bot.lowest_of fares) as [r|]; simpl in Hbest.
  - split; [|discriminate]. intros Hnone.
    now destruct (first_minimum_available fares r Hbest).
  - now split.
Qed.

Lemma lowest_step_merge (acc : option telegram_bot.lowest) (x : option Fare) :
  telegram_bot.lowest_step acc x = merge acc (candidate x).
Proof.
  unfold telegram_bot.lowest_step, candidate, available,
    ryanair_api.price_value.
  destruct x as [f|]; [|now destruct acc].
  destruct (unavailable f); [now destruct acc|].
  destruct (price f) as [p|]; [|now destruct acc].
  destruct (value p) as [v|]; [|now destruct acc].
  simpl. destruct (truthy_num v); [|now destruct acc].
  destruct acc as [a|]; simpl; [|reflexivity].
  unfold earlier_or_cheaper, Qltb. simpl.
  now destruct (Qle_bool (telegram_bot.lowest_price a) v).
Qed.

Lemma Qle_bool_trans (a b c : Q) :
  Qle_bool a b = true -> Qle_bool b c = true -> Qle_bool a c = true.
Proof.
  rewrite !Qle_bool_iff. apply Qle_trans.
Qed.

Lemma Qle_bool_false_trans (a b c : Q) :
  Qle_bool a b = false -> Qle_bool b c = false -> Qle_bool a c = false.
Proof.
  rewrite <- !not_true_iff_false, !Qle_bool_iff. intros Hab Hbc Hac.
  apply Qnot_le_lt in Hab, Hbc. apply (Qlt_irrefl a).
  eapply Qle_lt_trans; [exact Hac|]. eapply Qlt_trans; eassumption.
Qed.

Lemma earlier_or_cheaper_assoc (a b c : telegram_bot.lowest) :
  earlier_or_cheaper (earlier_or_cheaper a b) c
  = earlier_or_cheaper a (earlier_or_cheaper b c).
Proof.
  unfold earlier_or_cheaper.
  destruct (Qle_bool (telegram_bot.lowest_price a) (telegram_bot.lowest_price b)) eqn:Hab;
    destruct (Qle_bool (telegram_bot.lowest_price b) (telegram_bot.lowest_price c)) eqn:Hbc;
    rewrite ?Hab, ?Hbc; try reflexivity.
  - now rewrite (Qle_bool_trans _ _ _ Hab Hbc).
  - now rewrite (Qle_bool_false_trans _ _ _ Hab Hbc).
Qed.

Lemma merge_assoc (a b c : option telegram_bot.lowest) :
  merge (merge a b) c = merge a (merge b c).
Proof.
  destruct a, b, c; simpl; try reflexivity.
  now rewrite earlier_or_cheaper_assoc.
Qed.

Lemma lowest_fold_right (fares : Fares) (acc : option telegram_bot.lowest) :
  fold_left telegram_bot.lowest_step fares acc
  = merge acc (fold_right (fun x r => merge (candidate x) r) None fares).
Proof.
  revert acc. induction fares as [|x rest IH]; intros acc; simpl.
  - now destruct acc.
  - now rewrite IH, lowest_step_merge, merge_assoc.
Qed.

Lemma sorted_head (l : list bot.flight) :
  match ryanair_api.sorted bot.price_le l with
  | x :: _ => Some x
  | [] => None
  end
  = fold_right
      (fun x r => Some match r with
                       | Some y => if bot.price_le x y then x else y
                       | None => x
                       end)
      None l.
Proof.
  induction l as [|x l IH]; [reflexivity|].
  simpl. rewrite <- IH.
  destruct (ryanair_api.sorted bot.price_le l) as [|y s]; simpl;
    [reflexivity|].
  now destruct (bot.price_le x y).
Qed.

Lemma complete_candidate (f : Fare) :
  complete f = true ->
  if bot.selected f
  then exists x, bot.flight_of f = Some x /\ candidate (Some f) = Some (summary x)
  else candidate (Some f) = None.
Proof.
  unfold complete, bot.selected, bot.flight_of, candidate, available,
    ryanair_api.price_value, day_of, summary.
  destruct (price f) as [p|]; simpl.
  - destruct (unavailable f); simpl; [reflexivity|].
    destruct (value p) as [v|]; [|discriminate].
    destruct (truthy_num v); [|discriminate]. simpl.
    destruct (day f) as [d|]; [|discriminate].
    destruct (currencyCode p) as [c|]; [|discriminate].
    intros _. eexists. split; reflexivity.
  - now rewrite andb_false_r.
Qed.

Lemma comprehension_lowest (fares : Fares) :
  all_complete fares = true ->
  exists l,
    bot.comprehension fares = Some l
    /\ option_map summary
         (match ryanair_api.sorted bot.price_le l with
          | x :: _ => Some x
          | [] => None
          end)
       = fold_right (fun x r => merge (candidate x) r) None fares.
Proof.
  induction fares as [|o rest IH]; simpl.
  - intros _. now exists [].
  - rewrite andb_true_iff. intros [Ho Hrest].
    destruct (IH Hrest) as (l & Hl & Hhd). destruct o as [f|].
    + apply complete_candidate in Ho.
      destruct (bot.selected f).
      * destruct Ho as (x & Hx & Hc). rewrite Hx, Hl, Hc, <- Hhd.
        exists (x :: l). split; [reflexivity|].
        rewrite sorted_head. simpl. rewrite <- sorted_head.
        destruct (ryanair_api.sorted bot.price_le l) as [|y s]; simpl;
          [reflexivity|].
        unfold earlier_or_cheaper, bot.price_le. simpl.
        now destruct (Qle_bool (bot.flight_price x) (bot.flight_price y)).
      * rewrite Ho. now exists l.
    + now exists l.
Qed.

Lemma get_lowest_agrees (fares : Fares) :
  all_complete fares = true ->
  option_map summary (bot.get_lowest (FetchOk fares))
  = telegram_bot.get_current_lowest_price (FetchOk fares).
Proof.
  intros H. destruct (comprehension_lowest fares H) as (l & Hl & Hhd).
  unfold bot.get_lowest, bot.get_flights. rewrite Hl.
  simpl. unfold telegram_bot.lowest_of.
  now rewrite lowest_fold_right, Hhd.
Qed.

Example lowest_scenario :
  telegram_bot.get_current_lowest_price
    (FetchOk [Some (fare "2025-03-01" 180 false);
              Some (fare "2025-03-04" 150 false);
              Some (fare "2025-03-08" 150 true)])
  = Some (telegram_bot.mkLowest 150 "2025-03-04" "MAD").
Proof. reflexivity. Qed.

Lemma days_ascending_split (pre : Fares) (f : Fare) (post : Fares) (g : Fare) :
  days_ascending (pre ++ Some f :: post) = true -> In (Some g) post ->
  String.leb (day_of f) (day_of g) = true.
Proof.
  induction pre as [|o pre IH]; simpl.
  - rewrite andb_true_iff, forallb_forall. intros [H _] Hin.
    exact (H (Some g) Hin).
  - destruct o as [h|]; [rewrite andb_true_iff; intros [_ H]|intros H];
      now apply IH.
Qed.

Lemma first_minimum_earliest (fares : Fares) (r : telegram_bot.lowest) :
  days_ascending fares = true -> first_minimum fares r ->
  Lowest_by_earliest_date fares (Some r).
Proof.
  intros Hasc Hmin. split.
  - destruct Hmin as (pre & f & post & -> & Hr & _).
    exists f. split; [|exact Hr]. apply in_or_app. right. now left.
  - intros g w Hin Hg Hw. split.
    + eapply first_minimum_lower_bound; eauto.
    + intros Heq.
      destruct Hmin as (pre & f & post & Hsplit & (_ & _ & Hd & _) & Hpre & _).
      rewrite Hsplit in Hin. apply in_app_or in Hin.
      destruct Hin as [Hin | [Hin | Hin]].
      * specialize (Hpre g w Hin Hg Hw). rewrite Heq in Hpre.
        now apply Qlt_irrefl in Hpre.
      * injection Hin as <-. rewrite Hd.
        now destruct (String.leb_total (day_of f) (day_of f)).
      * rewrite Hd. rewrite Hsplit in Hasc.
        eapply days_ascending_split; eauto.
Qed.

(** C1 (as amended).  On every fetched fares array the lowest-fare query of
    the Telegram bot returns nothing exactly when no fare is available (not
    flagged unavailable, non-zero price value); otherwise it returns the price,
    day and currency of an available fare of minimum price, namely the FIRST
    such fare of the array: every available fare before it is strictly dearer,
    every one after it at least as dear.  When the array is in ascending date
    order this is the earliest date among the minimum prices.  The Discord
    bot's [get_lowest] returns the same fare whenever every fare it selects
    carries a day, a currency code and a non-zero price value. *)
Theorem lowest_is_first_minimum (fares : Fares) :
  let res := telegram_bot.get_current_lowest_price (FetchOk fares) in
  (res = None <-> none_available fares)
  /\ match res with
     | Some r => first_minimum fares r
     | None => True
     end
  /\ (days_ascending fares = true -> Lowest_by_earliest_date fares res)
  /\ (all_complete fares = true ->
      option_map summary (bot.get_lowest (FetchOk fares)) = res).
Proof.
  simpl. pose proof (lowest_of_best fares) as Hbest.
  destruct (telegram_bot.lowest_of fares) as [r|] eqn:Hres; simpl in Hbest.
  - split; [|split; [exact Hbest|split]].
    + split; [discriminate|]. intros Hnone.
      now destruct (first_minimum_available fares r Hbest).
    + intros Hasc. now apply first_minimum_earliest.
    + intros Hc. rewrite <- Hres. now apply get_lowest_agrees.
  - split; [|split; [exact I|split]].
    + now split.
    + intros _. exact Hbest.
    + intros Hc. rewrite <- Hres. now apply get_lowest_agrees.
Qed.

Lemma lowest_is_first_minimum_witness :
  (days_ascending march_fares = true
   /\ Lowest_by_earliest_date march_fares
        (Some (telegram_bot.mkLowest 150 "2025-03-04" "MAD")))
  /\ (all_complete march_fares = true
      /\ option_map summary (bot.get_lowest (FetchOk march_fares))
         = Some (telegram_bot.mkLowest 150 "2025-03-04" "MAD")).
Proof.
  split; (split; [reflexivity|]).
  - exact (proj1 (proj2 (proj2 (lowest_is_first_minimum march_fares))) eq_refl).
  - exact (proj2 (proj2 (proj2 (lowest_is_first_minimum march_fares))) eq_refl).
Defined.

(** C1 (as stated) fails: with equal minimum prices the query returns the
    fare listed first, here 2025-03-08, although 2025-03-04 is earlier. *)
Lemma lowest_not_earliest_date :
  telegram_bot.get_current_lowest_price (FetchOk unordered_fares)
  = Some (telegram_bot.mkLowest 150 "2025-03-08" "MAD")
  /\ option_map summary (bot.get_lowest (FetchOk unordered_fares))
     = Some (telegram_bot.mkLowest 150 "2025-03-08" "MAD")
  /\ ~ (forall fares,
          Lowest_by_earliest_date fares
            (telegram_bot.get_current_lowest_price (FetchOk fares))).
Proof.
  split; [reflexivity|]. split; [reflexivity|].
  intros H. specialize (H unordered_fares). simpl in H.
  destruct H as [_ H].
  specialize (H (fare "2025-03-04" 150 false) 150).
  destruct H as [_ H].
  - right. now left.
  - reflexivity.
  - reflexivity.
  - specialize (H (Qeq_refl _)). discriminate H.
Qed.

(** ** Failed fetches (C2) *)

Lemma check_alerts_state (c : bot.client) (st : bot.state) (r : FetchResult) :
  fst (bot.check_alerts c st r) = st.
Proof.
  unfold bot.check_alerts. now destruct (bot.get_lowest r).
Qed.

Lemma ticks_state (c : bot.client) (history : list FetchResult)
      (st : bot.state) :
  ticks c st history = st.
Proof.
  induction history as [|r rest IH]; simpl; [reflexivity|].
  now rewrite check_alerts_state.
Qed.

Lemma check_alerts_job_state (send_ok : Z -> bool) (st : telegram_bot.state)
      (r : FetchResult) :
  fst (telegram_bot.check_alerts_job send_ok st r) = st.
Proof.
  unfold telegram_bot.check_alerts_job.
  destruct (telegram_bot.price_alerts st); [reflexivity|].
  now destruct (telegram_bot.get_current_lowest_price r).
Qed.

Lemma job_runs_state (send_ok : Z -> bool) (history : list FetchResult)
      (st : telegram_bot.state) :
  job_runs send_ok st history = st.
Proof.
  induction history as [|r rest IH]; simpl; [reflexivity|].
  now rewrite check_alerts_job_state.
Qed.

(** C2 (as amended).  A failed fetch is swallowed: [get_flights] returns the
    empty list and [get_current_lowest_price] returns nothing, exactly what
    they return for a response without fares.  No fare snapshot is kept
    between ticks, so whatever the earlier ticks fetched, a tick whose fetch
    fails sends no notification, ends normally and leaves the alerts as they
    were. *)
Theorem failed_fetch_is_empty_tick
        (c : bot.client) (send_ok : Z -> bool)
        (st : bot.state) (tst : telegram_bot.state)
        (history : list FetchResult) :
  bot.get_flights FetchError = bot.get_flights (FetchOk [])
  /\ bot.get_flights FetchError = []
  /\ telegram_bot.get_current_lowest_price FetchError
     = telegram_bot.get_current_lowest_price (FetchOk [])
  /\ telegram_bot.get_current_lowest_price FetchError = None
  /\ bot.check_alerts c (ticks c st history) FetchError
     = (st, ([], bot.Returned))
  /\ telegram_bot.check_alerts_job send_ok (job_runs send_ok tst history)
                                   FetchError
     = (tst, []).
Proof.
  rewrite ticks_state, job_runs_state.
  repeat split; try reflexivity.
  unfold telegram_bot.check_alerts_job.
  now destruct (telegram_bot.price_alerts tst).
Qed.

(** C2 (as stated) fails: the failed fetch returns what an empty response
    returns, and after a tick that fetched a fare of 150 and notified the
    alert at 160, the tick whose fetch fails notifies nobody. *)
Lemma failed_fetch_not_reported :
  ~ Fetch_error_reported
  /\ ~ Stale_snapshot_evaluated
  /\ snd (bot.check_alerts always_delivers one_alert_160
            (FetchOk [Some (fare "2025-03-04" 150 false)]))
     = ([(42%Z, bot.mkEmbed 7 160 150 "2025-03-04")], bot.Returned)
  /\ snd (bot.check_alerts always_delivers
            (ticks always_delivers one_alert_160
                   [FetchOk [Some (fare "2025-03-04" 150 false)]])
            FetchError)
     = ([], bot.Returned).
Proof.
  split; [|split; [|split; reflexivity]].
  - intros H. now apply (H []).
  - intros H.
    specialize (H always_delivers one_alert_160
                  [Some (fare "2025-03-04" 150 false)]).
    discriminate H.
Qed.

(** ** Persistence of alerts (C3) *)

Lemma dict_get_set_same {V : Type} (k : Z) (v : V) (d : dict V) :
  dict_get k (dict_set k v d) = Some v.
Proof.
  induction d as [|[k' v'] d IH]; simpl.
  - now rewrite Z.eqb_refl.
  - destruct (Z.eqb k k') eqn:Hk; simpl; now rewrite Hk.
Qed.

Lemma dict_get_set_other {V : Type} (k k' : Z) (v : V) (d : dict V) :
  k' <> k -> dict_get k' (dict_set k v d) = dict_get k' d.
Proof.
  intros Hne. induction d as [|[k0 v0] d IH]; simpl.
  - apply Z.eqb_neq in Hne. now rewrite Hne.
  - destruct (Z.eqb k k0) eqn:Hk; simpl.
    + apply Z.eqb_eq in Hk. subst k0.
      apply Z.eqb_neq in Hne. now rewrite Hne.
    + now rewrite IH.
Qed.

(** C3 (as amended).  Subscribe and unsubscribe always apply the change in
    memory and always answer as on success, whatever happens to the write.
    When the write succeeds the file holds exactly the in-memory alerts.  When
    it fails the exception is dropped, the in-memory change stays (there is
    no rollback) and the file is left as it was ([open] failed) or unparsable
    ([json.dump] failed). *)
Theorem save_failure_is_swallowed
        (st : bot.state) (uid channel_id : Z) (target : pyfloat)
        (w : write_outcome) :
  let sub := bot.cmd_alert st uid channel_id target w in
  let unsub := bot.cmd_stopalert st uid w in
  (snd sub = bot.AlertSet target
   /\ dict_get uid (bot.alerts (fst sub))
      = Some (bot.mkAlert target channel_id true))
  /\ (snd unsub = bot.AlertDisabled
      /\ forall a, dict_get uid (bot.alerts st) = Some a ->
                   dict_get uid (bot.alerts (fst unsub))
                   = Some (bot.mkAlert (bot.alert_price a) (bot.channel a)
                                       false))
  /\ (w = WriteOk ->
      in_sync (fst sub)
      /\ (dict_mem uid (bot.alerts st) = true -> in_sync (fst unsub)))
  /\ (w = OpenFails ->
      bot.ALERTS_FILE (fst sub) = bot.ALERTS_FILE st
      /\ bot.ALERTS_FILE (fst unsub) = bot.ALERTS_FILE st)
  /\ (w = DumpFails ->
      bot.ALERTS_FILE (fst sub) = Garbled
      /\ (dict_mem uid (bot.alerts st) = true ->
          bot.ALERTS_FILE (fst unsub) = Garbled)).
Proof.
  simpl. unfold bot.cmd_stopalert, dict_mem, in_sync.
  split; [split; [reflexivity | apply dict_get_set_same]|].
  destruct (dict_get uid (bot.alerts st)) as [a0|] eqn:Hget; simpl.
  - split; [split; [reflexivity|]|].
    + intros a Ha. injection Ha as <-. apply dict_get_set_same.
    + repeat split; subst w; reflexivity.
  - split; [split; [reflexivity | discriminate]|].
    repeat split; subst w; try reflexivity; discriminate.
Qed.

Lemma save_failure_is_swallowed_witness :
  (in_sync (fst (bot.cmd_alert one_alert_160 7 42 140 WriteOk))
   /\ in_sync (fst (bot.cmd_stopalert one_alert_160 7 WriteOk)))
  /\ bot.ALERTS_FILE (fst (bot.cmd_alert one_alert_160 7 42 140 OpenFails))
     = Stored [(7%Z, bot.mkAlert 160 42%Z true)]
  /\ bot.ALERTS_FILE (fst (bot.cmd_stopalert one_alert_160 7 DumpFails))
     = Garbled
  /\ dict_get 7 (bot.alerts (fst (bot.cmd_stopalert one_alert_160 7 DumpFails)))
     = Some (bot.mkAlert 160 42%Z false).
Proof.
  pose proof (save_failure_is_swallowed one_alert_160 7 42 140 WriteOk) as Hok.
  pose proof (save_failure_is_swallowed one_alert_160 7 42 140 OpenFails) as Ho.
  pose proof (save_failure_is_swallowed one_alert_160 7 42 140 DumpFails) as Hd.
  simpl in Hok, Ho, Hd.
  destruct Hok as (_ & _ & Hok & _).
  destruct Ho as (_ & _ & _ & Ho & _).
  destruct Hd as (_ & (_ & Hget) & _ & _ & Hd).
  split; [|split; [|split]].
  - destruct (Hok eq_refl) as [H1 H2]. split; [exact H1 | exact (H2 eq_refl)].
  - exact (proj1 (Ho eq_refl)).
  - exact (proj2 (Hd eq_refl) eq_refl).
  - exact (Hget _ eq_refl).
Defined.

(** The Telegram commands behave the same way. *)
Lemma tg_save_failure_is_swallowed
      (st : telegram_bot.state) (chat_id : Z) (a : string) (rest : list string)
      (target : pyfloat) (now : string) (w : write_outcome) (r : FetchResult)
      (float : string -> option pyfloat) :
  float a = Some target ->
  let sub := telegram_bot.set_alert_command float st chat_id (a :: rest) now w r in
  snd sub = telegram_bot.AlertActivated
              target (telegram_bot.get_current_lowest_price r)
  /\ dict_get chat_id (telegram_bot.price_alerts (fst sub))
     = Some (telegram_bot.mkAlert target true now)
  /\ telegram_bot.ALERTS_FILE (fst sub)
     = match w with
       | WriteOk => Stored (telegram_bot.price_alerts (fst sub))
       | OpenFails => telegram_bot.ALERTS_FILE st
       | DumpFails => Garbled
       end.
Proof.
  intros Hf. simpl. rewrite Hf. simpl.
  split; [reflexivity|]. split; [apply dict_get_set_same|].
  now destruct w.
Qed.

(** C3 (as stated) fails: on a failed write the alert is set in memory and
    acknowledged, the file still holds the old set, and a restart loses the
    alert. *)
Lemma failed_write_diverges :
  ~ Persistence_atomic
  /\ bot.cmd_alert fresh 7 42 160 OpenFails
     = (bot.mkState [(7%Z, bot.mkAlert 160 42%Z true)] (Stored []),
        bot.AlertSet 160)
  /\ bot.alerts
       (bot.load_alerts
          (bot.mkState []
             (bot.ALERTS_FILE (fst (bot.cmd_alert fresh 7 42 160 OpenFails)))))
     = [].
Proof.
  split; [|split; reflexivity].
  intros H. destruct (H fresh 7%Z 42%Z 160 OpenFails eq_refl) as [H1 _].
  discriminate H1.
Qed.

(** ** Who is notified on a tick (C4) *)

Lemma tg_alert_loop_filter (send_ok : Z -> bool) (low : telegram_bot.lowest)
      (items : dict telegram_bot.alert) :
  telegram_bot.alert_loop send_ok low items
  = map (tg_notify send_ok low) (filter (tg_due low) items).
Proof.
  induction items as [|[chat_id a] rest IH]; simpl; [reflexivity|].
  unfold tg_due at 1. simpl.
  destruct (telegram_bot.active a); simpl; [|exact IH].
  destruct (le_float (telegram_bot.lowest_price low)
                     (telegram_bot.target_price a)); simpl; [|exact IH].
  now rewrite IH.
Qed.

Lemma gt_float_le_float (v : Q) (t : pyfloat) :
  negb (gt_float v t) = le_float v t || is_nan t.
Proof.
  destruct t; simpl; try reflexivity.
  unfold Qltb. now rewrite negb_involutive, orb_false_r.
Qed.

Lemma passes_due_or_nan (low : bot.flight) (item : Z * bot.alert) :
  passes low item
  = due low item
    || (bot.active (snd item) && is_nan (bot.alert_price (snd item))).
Proof.
  unfold passes, due. rewrite gt_float_le_float.
  now destruct (bot.active (snd item)).
Qed.

Lemma bot_skip_iff_not_passes (low : bot.flight) (uid : Z) (a : bot.alert) :
  negb (bot.active a) || gt_float (bot.flight_price low) (bot.alert_price a)
  = negb (passes low (uid, a)).
Proof.
  unfold passes. simpl. now rewrite negb_andb, negb_involutive.
Qed.

Lemma bot_alert_loop_filter (c : bot.client) (low : bot.flight)
      (items : dict bot.alert) :
  sends_succeed c low items = true ->
  bot.alert_loop c low items
  = (map (notify low)
         (filter (fun item => passes low item && reachable c item) items),
     bot.Returned).
Proof.
  induction items as [|[uid a] rest IH]; simpl; [reflexivity|].
  rewrite andb_true_iff. intros [Hsend Hrest].
  rewrite (bot_skip_iff_not_passes low uid a).
  destruct (passes low (uid, a)); simpl in *; [|now apply IH].
  unfold reachable in *. simpl in *.
  destruct (bot.get_channel c (bot.channel a)); simpl in *; [|now apply IH].
  rewrite Hsend, (IH Hrest). reflexivity.
Qed.

Lemma passes_is_due (c : bot.client) (low : bot.flight)
      (items : dict bot.alert) :
  targets_are_numbers items = true ->
  filter (fun item => passes low item && reachable c item) items
  = filter (fun item => due low item && reachable c item) items.
Proof.
  unfold targets_are_numbers. rewrite forallb_forall. intros Hnum.
  apply filter_ext_in. intros item Hin.
  rewrite passes_due_or_nan. specialize (Hnum item Hin).
  apply negb_true_iff in Hnum. rewrite Hnum.
  now rewrite andb_false_r, orb_false_r.
Qed.

(** C4 (as amended).  On a tick on which a lowest fare is determinable, the
    Telegram job attempts one send for exactly the active alerts whose target
    is at or above the lowest price, in dict order; the Discord task sends one
    embed for exactly those of them whose stored channel id resolves, provided
    no send raises and no stored target is NaN.  Neither changes the alerts,
    so the same notifications recur on every later tick with the same lowest
    fare. *)
Theorem notifies_due_alerts
        (send_ok : Z -> bool) (tst : telegram_bot.state)
        (c : bot.client) (st : bot.state) (r : FetchResult) :
  (forall low,
      telegram_bot.get_current_lowest_price r = Some low ->
      telegram_bot.check_alerts_job send_ok tst r
      = (tst, map (tg_notify send_ok low)
                  (filter (tg_due low) (telegram_bot.price_alerts tst))))
  /\ (forall low,
         bot.get_lowest r = Some low ->
         targets_are_numbers (bot.alerts st) = true ->
         sends_succeed c low (bot.alerts st) = true ->
         bot.check_alerts c st r
         = (st, (map (notify low)
                     (filter (fun item => due low item && reachable c item)
                             (bot.alerts st)),
                 bot.Returned)))
  /\ telegram_bot.check_alerts_job
       send_ok (fst (telegram_bot.check_alerts_job send_ok tst r)) r
     = telegram_bot.check_alerts_job send_ok tst r
  /\ bot.check_alerts c (fst (bot.check_alerts c st r)) r
     = bot.check_alerts c st r.
Proof.
  split; [|split; [|split]].
  - intros low Hlow. unfold telegram_bot.check_alerts_job. rewrite Hlow.
    destruct (telegram_bot.price_alerts tst) as [|item rest] eqn:Hitems;
      [reflexivity|].
    now rewrite tg_alert_loop_filter.
  - intros low Hlow Hnum Hsend. unfold bot.check_alerts. rewrite Hlow.
    now rewrite bot_alert_loop_filter, passes_is_due.
  - now rewrite check_alerts_job_state.
  - now rewrite check_alerts_state.
Qed.

Lemma notifies_due_alerts_witness :
  telegram_bot.check_alerts_job (fun _ => true) tg_three_alerts
                                (FetchOk march_fares)
  = (tg_three_alerts,
     [telegram_bot.Sent 7 (telegram_bot.mkMessage 160 150 "MAD" "2025-03-04")])
  /\ bot.check_alerts always_delivers three_alerts (FetchOk march_fares)
     = (three_alerts,
        ([(42%Z, bot.mkEmbed 7 160 150 "2025-03-04");
          (44%Z, bot.mkEmbed 9 155 150 "2025-03-04")],
         bot.Returned)).
Proof.
  pose proof (notifies_due_alerts (fun _ => true) tg_three_alerts
                always_delivers three_alerts (FetchOk march_fares))
    as (Htg & Hbot & _).
  split.
  - exact (Htg _ eq_refl).
  - exact (Hbot _ eq_refl eq_refl eq_refl).
Defined.

(** C4 (as stated) fails for the Discord task: an active alert at 160 is not
    notified of a lowest fare of 150 when its channel id does not resolve. *)
Lemma unresolved_channel_not_notified :
  ~ Notifies_exactly_due
  /\ bot.check_alerts knows_no_channel one_alert_160
                      (FetchOk [Some (fare "2025-03-04" 150 false)])
     = (one_alert_160, ([], bot.Returned)).
Proof.
  split; [|reflexivity].
  intros H.
  specialize (H knows_no_channel one_alert_160
                (FetchOk [Some (fare "2025-03-04" 150 false)])
                (bot.mkFlight "2025-03-04" 150 "MAD" "09:35" "10:55") eq_refl).
  discriminate H.
Qed.

(** ** Unavailable and zero-price fares in listings (C5) *)

(** The siblings do drop both kinds of fare: the Telegram loop never reads a
    fare that is flagged unavailable or has a zero value. *)
Lemma lowest_ignores_unusable (fares : Fares) (r : telegram_bot.lowest) :
  telegram_bot.get_current_lowest_price (FetchOk fares) = Some r ->
  exists f, In (Some f) fares /\ unavailable f = false
            /\ ryanair_api.price_value f = Some (telegram_bot.lowest_price r)
            /\ ~ telegram_bot.lowest_price r == 0.
Proof.
  intros Hres. pose proof (lowest_of_best fares) as Hbest.
  simpl in Hres. rewrite Hres in Hbest.
  destruct Hbest as (pre & f & post & -> & (Hav & Hval & _) & _).
  exists f. split; [apply in_or_app; right; now left|].
  apply available_spec in Hav.
  destruct Hav as (Hun & p & v & Hp & Hv & Ht).
  split; [exact Hun|]. split; [exact Hval|].
  unfold ryanair_api.price_value in Hval. rewrite Hp, Hv in Hval.
  injection Hval as <-. unfold truthy_num in Ht.
  rewrite negb_true_iff, <- not_true_iff_false, Qeq_bool_iff in Ht.
  exact Ht.
Qed.

(** C5 (the code departs from it).  [format_cheapest_fares] has no test of
    the unavailable flag and lists a fare flagged unavailable;
    [display_flights] and [bot.get_flights] test the price object only for
    presence, so a fare whose price value is zero is shown, and returned as
    the lowest fare, at price zero. *)
Theorem unusable_fares_are_listed :
  listed (ryanair_api.format_cheapest_fares [Some sold_out])
  = [("2025-03-08", 150)]
  /\ check_flights.display_flights weekday_full [Some free_seat] true None
     = check_flights.Listing free_seat []
  /\ bot.get_lowest (FetchOk [Some (fare "2025-03-01" 180 false); Some free_seat])
     = Some (bot.mkFlight "2025-03-04" 0 "MAD" "09:35" "10:55").
Proof.
  repeat split; reflexivity.
Qed.

(** ** The query window (C6) *)

Lemma all_from_spec (P : Z -> bool) (fuel : nat) (r x : Z) :
  calendar.all_from P fuel r = true ->
  (r <= x < r + Z.of_nat fuel)%Z -> P x = true.
Proof.
  revert r. induction fuel as [|k IH]; intros r; simpl calendar.all_from.
  - lia.
  - rewrite andb_true_iff. intros [Hr Hk] Hx.
    destruct (Z.eq_dec x r) as [-> | Hne]; [exact Hr|].
    apply (IH (r + 1)%Z Hk). lia.
Qed.

(** The checks hold on all 146097 days of a cycle, by evaluation. *)
Lemma cycle_checks_true :
  calendar.all_from calendar.day_checks (Z.to_nat datetime.DI400Y) 0 = true.
Proof. vm_cast_no_check (eq_refl true). Qed.

Lemma day_checks_true (r : Z) :
  (0 <= r < datetime.DI400Y)%Z -> calendar.day_checks r = true.
Proof.
  intros Hr. apply (all_from_spec _ _ _ r cycle_checks_true).
  rewrite Z2Nat.id; [lia | discriminate].
Qed.

Lemma ord2ymd_within_cycle (n : Z) :
  datetime.ord2ymd n
  = calendar.within_cycle ((n - 1) / datetime.DI400Y)
                          ((n - 1) mod datetime.DI400Y).
Proof. reflexivity. Qed.

Lemma within_cycle_shift (q r : Z) :
  calendar.within_cycle q r = calendar.shift q (calendar.within_cycle 0 r).
Proof.
  unfold calendar.within_cycle. cbv zeta.
  set (n100 := (r / datetime.DI100Y)%Z).
  set (a := (r mod datetime.DI100Y)%Z).
  set (n4 := (a / datetime.DI4Y)%Z).
  set (b := (a mod datetime.DI4Y)%Z).
  set (n1 := (b / 365)%Z).
  set (n := (b mod 365)%Z).
  set (m := Z.shiftr (n + 50) 5).
  set (leap := ((n1 =? 3)%Z && (negb (n4 =? 24)%Z || (n100 =? 3)%Z))%bool).
  set (p := (datetime.DAYS_BEFORE_MONTH m
             + (if ((2 <? m)%Z && leap)%bool then 1 else 0))%Z).
  destruct ((n1 =? 4)%Z || (n100 =? 4)%Z)%bool;
    [|destruct (n <? p)%Z];
    unfold calendar.shift;
    cbn [datetime.year datetime.month datetime.dayOfMonth];
    f_equal; lia.
Qed.

Lemma is_leap_shift (y q : Z) :
  datetime.is_leap (y + 400 * q) = datetime.is_leap y.
Proof.
  unfold datetime.is_leap.
  replace ((y + 400 * q) mod 4)%Z with (y mod 4)%Z
    by (Z.div_mod_to_equations; lia).
  replace ((y + 400 * q) mod 100)%Z with (y mod 100)%Z
    by (Z.div_mod_to_equations; lia).
  replace ((y + 400 * q) mod 400)%Z with (y mod 400)%Z
    by (Z.div_mod_to_equations; lia).
  reflexivity.
Qed.

Lemma days_before_year_shift (y q : Z) :
  (datetime.days_before_year (y + 400 * q)
   = datetime.days_before_year y + datetime.DI400Y * q)%Z.
Proof.
  unfold datetime.days_before_year, datetime.DI400Y. cbv zeta.
  Z.div_mod_to_equations. lia.
Qed.

Lemma ymd2ord_shift (q : Z) (d : datetime.date) :
  (datetime.ymd2ord (calendar.shift q d)
   = datetime.ymd2ord d + datetime.DI400Y * q)%Z.
Proof.
  unfold datetime.ymd2ord, calendar.shift, datetime.days_before_month.
  cbn [datetime.year datetime.month datetime.dayOfMonth].
  rewrite is_leap_shift, days_before_year_shift. lia.
Qed.

Lemma within_cycle_facts (r : Z) :
  (0 <= r < datetime.DI400Y)%Z ->
  let d := calendar.within_cycle 0 r in
  (datetime.ymd2ord d = r + 1
   /\ 1 <= datetime.month d <= 12
   /\ 1 <= datetime.dayOfMonth d
      <= datetime.days_in_month (datetime.year d) (datetime.month d)
   /\ 1 <= datetime.year d <= 400
   /\ (r <= 145730 -> datetime.year d <= 399))%Z.
Proof.
  intros Hr d. pose proof (day_checks_true r Hr) as Hc.
  unfold calendar.day_checks in Hc. fold d in Hc.
  rewrite !andb_true_iff, orb_true_iff in Hc.
  rewrite Z.eqb_eq, !Z.leb_le, Z.ltb_lt in Hc.
  intuition lia.
Qed.

(** [date.fromordinal] is a right inverse of [date.toordinal]. *)
Lemma ymd2ord_ord2ymd (n : Z) : datetime.ymd2ord (datetime.ord2ymd n) = n.
Proof.
  rewrite ord2ymd_within_cycle, within_cycle_shift, ymd2ord_shift.
  assert (Hr : (0 <= (n - 1) mod datetime.DI400Y < datetime.DI400Y)%Z)
    by (apply Z.mod_pos_bound; reflexivity).
  destruct (within_cycle_facts _ Hr) as [Hc _]. rewrite Hc.
  pose proof (Z.div_mod (n - 1) datetime.DI400Y) as Hdm.
  assert (Hne : datetime.DI400Y <> 0%Z) by discriminate.
  specialize (Hdm Hne). lia.
Qed.

(** Ordinals in range convert to dates that [strftime] can print. *)
Lemma ord2ymd_valid (n : Z) :
  (1 <= n <= datetime.MAXORDINAL)%Z ->
  datetime.valid (datetime.ord2ymd n) = true.
Proof.
  intros Hn.
  rewrite ord2ymd_within_cycle, within_cycle_shift.
  assert (Hr : (0 <= (n - 1) mod datetime.DI400Y < datetime.DI400Y)%Z)
    by (apply Z.mod_pos_bound; reflexivity).
  destruct (within_cycle_facts _ Hr) as (_ & Hm & Hd & Hy & Hlast).
  pose proof (Z.div_mod (n - 1) datetime.DI400Y) as Hdm.
  assert (Hne : datetime.DI400Y <> 0%Z) by discriminate.
  specialize (Hdm Hne).
  set (q := ((n - 1) / datetime.DI400Y)%Z) in *.
  set (r := ((n - 1) mod datetime.DI400Y)%Z) in *.
  set (d := calendar.within_cycle 0 r) in *.
  unfold datetime.valid, calendar.shift, datetime.days_in_month in *.
  cbn [datetime.year datetime.month datetime.dayOfMonth].
  rewrite is_leap_shift.
  change datetime.MINYEAR with 1%Z. change datetime.MAXYEAR with 9999%Z.
  change datetime.MAXORDINAL with 3652059%Z in Hn.
  change datetime.DI400Y with 146097%Z in Hdm, Hr.
  rewrite !andb_true_iff, !Z.leb_le.
  assert (Hq : (0 <= q <= 24)%Z) by lia.
  repeat split; lia.
Qed.

Lemma add_days_ordinal (d d' : datetime.date) (n : Z) :
  datetime.add_days d n = Some d' ->
  (datetime.ymd2ord d' = datetime.ymd2ord d + n)%Z
  /\ datetime.valid d' = true.
Proof.
  unfold datetime.add_days.
  destruct ((1 <=? datetime.ymd2ord d + n)%Z
            && (datetime.ymd2ord d + n <=? datetime.MAXORDINAL)%Z)%bool
           eqn:Hrange; [|discriminate].
  intros H. injection H as <-.
  apply andb_true_iff in Hrange. destruct Hrange as [Hlo Hhi].
  apply Z.leb_le in Hlo, Hhi.
  split; [apply ymd2ord_ord2ymd | now apply ord2ymd_valid].
Qed.

Lemma add_days_in_range (d : datetime.date) (n : Z) :
  (1 <= datetime.ymd2ord d + n <= datetime.MAXORDINAL)%Z ->
  datetime.add_days d n = Some (datetime.ord2ymd (datetime.ymd2ord d + n)).
Proof.
  intros [Hlo Hhi]. unfold datetime.add_days.
  apply Z.leb_le in Hlo, Hhi. now rewrite Hlo, Hhi.
Qed.

(** C6 (as amended).  [get_cheapest_fares(date_out, flex_days)] queries the
    window that starts at [date_out] and ends [2 * flex_days] days later: it
    returns whenever [date_out] is a date and that end lies within the
    calendar, and then [outboundDateFrom] is [date_out] and [outboundDateTo]
    is a calendar date exactly [2 * flex_days] days after it.  The
    command-line checker, called with [days], queries from tomorrow to
    [days] days after today, or the single date asked for. *)
Theorem window_is_twice_flex_days
        (date_out : datetime.date) (flex_days : Z)
        (today : datetime.date) (days : Z) :
  (forall q, ryanair_api.get_cheapest_fares date_out flex_days = Some q ->
             ryanair_api.outboundDateFrom q = date_out
             /\ datetime.valid (ryanair_api.outboundDateTo q) = true
             /\ calendar.span q = (2 * flex_days)%Z)
  /\ (datetime.valid date_out = true ->
      (1 <= datetime.ymd2ord date_out + 2 * flex_days
       <= datetime.MAXORDINAL)%Z ->
      exists q, ryanair_api.get_cheapest_fares date_out flex_days = Some q)
  /\ (forall q, check_flights.get_flights today days None = Some q ->
                (datetime.ymd2ord (ryanair_api.outboundDateFrom q)
                 = datetime.ymd2ord today + 1)%Z
                /\ (datetime.ymd2ord (ryanair_api.outboundDateTo q)
                    = datetime.ymd2ord today + days)%Z)
  /\ (forall d, check_flights.get_flights today days (Some d)
                = Some (ryanair_api.mkQuery d d)).
Proof.
  split; [|split; [|split]].
  - intros q. unfold ryanair_api.get_cheapest_fares.
    destruct (datetime.valid date_out); [|discriminate].
    destruct (datetime.add_days date_out (flex_days * 2)) as [d|] eqn:Hadd;
      [|discriminate].
    intros H. injection H as <-.
    destruct (add_days_ordinal _ _ _ Hadd) as [Hord Hvalid].
    unfold calendar.span.
    cbn [ryanair_api.outboundDateTo ryanair_api.outboundDateFrom].
    split; [reflexivity|]. split; [exact Hvalid | lia].
  - intros Hvalid Hrange. unfold ryanair_api.get_cheapest_fares.
    rewrite Hvalid, add_days_in_range by lia. eauto.
  - intros q. unfold check_flights.get_flights.
    destruct (datetime.add_days today 1) as [s|] eqn:Hs; [|discriminate].
    destruct (datetime.add_days today days) as [e|] eqn:He; [|discriminate].
    intros H. injection H as <-.
    cbn [ryanair_api.outboundDateTo ryanair_api.outboundDateFrom].
    split; [apply (add_days_ordinal _ _ _ Hs) | apply (add_days_ordinal _ _ _ He)].
  - reflexivity.
Qed.

Lemma window_is_twice_flex_days_witness :
  ryanair_api.get_cheapest_fares (datetime.mkDate 2025 3 1) 30
  = Some (ryanair_api.mkQuery (datetime.mkDate 2025 3 1)
                              (datetime.mkDate 2025 4 30))
  /\ calendar.span (ryanair_api.mkQuery (datetime.mkDate 2025 3 1)
                                        (datetime.mkDate 2025 4 30)) = 60%Z
  /\ (exists q, ryanair_api.get_cheapest_fares (datetime.mkDate 2025 3 1) 30
                = Some q)
  /\ check_flights.get_flights (datetime.mkDate 2025 2 28) 60 None
     = Some (ryanair_api.mkQuery (datetime.mkDate 2025 3 1)
                                 (datetime.mkDate 2025 4 29))
  /\ (datetime.ymd2ord (datetime.mkDate 2025 4 29)
      = datetime.ymd2ord (datetime.mkDate 2025 2 28) + 60)%Z.
Proof.
  pose proof (window_is_twice_flex_days
                (datetime.mkDate 2025 3 1) 30 (datetime.mkDate 2025 2 28) 60)
    as (Hq & Hex & Hcli & _).
  split; [reflexivity|]. split; [|split; [|split; [reflexivity|]]].
  - exact (proj2 (proj2 (Hq _ eq_refl))).
  - apply Hex; [reflexivity|]. split; discriminate.
  - exact (proj2 (Hcli _ eq_refl)).
Defined.

(** C6 (as stated) fails: asked for 30 days from 2025-03-01, the query ends
    on 2025-04-30, 60 days later, not on 2025-03-31. *)
Lemma window_is_not_start_plus_days :
  ~ calendar.Window_is_start_plus_days
  /\ ryanair_api.get_cheapest_fares (datetime.mkDate 2025 3 1) 30
     = Some (ryanair_api.mkQuery (datetime.mkDate 2025 3 1)
                                 (datetime.mkDate 2025 4 30))
  /\ datetime.add_days (datetime.mkDate 2025 3 1) 30
     = Some (datetime.mkDate 2025 3 31).
Proof.
  split; [|split; reflexivity].
  intros H.
  destruct (H (datetime.mkDate 2025 3 1) 30%Z _ eq_refl) as [_ Hspan].
  discriminate Hspan.
Qed.

(** ** Subscribe then get (C7) *)

(** C7.  Subscribing writes [{price, channel, active: True}] under the
    subscriber's id whatever was stored there before, active or not, and
    whatever happens to the file write: the lookup that follows returns exactly
    that alert, [/myalert] shows it, and the alerts of other ids are
    untouched.  The Telegram [/alert] does the same once [float] accepts its
    argument. *)
Theorem subscribe_then_get
        (st : bot.state) (uid channel_id : Z) (target : pyfloat)
        (w : write_outcome) (r : FetchResult)
        (float : string -> option pyfloat) (tst : telegram_bot.state)
        (arg : string) (rest : list string) (now : string) :
  let st' := fst (bot.cmd_alert st uid channel_id target w) in
  let tst' :=
    fst (telegram_bot.set_alert_command float tst uid (arg :: rest) now w r) in
  dict_get uid (bot.alerts st') = Some (bot.mkAlert target channel_id true)
  /\ bot.cmd_myalert st' uid r
     = bot.YourAlert (bot.mkAlert target channel_id true) (bot.get_lowest r)
  /\ (forall other, other <> uid ->
                    dict_get other (bot.alerts st')
                    = dict_get other (bot.alerts st))
  /\ (float arg = Some target ->
      dict_get uid (telegram_bot.price_alerts tst')
      = Some (telegram_bot.mkAlert target true now)
      /\ telegram_bot.my_alert_command tst' uid r
         = telegram_bot.YourAlert (telegram_bot.mkAlert target true now)
             (telegram_bot.get_current_lowest_price r)
      /\ forall other, other <> uid ->
                       dict_get other (telegram_bot.price_alerts tst')
                       = dict_get other (telegram_bot.price_alerts tst)).
Proof.
  simpl. split; [apply dict_get_set_same|]. split; [|split].
  - unfold bot.cmd_myalert. simpl. now rewrite dict_get_set_same.
  - intros other Hne. now apply dict_get_set_other.
  - intros Hf. rewrite Hf. simpl. split; [apply dict_get_set_same|]. split.
    + unfold telegram_bot.my_alert_command. simpl.
      now rewrite dict_get_set_same.
    + intros other Hne. now apply dict_get_set_other.
Qed.

(** Re-subscribing after [/stopalert]: the stored alert is inactive, the new
    one is active with the new target. *)
Lemma subscribe_then_get_witness :
  let stopped := fst (bot.cmd_stopalert one_alert_160 7 WriteOk) in
  let tg_stopped :=
    fst (telegram_bot.stop_alert_command tg_three_alerts 7 WriteOk) in
  dict_get 7 (bot.alerts stopped) = Some (bot.mkAlert 160 42%Z false)
  /\ dict_get 7 (bot.alerts (fst (bot.cmd_alert stopped 7 42 140 WriteOk)))
     = Some (bot.mkAlert 140 42%Z true)
  /\ float_of "140" = Some (Finite 140)
  /\ dict_get 7 (telegram_bot.price_alerts
                   (fst (telegram_bot.set_alert_command
                           float_of tg_stopped 7 ["140"]
                           "2025-02-09T08:00:00" WriteOk FetchError)))
     = Some (telegram_bot.mkAlert 140 true "2025-02-09T08:00:00").
Proof.
  pose proof (subscribe_then_get
                (fst (bot.cmd_stopalert one_alert_160 7 WriteOk))
                7 42 140 WriteOk FetchError float_of
                (fst (telegram_bot.stop_alert_command tg_three_alerts 7 WriteOk))
                "140" [] "2025-02-09T08:00:00")
    as (Hbot & _ & _ & Htg).
  split; [reflexivity|]. split; [exact Hbot|]. split; [reflexivity|].
  exact (proj1 (Htg eq_refl)).
Defined.

(** ** Nothing to alert on (C8) *)





(** ** Delivery failures (C9) *)

(** The Telegram job wraps each send in its own [try]: whatever the sends
    do, every due alert gets exactly one attempt, in order, and a failed
    attempt is the one that is printed. *)
Lemma tg_every_due_alert_attempted (send_ok : Z -> bool)
      (low : telegram_bot.lowest) (items : dict telegram_bot.alert) :
  map (fun e => match e with
                | telegram_bot.Sent chat _ => (chat, true)
                | telegram_bot.SendFailed chat _ => (chat, false)
                end)
      (telegram_bot.alert_loop send_ok low items)
  = map (fun item => (fst item, send_ok (fst item)))
        (filter (tg_due low) items).
Proof.
  rewrite tg_alert_loop_filter, map_map. apply map_ext.
  intros [chat a]. unfold tg_notify. simpl. now destruct (send_ok chat).
Qed.

(** C9 (the code departs from it).  In the Discord task [channel.send] is
    not guarded: with two due alerts, the failure of the first send leaves the
    loop, the second subscriber gets nothing on this tick and nothing is
    logged by the task.  The Telegram job on the same data attempts both. *)
Theorem send_failure_aborts_discord_tick :
  bot.check_alerts channel_42_fails three_alerts (FetchOk march_fares)
  = (three_alerts, ([], bot.Raised 7))
  /\ bot.check_alerts always_delivers three_alerts (FetchOk march_fares)
     = (three_alerts,
        ([(42%Z, bot.mkEmbed 7 160 150 "2025-03-04");
          (44%Z, bot.mkEmbed 9 155 150 "2025-03-04")],
         bot.Returned))
  /\ snd (telegram_bot.check_alerts_job
            (fun chat => negb (Z.eqb chat 7))
            (telegram_bot.mkState
               [(7%Z, telegram_bot.mkAlert 160 true "");
                (9%Z, telegram_bot.mkAlert 155 true "")]
               Absent)
            (FetchOk march_fares))
     = [telegram_bot.SendFailed
          7 (telegram_bot.mkMessage 160 150 "MAD" "2025-03-04");
        telegram_bot.Sent
          9 (telegram_bot.mkMessage 155 150 "MAD" "2025-03-04")].
Proof.
  repeat split; reflexivity.
Qed.

(** ** Loading a damaged alerts file (C10) *)

(** C10.  When the alerts file exists but [open] or [json.load] raises,
    [load_alerts] of either bot leaves the dict empty, whatever it held, and
    does not touch the file; nothing is raised to [main]. *)
Theorem damaged_file_loads_empty
        (st : bot.state) (tst : telegram_bot.state) :
  (bot.ALERTS_FILE st = Unreadable \/ bot.ALERTS_FILE st = Garbled ->
   bot.load_alerts st = bot.mkState [] (bot.ALERTS_FILE st))
  /\ (telegram_bot.ALERTS_FILE tst = Unreadable
      \/ telegram_bot.ALERTS_FILE tst = Garbled ->
      telegram_bot.load_alerts tst
      = telegram_bot.mkState [] (telegram_bot.ALERTS_FILE tst)).
Proof.
  unfold bot.load_alerts, telegram_bot.load_alerts.
  split; intros [H | H]; now rewrite H.
Qed.

Lemma damaged_file_loads_empty_witness :
  bot.alerts (bot.load_alerts
                (bot.mkState [(7%Z, bot.mkAlert 160 42%Z true)] Garbled)) = []
  /\ telegram_bot.price_alerts
       (telegram_bot.load_alerts
          (telegram_bot.mkState [(7%Z, telegram_bot.mkAlert 160 true "")]
                                Unreadable)) = [].
Proof.
  split.
  - exact (f_equal bot.alerts
             (proj1 (damaged_file_loads_empty
                       (bot.mkState [(7%Z, bot.mkAlert 160 42%Z true)] Garbled)
                       (telegram_bot.mkState [] Absent))
                    (or_intror eq_refl))).
  - exact (f_equal telegram_bot.price_alerts
             (proj2 (damaged_file_loads_empty
                       (bot.mkState [] Absent)
                       (telegram_bot.mkState
                          [(7%Z, telegram_bot.mkAlert 160 true "")] Unreadable))
                    (or_introl eq_refl))).
Defined.

(** ** Sorting, as [sorted] and [list.sort] do it *)

Lemma insert_permutation {A : Type} (le : A -> A -> bool) (x : A) (l : list A) :
  Permutation (ryanair_api.insert le x l) (x :: l).
Proof.
  induction l as [|y l IH]; simpl; [reflexivity|].
  destruct (le x y); [reflexivity|].
  rewrite IH. apply perm_swap.
Qed.

Lemma sorted_permutation {A : Type} (le : A -> A -> bool) (l : list A) :
  Permutation (ryanair_api.sorted le l) l.
Proof.
  induction l as [|x l IH]; simpl; [reflexivity|].
  fold (ryanair_api.sorted le l).
  rewrite insert_permutation. now rewrite IH.
Qed.

Lemma sorted_in {A : Type} (le : A -> A -> bool) (l : list A) (x : A) :
  In x (ryanair_api.sorted le l) <-> In x l.
Proof.
  split; apply Permutation_in;
    [apply sorted_permutation | symmetry; apply sorted_permutation].
Qed.

Lemma sorted_length {A : Type} (le : A -> A -> bool) (l : list A) :
  List.length (ryanair_api.sorted le l) = List.length l.
Proof. apply Permutation_length, sorted_permutation. Qed.

Lemma insert_ordered {A : Type} (le : A -> A -> bool)
      (le_total : forall x y, le x y = true \/ le y x = true)
      (le_trans : forall x y z, le x y = true -> le y z = true -> le x z = true)
      (x : A) (l : list A) :
  StronglySorted (fun a b => le a b = true) l ->
  StronglySorted (fun a b => le a b = true) (ryanair_api.insert le x l).
Proof.
  induction 1 as [|y l Hl IH Hy]; simpl.
  - constructor; constructor.
  - destruct (le x y) eqn:Hxy.
    + constructor; [now constructor|].
      constructor; [exact Hxy|].
      eapply Forall_impl; [|exact Hy]. intros z Hz. now apply (le_trans x y z).
    + constructor; [exact IH|].
      apply Forall_forall. intros z Hz.
      apply (Permutation_in _ (insert_permutation le x l)) in Hz.
      destruct Hz as [<- | Hz].
      * destruct (le_total x y) as [H | H]; [congruence | exact H].
      * rewrite Forall_forall in Hy. now apply Hy.
Qed.

(** Under a total and transitive comparison the result of [sorted] is in
    order. *)
Lemma sorted_ordered {A : Type} (le : A -> A -> bool)
      (le_total : forall x y, le x y = true \/ le y x = true)
      (le_trans : forall x y z, le x y = true -> le y z = true -> le x z = true)
      (l : list A) :
  StronglySorted (fun a b => le a b = true) (ryanair_api.sorted le l).
Proof.
  induction l as [|x l IH]; simpl; [constructor|].
  now apply insert_ordered.
Qed.

(** Two comparisons that agree on the elements sort them alike. *)
Lemma insert_agree {A : Type} (le le' : A -> A -> bool) (x : A) (l : list A) :
  (forall y, In y l -> le x y = le' x y) ->
  ryanair_api.insert le x l = ryanair_api.insert le' x l.
Proof.
  induction l as [|y l IH]; intros H; simpl; [reflexivity|].
  rewrite <- (H y (or_introl eq_refl)).
  destruct (le x y); [reflexivity|].
  f_equal. apply IH. intros z Hz. apply H. now right.
Qed.

Lemma sorted_agree {A : Type} (le le' : A -> A -> bool) (l : list A) :
  (forall x y, In x l -> In y l -> le x y = le' x y) ->
  ryanair_api.sorted le l = ryanair_api.sorted le' l.
Proof.
  induction l as [|x l IH]; intros H; simpl; [reflexivity|].
  fold (ryanair_api.sorted le l) (ryanair_api.sorted le' l).
  rewrite <- IH by (intros a b Ha Hb; apply H; now right).
  apply insert_agree. intros y Hy. apply H; [now left|].
  right. now apply (sorted_in le l y).
Qed.

Lemma strongly_sorted_app {A : Type} (R : A -> A -> Prop) (l1 l2 : list A) :
  StronglySorted R (l1 ++ l2) ->
  forall a b, In a l1 -> In b l2 -> R a b.
Proof.
  induction l1 as [|x l1 IH]; simpl; intros Hs a b Ha Hb; [destruct Ha|].
  apply StronglySorted_inv in Hs. destruct Hs as [Hs Hx].
  destruct Ha as [<- | Ha].
  - rewrite Forall_forall in Hx. apply Hx, in_or_app. now right.
  - now apply (IH Hs).
Qed.

Lemma string_lt_trans (a b c : string) :
  String.compare a b = Lt -> String.compare b c = Lt -> String.compare a c = Lt.
Proof.
  exact (@StrictOrder_Transitive _ _ String_as_OT.lt_strorder a b c).
Qed.

Lemma string_leb_trans (a b c : string) :
  String.leb a b = true -> String.leb b c = true -> String.leb a c = true.
Proof.
  unfold String.leb.
  destruct (String.compare a b) eqn:Hab; [| |discriminate];
    destruct (String.compare b c) eqn:Hbc; try discriminate; intros _ _.
  - apply String.compare_eq_iff in Hab, Hbc. subst.
    destruct (String.compare c c) eqn:Hc; try reflexivity.
    pose proof (String.compare_antisym c c) as H. rewrite Hc in H.
    discriminate H.
  - apply String.compare_eq_iff in Hab. subst. now rewrite Hbc.
  - apply String.compare_eq_iff in Hbc. subst. now rewrite Hab.
  - now rewrite (string_lt_trans a b c Hab Hbc).
Qed.

Lemma Qle_bool_total (v w : Q) : Qle_bool v w = true \/ Qle_bool w v = true.
Proof.
  rewrite !Qle_bool_iff.
  destruct (Qlt_le_dec v w) as [H | H]; [left; now apply Qlt_le_weak | now right].
Qed.

(** ** The flight list of the Discord bot *)

Lemma comprehension_picked (fares : Fares) :
  well_formed fares = true ->
  bot.comprehension fares = Some (flat_map picked fares).
Proof.
  induction fares as [|o rest IH]; simpl; [reflexivity|].
  rewrite andb_true_iff. intros [Ho Hrest]. rewrite (IH Hrest).
  destruct o as [f|]; [|reflexivity].
  unfold malformed in Ho. simpl.
  destruct (bot.selected f); [|reflexivity].
  now destruct (bot.flight_of f).
Qed.

Lemma comprehension_raises (fares : Fares) :
  well_formed fares = false -> bot.comprehension fares = None.
Proof.
  induction fares as [|o rest IH]; simpl; [discriminate|].
  rewrite andb_false_iff. intros H.
  destruct o as [f|].
  - unfold malformed in H. destruct (bot.selected f); simpl in H.
    + destruct (bot.flight_of f); simpl in H.
      * destruct H as [H | H]; [discriminate|]. now rewrite (IH H).
      * reflexivity.
    + destruct H as [H | H]; [discriminate | now apply IH].
  - destruct H as [H | H]; [discriminate | now apply IH].
Qed.

Lemma price_le_total (x y : bot.flight) :
  bot.price_le x y = true \/ bot.price_le y x = true.
Proof. apply Qle_bool_total. Qed.

Lemma price_le_trans (x y z : bot.flight) :
  bot.price_le x y = true -> bot.price_le y z = true -> bot.price_le x z = true.
Proof. apply Qle_bool_trans. Qed.

Lemma get_flights_ordered (r : FetchResult) :
  StronglySorted (fun x y => bot.price_le x y = true) (bot.get_flights r).
Proof.
  unfold bot.get_flights. destruct r as [|fares]; [constructor|].
  destruct (bot.comprehension fares) as [l|]; [|constructor].
  apply sorted_ordered; [apply price_le_total | apply price_le_trans].
Qed.

Lemma get_flights_by_price (r : FetchResult) :
  StronglySorted (fun x y => bot.flight_price x <= bot.flight_price y)
                 (bot.get_flights r).
Proof.
  pose proof (get_flights_ordered r) as Hs.
  induction Hs as [|a l _ IH Ha]; constructor; [exact IH|].
  eapply Forall_impl; [|exact Ha]. intros b Hb. now apply Qle_bool_iff.
Qed.

(** X1.  Whatever the fetch returned, the list of [bot.get_flights] is in
    non-decreasing price order, so its head (the flight [get_lowest] returns)
    is at most as dear as every other flight of the list. *)
Theorem get_flights_in_price_order (r : FetchResult) :
  StronglySorted (fun x y => bot.flight_price x <= bot.flight_price y)
                 (bot.get_flights r)
  /\ forall low x, bot.get_lowest r = Some low -> In x (bot.get_flights r) ->
                   bot.flight_price low <= bot.flight_price x.
Proof.
  split; [apply get_flights_by_price|].
  pose proof (get_flights_by_price r) as Hs.
  unfold bot.get_lowest. intros low x Hlow Hin.
  destruct (bot.get_flights r) as [|y l]; [discriminate|].
  injection Hlow as <-. apply StronglySorted_inv in Hs.
  destruct Hs as [_ Hy]. destruct Hin as [<- | Hin]; [apply Qle_refl|].
  rewrite Forall_forall in Hy. now apply Hy.
Qed.

Lemma get_flights_in_price_order_witness :
  bot.flight_price (bot.mkFlight "2025-03-04" 150 "MAD" "09:35" "10:55")
  <= bot.flight_price (bot.mkFlight "2025-03-01" 180 "MAD" "09:35" "10:55").
Proof.
  apply (proj2 (get_flights_in_price_order (FetchOk march_fares)));
    [reflexivity|].
  right. right. now left.
Defined.

(** X2.  When every fare that passes the filter carries a day, a price value
    and a currency code, [bot.get_flights] returns exactly the flights of the
    fares that have a price object and are not flagged unavailable: none is
    lost, none is added, and as many as were selected. *)
Theorem get_flights_keeps_selected (fares : Fares) :
  well_formed fares = true ->
  Permutation (bot.get_flights (FetchOk fares)) (flat_map picked fares)
  /\ List.length (bot.get_flights (FetchOk fares))
     = List.length (flat_map picked fares).
Proof.
  intros H. unfold bot.get_flights. rewrite (comprehension_picked fares H).
  split; [apply sorted_permutation | apply sorted_length].
Qed.

Lemma get_flights_keeps_selected_witness :
  List.length (bot.get_flights (FetchOk march_fares)) = 3%nat.
Proof.
  exact (proj2 (get_flights_keeps_selected march_fares eq_refl)).
Defined.

(** X3.  One selected fare that lacks the key ["day"], or whose price
    object lacks the key ["value"] or ["currencyCode"], makes
    [bot.get_flights] return the empty list (the [KeyError] of the subscript
    is caught by the bare [except]), so [get_lowest] finds nothing and the
    alert task sends nothing on that tick, whatever the other fares are. *)
Theorem malformed_fare_hides_all_flights
        (c : bot.client) (st : bot.state) (fares : Fares) (f : Fare) :
  In (Some f) fares -> malformed f = true ->
  bot.get_flights (FetchOk fares) = []
  /\ bot.get_lowest (FetchOk fares) = None
  /\ bot.check_alerts c st (FetchOk fares) = (st, ([], bot.Returned)).
Proof.
  intros Hin Hbad.
  assert (Hwf : well_formed fares = false).
  { apply not_true_iff_false. intros Hwf. unfold well_formed in Hwf.
    rewrite forallb_forall in Hwf. specialize (Hwf (Some f) Hin).
    simpl in Hwf. rewrite Hbad in Hwf. discriminate Hwf. }
  assert (Hnone : bot.get_flights (FetchOk fares) = []).
  { unfold bot.get_flights. now rewrite (comprehension_raises fares Hwf). }
  split; [exact Hnone|].
  unfold bot.check_alerts, bot.get_lowest. now rewrite Hnone.
Qed.

Lemma malformed_fare_hides_all_flights_witness :
  bot.check_alerts always_delivers one_alert_160
                   (FetchOk (march_fares ++ [Some no_currency]))
  = (one_alert_160, ([], bot.Returned)).
Proof.
  apply (malformed_fare_hides_all_flights
           always_delivers one_alert_160
           (march_fares ++ [Some no_currency]) no_currency).
  - apply in_or_app. right. now left.
  - reflexivity.
Defined.

Lemma picked_origin (fares : Fares) (x : bot.flight) :
  In x (flat_map picked fares) ->
  exists f, In (Some f) fares /\ bot.selected f = true
            /\ bot.flight_of f = Some x.
Proof.
  rewrite in_flat_map. intros ([f|] & Hin & Hx); [|destruct Hx].
  unfold picked in Hx. destruct (bot.selected f) eqn:Hsel; [|destruct Hx].
  destruct (bot.flight_of f) as [y|] eqn:Hy; [|destruct Hx].
  destruct Hx as [<- | []]. now exists f.
Qed.

(** X4.  Every flight that [bot.get_flights] returns is read off a fare of
    the response that is not flagged unavailable: its date, price and currency
    are that fare's day, price value and currency code. *)
Theorem get_flights_only_available (r : FetchResult) (x : bot.flight) :
  In x (bot.get_flights r) ->
  exists fares f,
    r = FetchOk fares /\ In (Some f) fares /\ unavailable f = false
    /\ day f = Some (bot.date x)
    /\ ryanair_api.price_value f = Some (bot.flight_price x)
    /\ exists p, price f = Some p
                 /\ currencyCode p = Some (bot.flight_currency x).
Proof.
  unfold bot.get_flights. destruct r as [|fares]; [intros []|].
  destruct (well_formed fares) eqn:Hwf.
  - rewrite (comprehension_picked fares Hwf), sorted_in. intros Hin.
    destruct (picked_origin fares x Hin) as (f & Hf & Hsel & Hx).
    exists fares, f. split; [reflexivity|]. split; [exact Hf|].
    unfold bot.selected in Hsel. unfold bot.flight_of in Hx.
    unfold ryanair_api.price_value.
    destruct (price f) as [p|]; [|discriminate].
    destruct (day f) as [d|]; [|discriminate].
    destruct (value p) as [v|] eqn:Hv; [|discriminate].
    destruct (currencyCode p) as [cur|] eqn:Hc; [|discriminate].
    injection Hx as <-. simpl.
    split; [now apply negb_true_iff|]. split; [reflexivity|].
    split; [reflexivity|]. exists p. split; [reflexivity | exact Hc].
  - rewrite (comprehension_raises fares Hwf). intros [].
Qed.

Lemma get_flights_only_available_witness :
  exists fares f,
    FetchOk march_fares = FetchOk fares /\ In (Some f) fares
    /\ unavailable f = false
    /\ day f = Some "2025-03-11"
    /\ ryanair_api.price_value f = Some 150
    /\ exists p, price f = Some p /\ currencyCode p = Some "MAD".
Proof.
  apply (get_flights_only_available
           (FetchOk march_fares)
           (bot.mkFlight "2025-03-11" 150 "MAD" "09:35" "10:55")).
  right. now left.
Defined.

(** ** Statistics and price list of the Discord bot *)

(** The first fifteen of a price-ordered list are its cheapest: nothing
    beyond them is cheaper than one of them. *)
Lemma firstn_cheapest {A : Type} (R : A -> A -> Prop) (n : nat) (l : list A) :
  StronglySorted R l ->
  forall a b, In a (firstn n l) -> In b (skipn n l) -> R a b.
Proof.
  intros Hs. apply strongly_sorted_app. now rewrite firstn_skipn.
Qed.

Lemma in_firstn {A : Type} (n : nat) (l : list A) (x : A) :
  In x (firstn n l) -> In x l.
Proof.
  intros H. rewrite <- (firstn_skipn n l). apply in_or_app. now left.
Qed.

Lemma filter_strongly_sorted {A : Type} (R : A -> A -> Prop) (p : A -> bool)
      (l : list A) :
  StronglySorted R l -> StronglySorted R (filter p l).
Proof.
  induction 1 as [|x l Hl IH Hx]; simpl; [constructor|].
  destruct (p x); [|exact IH].
  constructor; [exact IH|].
  apply Forall_forall. intros y Hy. apply filter_In in Hy.
  rewrite Forall_forall in Hx. now apply Hx.
Qed.

Lemma py_min_head (x : Q) (l : list Q) :
  Forall (fun v => x <= v) l -> bot.py_min x l = x.
Proof.
  unfold bot.py_min. induction 1 as [|v l Hv _ IH]; simpl; [reflexivity|].
  apply Qltb_false in Hv. now rewrite Hv.
Qed.

Lemma py_max_fold (l : list Q) (m : Q) :
  let top := fold_left (fun m v => if Qltb m v then v else m) l m in
  In top (m :: l) /\ m <= top /\ forall v, In v l -> v <= top.
Proof.
  revert m. induction l as [|v l IH]; intros m; simpl.
  - split; [now left|]. split; [apply Qle_refl | intros v []].
  - destruct (Qltb m v) eqn:Hmv.
    + apply Qltb_true in Hmv.
      destruct (IH v) as (Hin & Hle & Hall). split; [|split].
      * right. exact Hin.
      * eapply Qle_trans; [apply Qlt_le_weak, Hmv | exact Hle].
      * intros w [<- | Hw]; [exact Hle | now apply Hall].
    + apply Qltb_false in Hmv.
      destruct (IH m) as (Hin & Hle & Hall). split; [|split].
      * destruct Hin as [Hin | Hin]; [now left | right; now right].
      * exact Hle.
      * intros w [<- | Hw]; [|now apply Hall].
        eapply Qle_trans; [exact Hmv | exact Hle].
Qed.

(** X5.  When [make_stats_embed] shows statistics, its Low is exactly the
    price of the flight whose date is shown as Best Day (the flight
    [get_lowest] returns), its High is the price of a listed flight, every
    listed price lies between Low and High, and Total is the number of
    flights; it shows "No data" exactly when [get_flights] is empty. *)
Theorem stats_bracket_all_prices (r : FetchResult) :
  match bot.make_stats_embed r with
  | bot.NoData => bot.get_flights r = []
  | bot.Statistics low high total best_day =>
      (exists x, bot.get_lowest r = Some x
                 /\ bot.date x = best_day /\ bot.flight_price x = low)
      /\ (exists z, In z (bot.get_flights r) /\ bot.flight_price z = high)
      /\ (forall y, In y (bot.get_flights r) ->
                    low <= bot.flight_price y <= high)
      /\ total = List.length (bot.get_flights r)
  end.
Proof.
  pose proof (get_flights_by_price r) as Hs.
  unfold bot.make_stats_embed, bot.get_lowest.
  destruct (bot.get_flights r) as [|x rest]; [reflexivity|].
  apply StronglySorted_inv in Hs. destruct Hs as [_ Hx].
  assert (Hmin : bot.py_min (bot.flight_price x) (map bot.flight_price rest)
                 = bot.flight_price x).
  { apply py_min_head. apply Forall_forall. intros v Hv.
    apply in_map_iff in Hv. destruct Hv as (y & <- & Hy).
    rewrite Forall_forall in Hx. now apply Hx. }
  destruct (py_max_fold (map bot.flight_price rest) (bot.flight_price x))
    as (Hin & Hle & Hall).
  fold (bot.py_max (bot.flight_price x) (map bot.flight_price rest))
    in Hin, Hle, Hall.
  rewrite Hmin. split; [|split; [|split]].
  - now exists x.
  - change (bot.flight_price x :: map bot.flight_price rest)
      with (map bot.flight_price (x :: rest)) in Hin.
    apply in_map_iff in Hin. destruct Hin as (z & Hz & Hin). now exists z.
  - intros y [<- | Hy].
    + split; [apply Qle_refl | exact Hle].
    + split.
      * rewrite Forall_forall in Hx. now apply Hx.
      * apply Hall. now apply in_map.
  - reflexivity.
Qed.

Lemma rows_of_spec (weekday : string -> option string) (lowest : Q)
      (l : list bot.flight) (rows : list bot.row) :
  bot.rows_of weekday lowest l = Some rows ->
  map bot.shown rows = l
  /\ forall row, In row rows ->
                 bot.is_lowest row
                 = Qeq_bool (bot.flight_price (bot.shown row)) lowest
                 /\ weekday (bot.date (bot.shown row)) = Some (bot.day_name row).
Proof.
  revert rows. induction l as [|f l IH]; simpl; intros rows H.
  - injection H as <-. split; [reflexivity | intros row []].
  - destruct (weekday (bot.date f)) as [d|] eqn:Hd; [|discriminate].
    destruct (bot.rows_of weekday lowest l) as [rows'|]; [|discriminate].
    injection H as <-. destruct (IH rows' eq_refl) as [Hmap Hrows].
    split; [simpl; now rewrite Hmap|].
    intros row [<- | Hrow]; [now split | now apply Hrows].
Qed.

Lemma rows_of_total (weekday : string -> option string) (lowest : Q)
      (l : list bot.flight) :
  (forall f, In f l -> weekday (bot.date f) <> None) ->
  bot.rows_of weekday lowest l <> None.
Proof.
  induction l as [|f l IH]; simpl; intros H; [discriminate|].
  destruct (weekday (bot.date f)) as [d|] eqn:Hd;
    [|now destruct (H f (or_introl eq_refl))].
  destruct (bot.rows_of weekday lowest l);
    [discriminate | apply IH; intros g Hg; apply H; now right].
Qed.

Lemma date_le_total (x y : bot.flight) :
  bot.date_le x y = true \/ bot.date_le y x = true.
Proof. apply String.leb_total. Qed.

Lemma date_le_trans (x y z : bot.flight) :
  bot.date_le x y = true -> bot.date_le y z = true -> bot.date_le x z = true.
Proof. apply string_leb_trans. Qed.

(** What [prices_field] shows of a non-empty price-ordered list. *)
Lemma prices_field_spec (weekday : string -> option string) (filtered b : bool)
      (x : bot.flight) (rest : list bot.flight) (found : nat)
      (rows : list bot.row) :
  StronglySorted (fun a c => bot.flight_price a <= bot.flight_price c)
                 (x :: rest) ->
  bot.prices_field weekday filtered (x :: rest) (bot.flight_price x)
  = bot.Flights b found rows ->
  b = filtered
  /\ found = List.length (x :: rest)
  /\ List.length rows = Nat.min 15 found
  /\ StronglySorted (fun a c => String.leb (bot.date (bot.shown a))
                                           (bot.date (bot.shown c)) = true)
                    rows
  /\ Permutation (map bot.shown rows) (firstn 15 (x :: rest))
  /\ (forall row y, In row rows -> In y (skipn 15 (x :: rest)) ->
                    bot.flight_price (bot.shown row) <= bot.flight_price y)
  /\ (exists row, In row rows /\ bot.is_lowest row = true)
  /\ (forall row, In row rows ->
                  (bot.is_lowest row = true <->
                   forall other, In other rows ->
                                 bot.flight_price (bot.shown row)
                                 <= bot.flight_price (bot.shown other))).
Proof.
  intros Hs. unfold bot.prices_field.
  destruct (bot.rows_of weekday (bot.flight_price x)
              (ryanair_api.sorted bot.date_le (firstn 15 (x :: rest))))
    as [rows'|] eqn:Hrows; [|discriminate].
  intros H. injection H as <- <- <-.
  destruct (rows_of_spec _ _ _ _ Hrows) as [Hmap Hrow].
  assert (Hperm : Permutation (map bot.shown rows') (firstn 15 (x :: rest)))
    by (rewrite Hmap; apply sorted_permutation).
  assert (Hx : exists row, In row rows' /\ bot.shown row = x).
  { assert (Hin : In x (map bot.shown rows')).
    { apply (Permutation_in _ (Permutation_sym Hperm)). now left. }
    apply in_map_iff in Hin. destruct Hin as (row & Heq & Hin). now exists row. }
  assert (Hlow : forall row, In row rows' ->
                             bot.flight_price x
                             <= bot.flight_price (bot.shown row)).
  { intros row Hin.
    assert (Hin' : In (bot.shown row) (x :: rest)).
    { apply (in_firstn 15), (Permutation_in _ Hperm).
      now apply in_map. }
    apply StronglySorted_inv in Hs. destruct Hs as [_ Hs].
    destruct Hin' as [<- | Hin']; [apply Qle_refl|].
    rewrite Forall_forall in Hs. now apply Hs. }
  split; [reflexivity|]. split; [reflexivity|]. split; [|split; [|split]].
  - rewrite <- (length_map bot.shown), Hmap, sorted_length.
    apply length_firstn.
  - assert (Hd : StronglySorted (fun a c => bot.date_le a c = true)
                                (map bot.shown rows')).
    { rewrite Hmap. apply sorted_ordered;
        [apply date_le_total | apply date_le_trans]. }
    clear - Hd. induction rows' as [|row rows IH]; [constructor|].
    simpl in Hd. apply StronglySorted_inv in Hd. destruct Hd as [Hd Hr].
    constructor; [now apply IH|].
    apply Forall_forall. intros other Ho. rewrite Forall_forall in Hr.
    apply Hr. now apply in_map.
  - exact Hperm.
  - split; [|split].
    + intros row y Hin Hy.
      apply (firstn_cheapest _ 15 (x :: rest) Hs); [|exact Hy].
      apply (Permutation_in _ Hperm). now apply in_map.
    + destruct Hx as (row & Hin & Heq). exists row. split; [exact Hin|].
      rewrite (proj1 (Hrow row Hin)), Heq. apply Qeq_bool_iff, Qeq_refl.
    + intros row Hin. rewrite (proj1 (Hrow row Hin)), Qeq_bool_iff. split.
      * intros Heq other Ho. rewrite Heq. now apply Hlow.
      * intros Hall. destruct Hx as (rx & Hrx & Heq).
        apply Qle_antisym; [|now apply Hlow].
        rewrite <- Heq. now apply Hall.
Qed.

Lemma within_sorted (limit : option Q) (r : FetchResult) :
  StronglySorted (fun a c => bot.flight_price a <= bot.flight_price c)
                 (within limit (bot.get_flights r)).
Proof.
  pose proof (get_flights_by_price r) as Hs.
  unfold within. destruct limit as [l|]; [|exact Hs].
  destruct (truthy_num l); [|exact Hs]. now apply filter_strongly_sorted.
Qed.

Lemma make_prices_embed_field (weekday : string -> option string)
      (limit : option Q) (r : FetchResult) (b : bool) (found : nat)
      (rows : list bot.row) :
  bot.make_prices_embed weekday limit r = bot.Flights b found rows ->
  exists x rest,
    within limit (bot.get_flights r) = x :: rest
    /\ bot.prices_field weekday b (x :: rest) (bot.flight_price x)
       = bot.Flights b found rows.
Proof.
  unfold bot.make_prices_embed, within.
  destruct (bot.get_flights r) as [|x rest] eqn:Hfl; [discriminate|].
  assert (Hflag : forall filtered l,
             bot.prices_field weekday filtered l
                              (match l with y :: _ => bot.flight_price y
                                       | [] => 0 end)
             = bot.Flights b found rows -> filtered = b).
  { intros filtered l. unfold bot.prices_field.
    destruct (bot.rows_of _ _ _); [|discriminate]. now intros [= -> _ _]. }
  destruct limit as [l|].
  - destruct (truthy_num l).
    + destruct (filter _ (x :: rest)) as [|y under] eqn:Hu; [discriminate|].
      intros H. pose proof (Hflag true (y :: under) H) as <-.
      now exists y, under.
    + intros H. pose proof (Hflag false (x :: rest) H) as <-.
      now exists x, rest.
  - intros H. pose proof (Hflag false (x :: rest) H) as <-.
    now exists x, rest.
Qed.

(** X6.  When [make_prices_embed] shows a list, "Found" counts the flights
    kept (all, or with a non-zero limit those priced at or below it), the
    rows are at most fifteen, in ascending date order, and are the cheapest
    of the flights kept: no flight left out is cheaper than a row.  With a
    non-zero limit no row is dearer than the limit. *)
Theorem prices_embed_shows_cheapest
        (weekday : string -> option string) (limit : option Q)
        (r : FetchResult) (b : bool) (found : nat) (rows : list bot.row) :
  bot.make_prices_embed weekday limit r = bot.Flights b found rows ->
  let kept := within limit (bot.get_flights r) in
  found = List.length kept
  /\ List.length rows = Nat.min 15 found
  /\ StronglySorted (fun a c => String.leb (bot.date (bot.shown a))
                                           (bot.date (bot.shown c)) = true)
                    rows
  /\ Permutation (map bot.shown rows) (firstn 15 kept)
  /\ (forall row y, In row rows -> In y (skipn 15 kept) ->
                    bot.flight_price (bot.shown row) <= bot.flight_price y)
  /\ (forall l row, limit = Some l -> ~ l == 0 -> In row rows ->
                    bot.flight_price (bot.shown row) <= l).
Proof.
  intros H kept.
  destruct (make_prices_embed_field _ _ _ _ _ _ H) as (x & rest & Hk & Hf).
  fold kept in Hk. pose proof (within_sorted limit r) as Hs.
  fold kept in Hs. rewrite Hk in *.
  destruct (prices_field_spec _ _ _ _ _ _ _ Hs Hf)
    as (_ & Hfound & Hlen & Hdate & Hperm & Hcheap & _).
  split; [exact Hfound|]. split; [exact Hlen|]. split; [exact Hdate|].
  split; [exact Hperm|]. split; [exact Hcheap|].
  intros l row -> Hl Hrow.
  assert (Hin : In (bot.shown row) (x :: rest)).
  { apply (in_firstn 15), (Permutation_in _ Hperm). now apply in_map. }
  rewrite <- Hk in Hin. unfold kept, within in Hin.
  assert (Ht : truthy_num l = true).
  { unfold truthy_num. apply negb_true_iff, not_true_iff_false.
    now rewrite Qeq_bool_iff. }
  rewrite Ht in Hin. apply filter_In in Hin. now apply Qle_bool_iff.
Qed.

Lemma prices_embed_shows_cheapest_witness :
  exists rows,
    bot.make_prices_embed weekday_iso (Some 160) (FetchOk march_fares)
    = bot.Flights true 2 rows
    /\ List.length rows = 2%nat
    /\ forall row, In row rows -> bot.flight_price (bot.shown row) <= 160.
Proof.
  eexists. split; [reflexivity|].
  pose proof (prices_embed_shows_cheapest
                weekday_iso (Some 160) (FetchOk march_fares) _ _ _ eq_refl)
    as (_ & Hlen & _ & _ & _ & Hlimit).
  split; [exact Hlen|].
  intros row Hrow. apply (Hlimit 160 row eq_refl); [discriminate | exact Hrow].
Defined.

(** X7.  In the list of [make_prices_embed] the green mark is on exactly the
    rows whose price is the lowest of the rows shown, and at least one row
    carries it; the day name of each row is the weekday of its date. *)
Theorem prices_embed_marks_lowest
        (weekday : string -> option string) (limit : option Q)
        (r : FetchResult) (b : bool) (found : nat) (rows : list bot.row) :
  bot.make_prices_embed weekday limit r = bot.Flights b found rows ->
  (exists row, In row rows /\ bot.is_lowest row = true)
  /\ (forall row, In row rows ->
                  (bot.is_lowest row = true <->
                   forall other, In other rows ->
                                 bot.flight_price (bot.shown row)
                                 <= bot.flight_price (bot.shown other)))
  /\ (forall row, In row rows ->
                  weekday (bot.date (bot.shown row)) = Some (bot.day_name row)).
Proof.
  intros H.
  destruct (make_prices_embed_field _ _ _ _ _ _ H) as (x & rest & Hk & Hf).
  pose proof (within_sorted limit r) as Hs. rewrite Hk in Hs.
  destruct (prices_field_spec _ _ _ _ _ _ _ Hs Hf)
    as (_ & _ & _ & _ & _ & _ & Hex & Hmark).
  split; [exact Hex|]. split; [exact Hmark|].
  unfold bot.prices_field in Hf.
  destruct (bot.rows_of _ _ _) as [rows'|] eqn:Hrows; [|discriminate].
  injection Hf as _ <-. intros row Hrow.
  exact (proj2 (proj2 (rows_of_spec _ _ _ _ Hrows) row Hrow)).
Qed.

Lemma prices_embed_marks_lowest_witness :
  exists rows,
    bot.make_prices_embed weekday_iso None (FetchOk march_fares)
    = bot.Flights false 3 rows
    /\ exists row, In row rows /\ bot.is_lowest row = true.
Proof.
  eexists. split; [reflexivity|].
  exact (proj1 (prices_embed_marks_lowest
                  weekday_iso None (FetchOk march_fares) _ _ _ eq_refl)).
Defined.

(** X8.  [make_prices_embed] answers "No flights" exactly when
    [get_flights] is empty, and "No flights under L" exactly when there are
    flights, the limit L is non-zero and every flight is dearer than L; a
    limit of zero filters nothing.  It raises only when [strptime] rejects
    the date of a flight. *)
Theorem prices_embed_outcomes
        (weekday : string -> option string) (limit : option Q)
        (r : FetchResult) :
  (bot.make_prices_embed weekday limit r = bot.NoFlights
   <-> bot.get_flights r = [])
  /\ (forall l,
        bot.make_prices_embed weekday limit r = bot.NoFlightsUnder l
        <-> bot.get_flights r <> [] /\ limit = Some l /\ ~ l == 0
            /\ forall f, In f (bot.get_flights r) -> l < bot.flight_price f)
  /\ (forall l, limit = Some l -> l == 0 ->
                bot.make_prices_embed weekday limit r
                = bot.make_prices_embed weekday None r)
  /\ (bot.make_prices_embed weekday limit r = bot.PricesRaise ->
      exists f, In f (bot.get_flights r) /\ weekday (bot.date f) = None).
Proof.
  assert (Hfield : forall filtered l low,
             match bot.prices_field weekday filtered l low with
             | bot.Flights _ _ _ => True
             | bot.PricesRaise =>
                 exists f, In f l /\ weekday (bot.date f) = None
             | _ => False
             end).
  { intros filtered l low. unfold bot.prices_field.
    destruct (bot.rows_of weekday low
                (ryanair_api.sorted bot.date_le (firstn 15 l))) eqn:Hrows;
      [exact I|].
    destruct (List.existsb
                (fun f => match weekday (bot.date f) with
                          | Some _ => false | None => true end)
                (ryanair_api.sorted bot.date_le (firstn 15 l))) eqn:Hex.
    - apply existsb_exists in Hex. destruct Hex as (f & Hin & Hf).
      exists f. split.
      + apply (in_firstn 15). now apply (sorted_in bot.date_le).
      + now destruct (weekday (bot.date f)).
    - exfalso. revert Hrows. apply rows_of_total. intros f Hin Hnone.
      apply not_true_iff_false in Hex. apply Hex, existsb_exists.
      exists f. split; [exact Hin | now rewrite Hnone]. }
  unfold bot.make_prices_embed.
  destruct (bot.get_flights r) as [|x rest] eqn:Hfl.
  - split; [now split|]. split; [|split].
    + intros l. split; [discriminate | now intros [H _]].
    + intros l -> Hl. reflexivity.
    + discriminate.
  - assert (Htruthy : forall l, truthy_num l = true <-> ~ l == 0).
    { intros l. unfold truthy_num.
      now rewrite negb_true_iff, <- not_true_iff_false, Qeq_bool_iff. }
    split; [|split; [|split]].
    + split; [|discriminate].
      destruct limit as [l|]; [destruct (truthy_num l)|].
      * destruct (filter _ (x :: rest)) as [|y under]; [discriminate|].
        specialize (Hfield true (y :: under) (bot.flight_price y)).
        intros H. rewrite H in Hfield. destruct Hfield.
      * specialize (Hfield false (x :: rest) (bot.flight_price x)).
        intros H. rewrite H in Hfield. destruct Hfield.
      * specialize (Hfield false (x :: rest) (bot.flight_price x)).
        intros H. rewrite H in Hfield. destruct Hfield.
    + intros l. split.
      * destruct limit as [l'|]; [destruct (truthy_num l') eqn:Ht|].
        -- destruct (filter _ (x :: rest)) as [|y under] eqn:Hu.
           ++ intros [= ->]. split; [discriminate|]. split; [reflexivity|].
              split; [now apply Htruthy|].
              intros f Hin. apply Qnot_le_lt. intros Hle.
              assert (Hf : In f (filter
                                   (fun f => Qle_bool (bot.flight_price f) l)
                                   (x :: rest)))
                by (apply filter_In; split; [exact Hin | now apply Qle_bool_iff]).
              rewrite Hu in Hf. destruct Hf.
           ++ specialize (Hfield true (y :: under) (bot.flight_price y)).
              intros H. rewrite H in Hfield. destruct Hfield.
        -- specialize (Hfield false (x :: rest) (bot.flight_price x)).
           intros H. rewrite H in Hfield. destruct Hfield.
        -- specialize (Hfield false (x :: rest) (bot.flight_price x)).
           intros H. rewrite H in Hfield. destruct Hfield.
      * intros (_ & -> & Hl & Hall). apply Htruthy in Hl. rewrite Hl.
        destruct (filter _ (x :: rest)) as [|y under] eqn:Hu; [reflexivity|].
        assert (Hy : In y (filter (fun f => Qle_bool (bot.flight_price f) l)
                                  (x :: rest)))
          by (rewrite Hu; now left).
        apply filter_In in Hy. destruct Hy as [Hin Hle].
        apply Qle_bool_iff in Hle. specialize (Hall y Hin).
        exfalso. apply (Qlt_irrefl l). eapply Qlt_le_trans; eassumption.
    + intros l -> Hl.
      assert (Ht : truthy_num l = false).
      { apply not_true_iff_false. intros Ht. now apply Htruthy in Ht. }
      now rewrite Ht.
    + destruct limit as [l|]; [destruct (truthy_num l)|].
      * destruct (filter _ (x :: rest)) as [|y under] eqn:Hu; [discriminate|].
        specialize (Hfield true (y :: under) (bot.flight_price y)).
        intros H. rewrite H in Hfield. destruct Hfield as (f & Hin & Hf).
        exists f. split; [|exact Hf].
        rewrite <- Hu in Hin. now apply filter_In in Hin.
      * specialize (Hfield false (x :: rest) (bot.flight_price x)).
        intros H. rewrite H in Hfield. exact Hfield.
      * specialize (Hfield false (x :: rest) (bot.flight_price x)).
        intros H. rewrite H in Hfield. exact Hfield.
Qed.

Lemma prices_embed_outcomes_witness :
  bot.make_prices_embed weekday_iso (Some 100) (FetchOk march_fares)
  = bot.NoFlightsUnder 100
  /\ bot.make_prices_embed weekday_iso (Some 0) (FetchOk march_fares)
     = bot.make_prices_embed weekday_iso None (FetchOk march_fares)
  /\ bot.make_prices_embed weekday_iso None FetchError = bot.NoFlights.
Proof.
  pose proof (prices_embed_outcomes weekday_iso (Some 100)
                                    (FetchOk march_fares))
    as (_ & Hunder & _).
  pose proof (prices_embed_outcomes weekday_iso (Some 0)
                                    (FetchOk march_fares))
    as (_ & _ & Hzero & _).
  pose proof (prices_embed_outcomes weekday_iso None FetchError)
    as (Hnone & _).
  split; [|split].
  - apply Hunder. split; [discriminate|]. split; [reflexivity|].
    split; [discriminate|].
    intros f [<- | [<- | [<- | []]]]; reflexivity.
  - apply (Hzero 0 eq_refl). reflexivity.
  - apply Hnone. reflexivity.
Defined.

(** ** The alert store and the alert loops *)

Lemma dict_set_in {V : Type} (k : Z) (v : V) (d : dict V) :
  In (k, v) (dict_set k v d).
Proof.
  induction d as [|[k' v'] d IH]; simpl; [now left|].
  destruct (Z.eqb k k') eqn:Hk; [|now right].
  apply Z.eqb_eq in Hk. subst. now left.
Qed.

Lemma dict_set_keys {V : Type} (k : Z) (v : V) (d : dict V) :
  dict_mem k d = true -> map fst (dict_set k v d) = map fst d.
Proof.
  unfold dict_mem. induction d as [|[k' v'] d IH]; simpl; [discriminate|].
  destruct (Z.eqb k k') eqn:Hk; [reflexivity|].
  intros H. simpl. now rewrite IH.
Qed.

Lemma dict_set_values {V : Type} (k : Z) (v : V) (d : dict V) (w : V) :
  NoDup (map fst d) -> In (k, w) (dict_set k v d) -> w = v.
Proof.
  induction d as [|[k' v'] d IH]; simpl; intros Hnd Hin.
  - destruct Hin as [Hin | []]. now injection Hin.
  - inversion Hnd as [|? ? Hk' Hd]; subst.
    destruct (Z.eqb k k') eqn:Hk.
    + apply Z.eqb_eq in Hk. subst k'.
      destruct Hin as [Hin | Hin]; [now injection Hin|].
      destruct Hk'. now apply (in_map fst) in Hin.
    + destruct Hin as [Hin | Hin]; [|now apply IH].
      injection Hin as <- _. now rewrite Z.eqb_refl in Hk.
Qed.

Lemma dict_get_in {V : Type} (k : Z) (v : V) (d : dict V) :
  dict_get k d = Some v -> In (k, v) d.
Proof.
  induction d as [|[k' v'] d IH]; simpl; [discriminate|].
  destruct (Z.eqb k k') eqn:Hk; [|intros H; right; now apply IH].
  apply Z.eqb_eq in Hk. subst. intros [= ->]. now left.
Qed.

Lemma deliverable_passes (c : bot.client) (low : bot.flight)
      (item : Z * bot.alert) :
  deliverable c low item = passes low item && reachable c item.
Proof.
  unfold deliverable, passes. now rewrite gt_float_le_float.
Qed.

Lemma alert_loop_until_failure
      (c : bot.client) (low : bot.flight) (items : dict bot.alert) :
  match bot.alert_loop c low items with
  | (sent, bot.Returned) =>
      sends_succeed c low items = true
      /\ sent = map (notify low)
                    (filter (fun item => passes low item && reachable c item)
                            items)
  | (sent, bot.Raised uid) =>
      exists pre a post,
        items = pre ++ (uid, a) :: post
        /\ sends_succeed c low pre = true
        /\ passes low (uid, a) && reachable c (uid, a) = true
        /\ bot.send c (bot.channel a) = false
        /\ sent = map (notify low)
                      (filter (fun item => passes low item && reachable c item)
                              pre)
  end.
Proof.
  induction items as [|[uid a] rest IH]; simpl; [now split|].
  rewrite (bot_skip_iff_not_passes low uid a).
  unfold sends_succeed, reachable in *. simpl.
  destruct (passes low (uid, a)) eqn:Hpass; simpl;
    [destruct (bot.get_channel c (bot.channel a)) eqn:Hch; simpl;
     [destruct (bot.send c (bot.channel a)) eqn:Hsend; simpl|]|].
  - destruct (bot.alert_loop c low rest) as [sent [|failed]].
    + destruct IH as [Hs ->]. now split.
    + destruct IH as (pre & b & post & -> & Hs & Hd & Hf & ->).
      exists ((uid, a) :: pre), b, post. simpl.
      rewrite Hpass, Hch, Hsend. simpl. now repeat split.
  - exists [], a, rest. simpl. rewrite Hpass, Hch. now repeat split.
  - destruct (bot.alert_loop c low rest) as [sent [|failed]]; [exact IH|].
    destruct IH as (pre & b & post & -> & Hs & Hd & Hf & ->).
    exists ((uid, a) :: pre), b, post. simpl.
    rewrite Hpass, Hch. simpl. now repeat split.
  - destruct (bot.alert_loop c low rest) as [sent [|failed]]; [exact IH|].
    destruct IH as (pre & b & post & -> & Hs & Hd & Hf & ->).
    exists ((uid, a) :: pre), b, post. simpl.
    rewrite Hpass. simpl. now repeat split.
Qed.

(** X9.  The Discord loop delivers until the first failure.  It sends to
    the alerts that are active, whose channel resolves and whose target the
    lowest price is not above: those with the lowest price at or below the
    target, and those with a NaN target.  If the loop returns, no send raised
    and the embeds sent are those of all such alerts, in dict order; if it is
    left by an exception, the failing alert was one of them, every such alert
    before it was served, and nothing was sent for the alerts after it. *)
Theorem discord_loop_stops_at_first_failure
        (c : bot.client) (low : bot.flight) (items : dict bot.alert) :
  match bot.alert_loop c low items with
  | (sent, bot.Returned) =>
      sends_succeed c low items = true
      /\ sent = map (notify low) (filter (deliverable c low) items)
  | (sent, bot.Raised uid) =>
      exists pre a post,
        items = pre ++ (uid, a) :: post
        /\ sends_succeed c low pre = true
        /\ deliverable c low (uid, a) = true
        /\ bot.send c (bot.channel a) = false
        /\ sent = map (notify low) (filter (deliverable c low) pre)
  end.
Proof.
  pose proof (alert_loop_until_failure c low items) as H.
  assert (Hext : forall l,
             filter (deliverable c low) l
             = filter (fun item => passes low item && reachable c item) l)
    by (intros l; apply filter_ext; intros item; apply deliverable_passes).
  destruct (bot.alert_loop c low items) as [sent [|uid]].
  - now rewrite Hext.
  - destruct H as (pre & a & post & Hitems & Hs & Hd & Hf & Hsent).
    exists pre, a, post. rewrite Hext, deliverable_passes. now repeat split.
Qed.

(** An alert set to ["nan"] in the modal: the Discord task sends its embed
    at any lowest price, the Telegram job never attempts it. *)
Lemma discord_loop_stops_at_first_failure_witness :
  let st := fst (bot.on_submit float_of fresh 7 42 "nan" WriteOk FetchError) in
  bot.alerts st = [(7%Z, bot.mkAlert NaN 42 true)]
  /\ le_float 150 NaN = false
  /\ fst (bot.alert_loop always_delivers tuesday_150 (bot.alerts st))
     = map (notify tuesday_150)
           (filter (deliverable always_delivers tuesday_150) (bot.alerts st))
  /\ map (notify tuesday_150)
         (filter (deliverable always_delivers tuesday_150) (bot.alerts st))
     = [(42%Z, bot.mkEmbed 7 NaN 150 "2025-03-04")]
  /\ telegram_bot.alert_loop
       (fun _ => true)
       (telegram_bot.mkLowest 150 "2025-03-04" "MAD")
       [(7%Z, telegram_bot.mkAlert NaN true "2025-02-01T10:00:00")]
     = [].
Proof.
  pose proof (discord_loop_stops_at_first_failure
                always_delivers tuesday_150
                [(7%Z, bot.mkAlert NaN 42 true)]) as H.
  intros st.
  split; [reflexivity|]. split; [reflexivity|].
  split; [exact (proj2 H)|]. split; reflexivity.
Defined.

(** X10.  Unsubscribing keeps the entry: the alert of the id stays in the
    dict with its price and channel and only its active flag cleared, no id
    is added or removed, the ids keep their order, and the lookup that follows
    answers "no active alert".  For an id without entry nothing is changed
    and nothing is written; the Discord bot still answers "Alert disabled",
    the Telegram bot answers that there is no alert. *)
Theorem unsubscribe_keeps_entry
        (st : bot.state) (tst : telegram_bot.state) (uid : Z)
        (w : write_outcome) (r : FetchResult) :
  (forall a,
      dict_get uid (bot.alerts st) = Some a ->
      let st' := fst (bot.cmd_stopalert st uid w) in
      dict_get uid (bot.alerts st')
      = Some (bot.mkAlert (bot.alert_price a) (bot.channel a) false)
      /\ map fst (bot.alerts st') = map fst (bot.alerts st)
      /\ bot.cmd_myalert st' uid r = bot.NoActiveAlert)
  /\ (dict_get uid (bot.alerts st) = None ->
      bot.cmd_stopalert st uid w = (st, bot.AlertDisabled))
  /\ (forall a,
         dict_get uid (telegram_bot.price_alerts tst) = Some a ->
         let tst' := fst (telegram_bot.stop_alert_command tst uid w) in
         dict_get uid (telegram_bot.price_alerts tst')
         = Some (telegram_bot.mkAlert (telegram_bot.target_price a) false
                                      (telegram_bot.created a))
         /\ map fst (telegram_bot.price_alerts tst')
            = map fst (telegram_bot.price_alerts tst)
         /\ telegram_bot.my_alert_command tst' uid r
            = telegram_bot.NoActiveAlert)
  /\ (dict_get uid (telegram_bot.price_alerts tst) = None ->
      telegram_bot.stop_alert_command tst uid w
      = (tst, telegram_bot.NoActiveAlert)).
Proof.
  unfold bot.cmd_stopalert, telegram_bot.stop_alert_command.
  split; [|split; [|split]].
  - intros a Ha. rewrite Ha. simpl. split; [apply dict_get_set_same|].
    split.
    + apply dict_set_keys. unfold dict_mem. now rewrite Ha.
    + unfold bot.cmd_myalert. simpl. now rewrite dict_get_set_same.
  - intros Ha. now rewrite Ha.
  - intros a Ha. rewrite Ha. simpl. split; [apply dict_get_set_same|].
    split.
    + apply dict_set_keys. unfold dict_mem. now rewrite Ha.
    + unfold telegram_bot.my_alert_command. simpl.
      now rewrite dict_get_set_same.
  - intros Ha. now rewrite Ha.
Qed.

Lemma unsubscribe_keeps_entry_witness :
  bot.cmd_myalert (fst (bot.cmd_stopalert three_alerts 8 DumpFails)) 8
                  FetchError
  = bot.NoActiveAlert
  /\ bot.cmd_stopalert three_alerts 5 DumpFails
     = (three_alerts, bot.AlertDisabled)
  /\ map fst (telegram_bot.price_alerts
                (fst (telegram_bot.stop_alert_command tg_three_alerts 8
                                                      WriteOk)))
     = [7%Z; 8%Z; 9%Z]
  /\ telegram_bot.stop_alert_command tg_three_alerts 5 WriteOk
     = (tg_three_alerts, telegram_bot.NoActiveAlert).
Proof.
  pose proof (unsubscribe_keeps_entry three_alerts tg_three_alerts 8
                                      DumpFails FetchError)
    as (Hbot & _).
  pose proof (unsubscribe_keeps_entry three_alerts tg_three_alerts 8
                                      WriteOk FetchError)
    as (_ & _ & Htg & _).
  pose proof (unsubscribe_keeps_entry three_alerts tg_three_alerts 5
                                      DumpFails FetchError)
    as (_ & Hbot5 & _).
  pose proof (unsubscribe_keeps_entry three_alerts tg_three_alerts 5
                                      WriteOk FetchError)
    as (_ & _ & _ & Htg5).
  split; [|split; [|split]].
  - exact (proj2 (proj2 (Hbot _ eq_refl))).
  - exact (Hbot5 eq_refl).
  - exact (proj1 (proj2 (Htg _ eq_refl))).
  - exact (Htg5 eq_refl).
Defined.

Lemma tg_events_are_active (send_ok : Z -> bool) (low : telegram_bot.lowest)
      (items : dict telegram_bot.alert) (e : telegram_bot.event) :
  In e (telegram_bot.alert_loop send_ok low items) ->
  exists a, In (event_chat e, a) items /\ telegram_bot.active a = true.
Proof.
  rewrite tg_alert_loop_filter, in_map_iff.
  intros ([chat a] & <- & Hin). apply filter_In in Hin.
  destruct Hin as [Hin Hdue]. unfold tg_due in Hdue. simpl in Hdue.
  apply andb_true_iff in Hdue. exists a. split; [|apply Hdue].
  unfold tg_notify. simpl. now destruct (send_ok chat).
Qed.

Lemma bot_events_are_active (c : bot.client) (low : bot.flight)
      (items : dict bot.alert) (ch : Z) (e : bot.embed) :
  In (ch, e) (fst (bot.alert_loop c low items)) ->
  exists a, In (bot.mention e, a) items /\ bot.active a = true.
Proof.
  induction items as [|[uid a] rest IH]; simpl; [intros []|].
  assert (Hrest : In (ch, e) (fst (bot.alert_loop c low rest)) ->
                  exists b, ((uid, a) = (bot.mention e, b)
                             \/ In (bot.mention e, b) rest)
                            /\ bot.active b = true).
  { intros H. destruct (IH H) as (b & Hb & Hact). exists b. now split; [right|]. }
  destruct (bot.active a) eqn:Hact; simpl; [|exact Hrest].
  destruct (gt_float (bot.flight_price low) (bot.alert_price a));
    [exact Hrest|].
  destruct (bot.get_channel c (bot.channel a)); [|exact Hrest].
  destruct (bot.send c (bot.channel a)); [|intros []].
  destruct (bot.alert_loop c low rest) as [sent ending]. simpl in *.
  intros [Heq | Hin]; [|now apply Hrest].
  injection Heq as _ <-. simpl. exists a. split; [now left | exact Hact].
Qed.

(** X11.  After an unsubscribe, the tick of either bot sends nothing for that
    id, whatever is fetched and whatever the write did (the dict holds one
    entry per id). *)
Theorem unsubscribed_is_not_notified
        (c : bot.client) (send_ok : Z -> bool)
        (st : bot.state) (tst : telegram_bot.state) (uid : Z)
        (w : write_outcome) (r : FetchResult) :
  (NoDup (map fst (bot.alerts st)) ->
   dict_mem uid (bot.alerts st) = true ->
   forall ch e,
     In (ch, e) (fst (snd (bot.check_alerts
                             c (fst (bot.cmd_stopalert st uid w)) r))) ->
     bot.mention e <> uid)
  /\ (NoDup (map fst (telegram_bot.price_alerts tst)) ->
      dict_mem uid (telegram_bot.price_alerts tst) = true ->
      forall e,
        In e (snd (telegram_bot.check_alerts_job
                     send_ok (fst (telegram_bot.stop_alert_command tst uid w))
                     r)) ->
        event_chat e <> uid).
Proof.
  split.
  - intros Hnd Hmem ch e. unfold bot.cmd_stopalert, dict_mem in *.
    destruct (dict_get uid (bot.alerts st)) as [a|]; [|discriminate]. simpl.
    unfold bot.check_alerts.
    destruct (bot.get_lowest r) as [low|]; simpl; [|intros []].
    intros Hin Heq. apply bot_events_are_active in Hin.
    destruct Hin as (b & Hb & Hact). rewrite Heq in Hb.
    apply (dict_set_values _ _ _ _ Hnd) in Hb. subst b. discriminate Hact.
  - intros Hnd Hmem e. unfold telegram_bot.stop_alert_command, dict_mem in *.
    destruct (dict_get uid (telegram_bot.price_alerts tst)) as [a|];
      [|discriminate].
    simpl. unfold telegram_bot.check_alerts_job. simpl.
    destruct (dict_set uid _ (telegram_bot.price_alerts tst)) eqn:Hset;
      [intros []|].
    rewrite <- Hset.
    destruct (telegram_bot.get_current_lowest_price r) as [low|]; simpl;
      [|intros []].
    intros Hin Heq. apply tg_events_are_active in Hin.
    destruct Hin as (b & Hb & Hact). rewrite Heq in Hb.
    apply (dict_set_values _ _ _ _ Hnd) in Hb. subst b. discriminate Hact.
Qed.

Lemma unsubscribed_is_not_notified_witness :
  fst (snd (bot.check_alerts always_delivers
                             (fst (bot.cmd_stopalert three_alerts 7 WriteOk))
                             (FetchOk march_fares)))
  = [(44%Z, bot.mkEmbed 9 155 150 "2025-03-04")]
  /\ bot.mention (bot.mkEmbed 9 155 150 "2025-03-04") <> 7%Z
  /\ forall e,
       In e (snd (telegram_bot.check_alerts_job
                    (fun _ => true)
                    (fst (telegram_bot.stop_alert_command tg_three_alerts 7
                                                          WriteOk))
                    (FetchOk march_fares))) ->
       event_chat e <> 7%Z.
Proof.
  assert (Hnd : NoDup [7%Z; 8%Z; 9%Z]).
  { repeat constructor; simpl; intuition discriminate. }
  pose proof (unsubscribed_is_not_notified
                always_delivers (fun _ => true) three_alerts tg_three_alerts
                7 WriteOk (FetchOk march_fares))
    as [Hbot Htg].
  split; [reflexivity|]. split.
  - apply (Hbot Hnd eq_refl 44%Z). now left.
  - exact (Htg Hnd eq_refl).
Defined.

(** X12.  A subscription takes effect on the next tick: once [/alert T] is
    accepted, a tick on which the lowest price is at most [T] attempts an
    alert to that chat with target [T] and that price; in the Discord bot the
    embed is sent when the channel resolves and no send raises. *)
Theorem subscribed_is_notified
        (float : string -> option pyfloat) (send_ok : Z -> bool)
        (tst : telegram_bot.state) (chat_id : Z) (arg : string)
        (rest : list string) (now : string) (w : write_outcome)
        (r0 r : FetchResult) (target : pyfloat)
        (c : bot.client) (st : bot.state) (channel_id : Z) :
  (forall low,
      float arg = Some target ->
      telegram_bot.get_current_lowest_price r = Some low ->
      le_float (telegram_bot.lowest_price low) target = true ->
      In (tg_notify send_ok low
                    (chat_id, telegram_bot.mkAlert target true now))
         (snd (telegram_bot.check_alerts_job
                 send_ok
                 (fst (telegram_bot.set_alert_command
                         float tst chat_id (arg :: rest) now w r0))
                 r)))
  /\ (forall low,
         bot.get_lowest r = Some low ->
         le_float (bot.flight_price low) target = true ->
         bot.get_channel c channel_id = true ->
         sends_succeed
           c low
           (bot.alerts (fst (bot.cmd_alert st chat_id channel_id target w)))
         = true ->
         In (channel_id,
             bot.mkEmbed chat_id target (bot.flight_price low) (bot.date low))
            (fst (snd (bot.check_alerts
                         c (fst (bot.cmd_alert st chat_id channel_id target w))
                         r)))).
Proof.
  split.
  - intros low Hf Hlow Hle. simpl. rewrite Hf. simpl.
    unfold telegram_bot.check_alerts_job. simpl. rewrite Hlow.
    set (items := dict_set chat_id (telegram_bot.mkAlert target true now)
                           (telegram_bot.price_alerts tst)).
    assert (Hin : In (chat_id, telegram_bot.mkAlert target true now) items)
      by apply dict_set_in.
    destruct items as [|item items'] eqn:Hitems; [destruct Hin|].
    rewrite <- Hitems in *. simpl. rewrite tg_alert_loop_filter.
    apply in_map, filter_In. split; [exact Hin|].
    unfold tg_due. simpl. exact Hle.
  - intros low Hlow Hle Hch Hsend. simpl in *.
    unfold bot.check_alerts. rewrite Hlow. simpl.
    rewrite bot_alert_loop_filter by exact Hsend. simpl.
    change (channel_id,
            bot.mkEmbed chat_id target (bot.flight_price low) (bot.date low))
      with (notify low (chat_id, bot.mkAlert target channel_id true)).
    apply in_map, filter_In. split; [apply dict_set_in|].
    rewrite passes_due_or_nan. unfold due, reachable. simpl.
    now rewrite Hle, Hch.
Qed.

Lemma subscribed_is_notified_witness :
  In (telegram_bot.Sent
        8 (telegram_bot.mkMessage 160 150 "MAD" "2025-03-04"))
     (snd (telegram_bot.check_alerts_job
             (fun _ => true)
             (fst (telegram_bot.set_alert_command
                     float_of tg_three_alerts 8 ["160"]
                     "2025-02-09T08:00:00" OpenFails FetchError))
             (FetchOk march_fares)))
  /\ In (43%Z, bot.mkEmbed 8 160 150 "2025-03-04")
        (fst (snd (bot.check_alerts
                     always_delivers
                     (fst (bot.cmd_alert three_alerts 8 43 160 OpenFails))
                     (FetchOk march_fares)))).
Proof.
  pose proof (subscribed_is_notified
                float_of (fun _ => true) tg_three_alerts 8 "160" []
                "2025-02-09T08:00:00" OpenFails FetchError
                (FetchOk march_fares) 160 always_delivers three_alerts 43)
    as [Htg Hbot].
  split.
  - apply (Htg (telegram_bot.mkLowest 150 "2025-03-04" "MAD"));
      reflexivity.
  - apply (Hbot (bot.mkFlight "2025-03-04" 150 "MAD" "09:35" "10:55"));
      reflexivity.
Defined.

Lemma run_command_other (st : bot.state) (step : command * write_outcome)
      (uid : Z) :
  subject (fst step) <> uid ->
  dict_get uid (bot.alerts (run_command st step)) = dict_get uid (bot.alerts st).
Proof.
  destruct step as [[u ch t | u] w]; unfold run_command; simpl; intros Hne.
  - now apply dict_get_set_other.
  - unfold bot.cmd_stopalert.
    destruct (dict_get u (bot.alerts st)); [|reflexivity].
    simpl. now apply dict_get_set_other.
Qed.

Lemma run_leaves_alone (steps : list (command * write_outcome))
      (st : bot.state) (uid : Z) :
  leaves_alone uid steps = true ->
  dict_get uid (bot.alerts (run st steps)) = dict_get uid (bot.alerts st).
Proof.
  unfold run. revert st.
  induction steps as [|step steps IH]; intros st; simpl; [reflexivity|].
  rewrite andb_true_iff, negb_true_iff, Z.eqb_neq. intros [Hne Hrest].
  rewrite (IH _ Hrest). now apply run_command_other.
Qed.

Lemma dict_set_nodup {V : Type} (k : Z) (v : V) (d : dict V) :
  NoDup (map fst d) -> NoDup (map fst (dict_set k v d)).
Proof.
  induction d as [|[k' v'] d IH]; simpl; intros Hnd.
  - constructor; [intros [] | constructor].
  - inversion Hnd as [|? ? Hk' Hd]; subst.
    destruct (Z.eqb k k') eqn:Hk; simpl; [now constructor|].
    constructor; [|now apply IH].
    intros Hin. apply in_map_iff in Hin. destruct Hin as ([k0 v0] & Heq & Hin).
    simpl in Heq. subst k0. apply Hk'.
    destruct (dict_get k' (dict_set k v d)) as [x|] eqn:Hget.
    + rewrite dict_get_set_other in Hget
        by (intros ->; now rewrite Z.eqb_refl in Hk).
      apply dict_get_in in Hget. now apply (in_map fst) in Hget.
    + exfalso. clear - Hin Hget.
      induction (dict_set k v d) as [|[k1 v1] l IHl]; [destruct Hin|].
      simpl in Hget. destruct (Z.eqb k' k1) eqn:H1; [discriminate|].
      destruct Hin as [Hin | Hin]; [|now apply IHl].
      injection Hin as -> _. now rewrite Z.eqb_refl in H1.
Qed.

Lemma run_command_keeps (st : bot.state) (step : command * write_outcome) :
  (NoDup (map fst (bot.alerts st)) ->
   NoDup (map fst (bot.alerts (run_command st step))))
  /\ forall uid, dict_mem uid (bot.alerts st) = true ->
                 dict_mem uid (bot.alerts (run_command st step)) = true.
Proof.
  assert (Hmem : forall (k uid : Z) (v : bot.alert) (d : dict bot.alert),
             dict_mem uid d = true -> dict_mem uid (dict_set k v d) = true).
  { intros k uid v d. unfold dict_mem. destruct (Z.eq_dec uid k) as [-> | Hne].
    - now rewrite dict_get_set_same.
    - now rewrite dict_get_set_other. }
  destruct step as [[u ch t | u] w]; unfold run_command; simpl.
  - split; [apply dict_set_nodup | intros uid; apply Hmem].
  - unfold bot.cmd_stopalert.
    destruct (dict_get u (bot.alerts st)); simpl; [|now split].
    split; [apply dict_set_nodup | intros uid; apply Hmem].
Qed.

(** X13.  Over any session of [/alert] and [/stopalert] commands, with any
    mix of successful and failed writes: the alert of an id is the one its
    last [/alert] set (target, channel, active) as long as no later command
    was about that id; an id once in the dict is never removed; and the dict
    keeps one entry per id. *)
Theorem last_alert_command_wins
        (st : bot.state) (before after : list (command * write_outcome))
        (uid channel_id : Z) (target : pyfloat) (w : write_outcome) :
  (leaves_alone uid after = true ->
   dict_get uid
            (bot.alerts
               (run st (before ++ (Alert uid channel_id target, w) :: after)))
   = Some (bot.mkAlert target channel_id true))
  /\ (forall other, dict_mem other (bot.alerts st) = true ->
                    dict_mem other (bot.alerts (run st before)) = true)
  /\ (NoDup (map fst (bot.alerts st)) ->
      NoDup (map fst (bot.alerts (run st before)))).
Proof.
  split; [|split].
  - intros Hafter. unfold run. rewrite fold_left_app. simpl.
    fold (run st before).
    fold (run (run_command (run st before) (Alert uid channel_id target, w))
              after).
    rewrite (run_leaves_alone after _ uid Hafter).
    unfold run_command. simpl. apply dict_get_set_same.
  - unfold run. revert st.
    induction before as [|step steps IH]; intros st other H; simpl;
      [exact H|].
    apply IH. now apply run_command_keeps.
  - unfold run. revert st.
    induction before as [|step steps IH]; intros st H; simpl; [exact H|].
    apply IH. now apply run_command_keeps.
Qed.

Lemma last_alert_command_wins_witness :
  dict_get 8
    (bot.alerts
       (run three_alerts
            ([(StopAlert 8, WriteOk); (Alert 7 42 100, DumpFails)]
               ++ (Alert 8 43 175, OpenFails)
               :: [(StopAlert 7, WriteOk); (Alert 5 50 90, WriteOk)])))
  = Some (bot.mkAlert 175 43%Z true)
  /\ dict_mem 9 (bot.alerts
                   (run three_alerts
                        [(StopAlert 9, WriteOk); (StopAlert 9, DumpFails)]))
     = true
  /\ NoDup (map fst (bot.alerts
                       (run three_alerts
                            [(Alert 5 50 90, WriteOk); (Alert 7 1 2, WriteOk)]))).
Proof.
  assert (Hnd : NoDup [7%Z; 8%Z; 9%Z]).
  { repeat constructor; simpl; intuition discriminate. }
  split; [|split].
  - exact (proj1 (last_alert_command_wins
                    three_alerts
                    [(StopAlert 8, WriteOk); (Alert 7 42 100, DumpFails)]
                    [(StopAlert 7, WriteOk); (Alert 5 50 90, WriteOk)]
                    8 43 175 OpenFails) eq_refl).
  - exact (proj1 (proj2 (last_alert_command_wins
                           three_alerts
                           [(StopAlert 9, WriteOk); (StopAlert 9, DumpFails)]
                           [] 0 0 0 WriteOk)) 9%Z eq_refl).
  - exact (proj2 (proj2 (last_alert_command_wins
                           three_alerts
                           [(Alert 5 50 90, WriteOk); (Alert 7 1 2, WriteOk)]
                           [] 0 0 0 WriteOk)) Hnd).
Defined.

(** X14.  The alert modal stores what [/alert] stores: when [float] accepts
    its text, memory and file end exactly as after [/alert] with that float,
    and the note "already at target" appears exactly when the fetched lowest
    fare is at or below the target; when [float] rejects the text, nothing is
    changed or written. *)
Theorem modal_is_alert_command
        (float : string -> option pyfloat) (st : bot.state)
        (uid channel_id : Z) (text : string) (w : write_outcome)
        (r : FetchResult) :
  (forall target,
      float text = Some target ->
      fst (bot.on_submit float st uid channel_id text w r)
      = fst (bot.cmd_alert st uid channel_id target w)
      /\ exists note,
           snd (bot.on_submit float st uid channel_id text w r)
           = bot.ModalAlertSet target note
           /\ (note <> None <->
               exists low, bot.get_lowest r = Some low
                           /\ le_float (bot.flight_price low) target
                              = true))
  /\ (float text = None ->
      bot.on_submit float st uid channel_id text w r
      = (st, bot.ModalInvalidPrice)).
Proof.
  unfold bot.on_submit. split.
  - intros target ->. simpl. split; [reflexivity|].
    eexists. split; [reflexivity|].
    destruct (bot.get_lowest r) as [low|].
    + destruct (le_float (bot.flight_price low) target) eqn:Hle.
      * split; [|discriminate]. intros _. now exists low.
      * split; [intros H; now destruct H|].
        intros (low' & [= <-] & Hle'). congruence.
    + split; [intros H; now destruct H|]. now intros (low' & Hlow & _).
  - now intros ->.
Qed.

Lemma modal_is_alert_command_witness :
  bot.on_submit float_of three_alerts 8 43 "160" OpenFails
                (FetchOk march_fares)
  = (fst (bot.cmd_alert three_alerts 8 43 160 OpenFails),
     bot.ModalAlertSet 160 (Some 150))
  /\ bot.on_submit float_of three_alerts 8 43 "cheap" WriteOk
                   (FetchOk march_fares)
     = (three_alerts, bot.ModalInvalidPrice).
Proof.
  pose proof (modal_is_alert_command float_of three_alerts 8 43 "160"
                                     OpenFails (FetchOk march_fares))
    as [Hok _].
  pose proof (modal_is_alert_command float_of three_alerts 8 43 "cheap"
                                     WriteOk (FetchOk march_fares))
    as [_ Hbad].
  split; [|exact (Hbad eq_refl)].
  destruct (Hok 160 eq_refl) as [Hst _].
  apply injective_projections; [exact Hst | reflexivity].
Defined.

(** X15.  A run of the Telegram job attempts at most one message per active
    alert (the number [main] prints at startup), each to a different chat
    when the dict holds one entry per id, and exactly that many when the
    lowest price is at or below every active target. *)
Theorem job_sends_at_most_active_count
        (send_ok : Z -> bool) (st : telegram_bot.state) (r : FetchResult) :
  (List.length (snd (telegram_bot.check_alerts_job send_ok st r))
   <= telegram_bot.alerts_count st)%nat
  /\ (NoDup (map fst (telegram_bot.price_alerts st)) ->
      NoDup (map event_chat
                 (snd (telegram_bot.check_alerts_job send_ok st r))))
  /\ (forall low,
         telegram_bot.get_current_lowest_price r = Some low ->
         (forall chat a, In (chat, a) (telegram_bot.price_alerts st) ->
                         telegram_bot.active a = true ->
                         le_float (telegram_bot.lowest_price low)
                                  (telegram_bot.target_price a) = true) ->
         List.length (snd (telegram_bot.check_alerts_job send_ok st r))
         = telegram_bot.alerts_count st).
Proof.
  assert (Hcount : forall low items,
             (List.length (filter (tg_due low) items)
              <= List.length
                   (filter (fun item : Z * telegram_bot.alert =>
                              telegram_bot.active (snd item)) items))%nat).
  { intros low items. induction items as [|[chat a] items IH]; simpl; [lia|].
    unfold tg_due at 1. simpl.
    destruct (telegram_bot.active a); simpl; [|exact IH].
    destruct (le_float _ _); simpl; lia. }
  assert (Hshape : snd (telegram_bot.check_alerts_job send_ok st r) = []
                   \/ exists low,
                        telegram_bot.get_current_lowest_price r = Some low
                        /\ snd (telegram_bot.check_alerts_job send_ok st r)
                           = map (tg_notify send_ok low)
                                 (filter (tg_due low)
                                         (telegram_bot.price_alerts st))).
  { destruct (telegram_bot.get_current_lowest_price r) as [low|] eqn:Hlow.
    - right. exists low. split; [reflexivity|].
      unfold telegram_bot.check_alerts_job. rewrite Hlow.
      destruct (telegram_bot.price_alerts st) as [|item items] eqn:Hitems;
        [reflexivity|].
      rewrite <- Hitems. cbn [snd]. apply tg_alert_loop_filter.
    - left. unfold telegram_bot.check_alerts_job. rewrite Hlow.
      now destruct (telegram_bot.price_alerts st). }
  split; [|split].
  - destruct Hshape as [-> | (low & _ & ->)]; [simpl; lia|].
    rewrite length_map. apply Hcount.
  - intros Hnd. destruct Hshape as [-> | (low & _ & ->)]; [constructor|].
    rewrite map_map.
    assert (Hext : map (fun x => event_chat (tg_notify send_ok low x))
                       (filter (tg_due low) (telegram_bot.price_alerts st))
                   = map fst (filter (tg_due low)
                                     (telegram_bot.price_alerts st))).
    { apply map_ext. intros [chat a]. unfold tg_notify. simpl.
      now destruct (send_ok chat). }
    rewrite Hext. clear Hext.
    induction (telegram_bot.price_alerts st) as [|[chat a] items IH];
      simpl; [constructor|].
    inversion Hnd as [|? ? Hchat Hitems]; subst.
    destruct (tg_due low (chat, a)); simpl; [|now apply IH].
    constructor; [|now apply IH].
    intros Hin. apply Hchat. apply in_map_iff in Hin.
    destruct Hin as (item & Heq & Hin). apply filter_In in Hin.
    apply in_map_iff. exists item. split; [exact Heq | apply Hin].
  - intros low Hlow Hall.
    destruct Hshape as [Hnil | (low' & Hlow' & ->)].
    + clear Hnil.
      assert (Hsh : snd (telegram_bot.check_alerts_job send_ok st r)
                    = map (tg_notify send_ok low)
                          (filter (tg_due low) (telegram_bot.price_alerts st))).
      { unfold telegram_bot.check_alerts_job. rewrite Hlow.
        destruct (telegram_bot.price_alerts st) as [|item items] eqn:Hitems;
          [reflexivity|].
        rewrite <- Hitems. cbn [snd]. apply tg_alert_loop_filter. }
      rewrite Hsh, length_map. unfold telegram_bot.alerts_count.
      f_equal. apply filter_ext_in. intros [chat a] Hin.
      unfold tg_due. simpl. destruct (telegram_bot.active a) eqn:Ha;
        [|reflexivity].
      simpl. now apply (Hall chat a).
    + rewrite Hlow in Hlow'. injection Hlow' as <-.
      rewrite length_map. unfold telegram_bot.alerts_count.
      f_equal. apply filter_ext_in. intros [chat a] Hin.
      unfold tg_due. simpl. destruct (telegram_bot.active a) eqn:Ha;
        [|reflexivity].
      simpl. now apply (Hall chat a).
Qed.

Lemma job_sends_at_most_active_count_witness :
  NoDup (map event_chat
             (snd (telegram_bot.check_alerts_job
                     (fun _ => true) tg_three_alerts (FetchOk march_fares))))
  /\ List.length
       (snd (telegram_bot.check_alerts_job
               (fun _ => true)
               (telegram_bot.mkState
                  [(7%Z, telegram_bot.mkAlert 160 true "");
                   (9%Z, telegram_bot.mkAlert 155 true "")] Absent)
               (FetchOk march_fares)))
     = 2%nat.
Proof.
  split.
  - apply (proj1 (proj2 (job_sends_at_most_active_count
                           (fun _ => true) tg_three_alerts
                           (FetchOk march_fares)))).
    repeat constructor; simpl; intuition discriminate.
  - apply (proj2 (proj2 (job_sends_at_most_active_count
                           (fun _ => true)
                           (telegram_bot.mkState
                              [(7%Z, telegram_bot.mkAlert 160 true "");
                               (9%Z, telegram_bot.mkAlert 155 true "")] Absent)
                           (FetchOk march_fares)))
                 (telegram_bot.mkLowest 150 "2025-03-04" "MAD") eq_refl).
    intros chat a [H | [H | []]] _; injection H as _ <-; reflexivity.
Defined.

(** ** The price list of the Telegram bot *)

Lemma sorted_head_fold {A : Type} (le : A -> A -> bool) (l : list A) :
  match ryanair_api.sorted le l with
  | x :: _ => Some x
  | [] => None
  end
  = fold_right
      (fun x r => Some match r with
                       | Some y => if le x y then x else y
                       | None => x
                       end)
      None l.
Proof.
  induction l as [|x l IH]; [reflexivity|].
  simpl. rewrite <- IH.
  destruct (ryanair_api.sorted le l) as [|y s]; simpl; [reflexivity|].
  now destruct (le x y).
Qed.

Lemma entry_of_candidate (x : option Fare) :
  option_map entry_summary (telegram_bot.entry_of x) = candidate x.
Proof.
  unfold telegram_bot.entry_of, candidate, available,
    ryanair_api.price_value, day_of.
  destruct x as [f|]; [|reflexivity].
  destruct (unavailable f); [reflexivity|]. simpl.
  destruct (price f) as [p|]; [|reflexivity].
  destruct (value p) as [v|]; [|reflexivity].
  now destruct (truthy_num v).
Qed.

Lemma entry_of_available (fares : Fares) (e : telegram_bot.entry) :
  In e (telegram_bot.valid_entries fares) ->
  exists f, In (Some f) fares /\ available f = true
            /\ telegram_bot.entry_of (Some f) = Some e.
Proof.
  unfold telegram_bot.valid_entries. rewrite in_flat_map.
  intros (x & Hx & He).
  destruct (telegram_bot.entry_of x) as [e'|] eqn:Hentry; [|destruct He].
  destruct He as [<- | []]. destruct x as [f|]; [|discriminate].
  exists f. split; [exact Hx|]. split; [|exact Hentry].
  pose proof (entry_of_candidate (Some f)) as Hc. rewrite Hentry in Hc.
  simpl in Hc. destruct (available f); [reflexivity | discriminate].
Qed.

Lemma entry_of_iff_available (f : Fare) :
  match telegram_bot.entry_of (Some f) with Some _ => true | None => false end
  = available f.
Proof.
  unfold telegram_bot.entry_of, available, ryanair_api.price_value.
  destruct (unavailable f); [reflexivity|]. simpl.
  destruct (price f) as [p|]; [|reflexivity].
  destruct (value p) as [v|]; [|reflexivity].
  now destruct (truthy_num v).
Qed.

Lemma valid_entries_count (fares : Fares) :
  List.length (telegram_bot.valid_entries fares)
  = List.length (filter (fun x => match x with
                                  | Some f => available f
                                  | None => false
                                  end) fares).
Proof.
  induction fares as [|x rest IH]; [reflexivity|].
  unfold telegram_bot.valid_entries. cbn [flat_map filter].
  fold (telegram_bot.valid_entries rest). rewrite length_app, IH.
  destruct x as [f|]; [|reflexivity].
  rewrite <- entry_of_iff_available.
  now destruct (telegram_bot.entry_of (Some f)).
Qed.

Lemma cheapest_first_head (fares : Fares) :
  option_map entry_summary
             (match cheapest_first fares with
              | e :: _ => Some e
              | [] => None
              end)
  = telegram_bot.lowest_of fares.
Proof.
  unfold cheapest_first, telegram_bot.lowest_of.
  rewrite lowest_fold_right, sorted_head_fold. simpl.
  induction fares as [|x rest IH]; [reflexivity|].
  simpl. rewrite <- IH, <- entry_of_candidate.
  unfold telegram_bot.valid_entries at 1. simpl.
  fold (telegram_bot.valid_entries rest).
  destruct (telegram_bot.entry_of x) as [e|]; simpl.
  - destruct (fold_right _ None (telegram_bot.valid_entries rest)) as [y|];
      simpl; [|reflexivity].
    unfold earlier_or_cheaper, telegram_bot.by_price. simpl.
    now destruct (Qle_bool (telegram_bot.entry_price e)
                           (telegram_bot.entry_price y)).
  - now destruct (fold_right _ None (telegram_bot.valid_entries rest)).
Qed.

Lemma by_price_total (x y : telegram_bot.entry) :
  telegram_bot.by_price x y = true \/ telegram_bot.by_price y x = true.
Proof. apply Qle_bool_total. Qed.

Lemma by_price_trans (x y z : telegram_bot.entry) :
  telegram_bot.by_price x y = true -> telegram_bot.by_price y z = true ->
  telegram_bot.by_price x z = true.
Proof. apply Qle_bool_trans. Qed.

Lemma by_date_total (x y : telegram_bot.entry) :
  telegram_bot.by_date x y = true \/ telegram_bot.by_date y x = true.
Proof. apply String.leb_total. Qed.

Lemma by_date_trans (x y z : telegram_bot.entry) :
  telegram_bot.by_date x y = true -> telegram_bot.by_date y z = true ->
  telegram_bot.by_date x z = true.
Proof. apply string_leb_trans. Qed.

Lemma cheapest_first_ordered (fares : Fares) :
  StronglySorted (fun a c => telegram_bot.entry_price a
                             <= telegram_bot.entry_price c)
                 (cheapest_first fares).
Proof.
  assert (Hs : StronglySorted (fun a c => telegram_bot.by_price a c = true)
                              (cheapest_first fares))
    by (apply sorted_ordered; [apply by_price_total | apply by_price_trans]).
  induction Hs as [|a l _ IH Ha]; constructor; [exact IH|].
  eapply Forall_impl; [|exact Ha]. intros b Hb. now apply Qle_bool_iff.
Qed.

Lemma tg_rows_of_spec (weekday : string -> option string)
      (low : telegram_bot.entry) (l : list telegram_bot.entry)
      (rows : list telegram_bot.row) :
  telegram_bot.rows_of weekday low l = Some rows ->
  map telegram_bot.shown rows = l
  /\ forall row, In row rows ->
                 telegram_bot.is_lowest row
                 = Qeq_bool (telegram_bot.entry_price (telegram_bot.shown row))
                            (telegram_bot.entry_price low)
                 /\ weekday (telegram_bot.entry_date (telegram_bot.shown row))
                    = Some (telegram_bot.day_name row).
Proof.
  revert rows. induction l as [|e l IH]; simpl; intros rows H.
  - injection H as <-. split; [reflexivity | intros row []].
  - destruct (weekday (telegram_bot.entry_date e)) as [d|] eqn:Hd;
      [|discriminate].
    destruct (telegram_bot.rows_of weekday low l) as [rows'|]; [|discriminate].
    injection H as <-. destruct (IH rows' eq_refl) as [Hmap Hrows].
    split; [simpl; now rewrite Hmap|].
    intros row [<- | Hrow]; [now split | now apply Hrows].
Qed.

Lemma tg_rows_of_total (weekday : string -> option string)
      (low : telegram_bot.entry) (l : list telegram_bot.entry) :
  (forall e, In e l -> weekday (telegram_bot.entry_date e) <> None) ->
  telegram_bot.rows_of weekday low l <> None.
Proof.
  induction l as [|e l IH]; simpl; intros H; [discriminate|].
  destruct (weekday (telegram_bot.entry_date e)) as [d|] eqn:Hd;
    [|now destruct (H e (or_introl eq_refl))].
  destruct (telegram_bot.rows_of weekday low l);
    [discriminate | apply IH; intros g Hg; apply H; now right].
Qed.

(** How a price list arises from the ordered entries. *)
Lemma price_list_inv (weekday : string -> option string) (r : FetchResult)
      (best : telegram_bot.entry) (best_day : string)
      (rows : list telegram_bot.row) (more : option nat) :
  telegram_bot.get_flight_prices_formatted weekday r
  = telegram_bot.PriceList best best_day rows more ->
  exists fares rest,
    r = FetchOk fares
    /\ cheapest_first fares = best :: rest
    /\ weekday (telegram_bot.entry_date best) = Some best_day
    /\ telegram_bot.rows_of weekday best
         (ryanair_api.sorted telegram_bot.by_date
                             (firstn 15 (best :: rest)))
       = Some rows
    /\ more = if Nat.ltb 15 (List.length (best :: rest))
              then Some (List.length (best :: rest) - 15)%nat else None.
Proof.
  unfold telegram_bot.get_flight_prices_formatted.
  destruct r as [|fares]; [discriminate|].
  destruct fares as [|x fares']; [discriminate|].
  fold (cheapest_first (x :: fares')).
  destruct (cheapest_first (x :: fares')) as [|low rest] eqn:Hc;
    [discriminate|].
  destruct (weekday (telegram_bot.entry_date low)) as [d|] eqn:Hd;
    [|discriminate].
  destruct (telegram_bot.rows_of weekday low _) as [rows'|] eqn:Hrows;
    [|discriminate].
  intros H. injection H as <- <- <- <-.
  exists (x :: fares'), rest. now repeat split.
Qed.

(** X16.  When [get_flight_prices_formatted] returns a list, its rows are
    the fifteen cheapest available fares of the response (all of them when
    there are at most fifteen) in ascending date order: each row is read off a
    fare that is not flagged unavailable and has a non-zero price, no fare
    left out is cheaper than a row, and "+N more" appears exactly when more
    than fifteen fares are available, with N the number left out. *)
Theorem price_list_shows_fifteen_cheapest
        (weekday : string -> option string) (r : FetchResult)
        (best : telegram_bot.entry) (best_day : string)
        (rows : list telegram_bot.row) (more : option nat) :
  telegram_bot.get_flight_prices_formatted weekday r
  = telegram_bot.PriceList best best_day rows more ->
  exists fares,
    r = FetchOk fares
    /\ List.length rows = Nat.min 15 (List.length (cheapest_first fares))
    /\ List.length (cheapest_first fares)
       = List.length (filter (fun x => match x with
                                       | Some f => available f
                                       | None => false
                                       end) fares)
    /\ more = (if Nat.ltb 15 (List.length (cheapest_first fares))
               then Some (List.length (cheapest_first fares) - 15)%nat
               else None)
    /\ StronglySorted
         (fun a c => String.leb
                       (telegram_bot.entry_date (telegram_bot.shown a))
                       (telegram_bot.entry_date (telegram_bot.shown c)) = true)
         rows
    /\ Permutation (map telegram_bot.shown rows)
                   (firstn 15 (cheapest_first fares))
    /\ (forall row e, In row rows -> In e (skipn 15 (cheapest_first fares)) ->
                      telegram_bot.entry_price (telegram_bot.shown row)
                      <= telegram_bot.entry_price e)
    /\ (forall row, In row rows ->
                    exists f, In (Some f) fares /\ available f = true
                              /\ telegram_bot.entry_of (Some f)
                                 = Some (telegram_bot.shown row)).
Proof.
  intros H.
  destruct (price_list_inv _ _ _ _ _ _ H)
    as (fares & rest & -> & Hc & Hday & Hrows & Hmore).
  exists fares. rewrite Hc.
  destruct (tg_rows_of_spec _ _ _ _ Hrows) as [Hmap Hrow].
  assert (Hperm : Permutation (map telegram_bot.shown rows)
                              (firstn 15 (best :: rest)))
    by (rewrite Hmap; apply sorted_permutation).
  pose proof (cheapest_first_ordered fares) as Hs. rewrite Hc in Hs.
  split; [reflexivity|]. split; [|split; [|split; [|split; [|split; [|split]]]]].
  - rewrite <- (length_map telegram_bot.shown), Hmap, sorted_length.
    apply length_firstn.
  - rewrite <- Hc. unfold cheapest_first. rewrite sorted_length.
    apply valid_entries_count.
  - exact Hmore.
  - assert (Hd : StronglySorted (fun a c => telegram_bot.by_date a c = true)
                                (map telegram_bot.shown rows)).
    { rewrite Hmap. apply sorted_ordered;
        [apply by_date_total | apply by_date_trans]. }
    clear - Hd. induction rows as [|row rows IH]; [constructor|].
    simpl in Hd. apply StronglySorted_inv in Hd. destruct Hd as [Hd Hr].
    constructor; [now apply IH|].
    apply Forall_forall. intros other Ho. rewrite Forall_forall in Hr.
    apply Hr. now apply in_map.
  - exact Hperm.
  - intros row e Hin He.
    apply (firstn_cheapest _ 15 (best :: rest) Hs); [|exact He].
    apply (Permutation_in _ Hperm). now apply in_map.
  - intros row Hin. apply entry_of_available.
    apply (sorted_in telegram_bot.by_price). fold (cheapest_first fares).
    rewrite Hc. apply (in_firstn 15), (Permutation_in _ Hperm).
    now apply in_map.
Qed.

Lemma price_list_shows_fifteen_cheapest_witness :
  exists best best_day rows,
    telegram_bot.get_flight_prices_formatted weekday_iso (FetchOk sixteen_fares)
    = telegram_bot.PriceList best best_day rows (Some 1%nat)
    /\ List.length rows = 15%nat
    /\ telegram_bot.entry_price best = 275.
Proof.
  eexists. eexists. eexists. split; [vm_compute; reflexivity|].
  split; [|reflexivity].
  edestruct (price_list_shows_fifteen_cheapest
               weekday_iso (FetchOk sixteen_fares))
    as (fares & Hr & Hlen & _); [vm_compute; reflexivity|].
  injection Hr as <-. exact Hlen.
Defined.

(** X17.  The "BEST PRICE" of the list is the fare [/lowest] reports: same
    price, date and currency as [get_current_lowest_price] on the same
    response.  It is one of the rows, the green mark is on exactly the rows
    at that price, no row is cheaper, and the day name of every row is the
    weekday of its date. *)
Theorem price_list_best_is_lowest
        (weekday : string -> option string) (r : FetchResult)
        (best : telegram_bot.entry) (best_day : string)
        (rows : list telegram_bot.row) (more : option nat) :
  telegram_bot.get_flight_prices_formatted weekday r
  = telegram_bot.PriceList best best_day rows more ->
  telegram_bot.get_current_lowest_price r = Some (entry_summary best)
  /\ weekday (telegram_bot.entry_date best) = Some best_day
  /\ (exists row, In row rows /\ telegram_bot.shown row = best
                  /\ telegram_bot.is_lowest row = true)
  /\ (forall row, In row rows ->
                  telegram_bot.entry_price best
                  <= telegram_bot.entry_price (telegram_bot.shown row)
                  /\ (telegram_bot.is_lowest row = true <->
                      telegram_bot.entry_price (telegram_bot.shown row)
                      == telegram_bot.entry_price best)
                  /\ weekday (telegram_bot.entry_date (telegram_bot.shown row))
                     = Some (telegram_bot.day_name row)).
Proof.
  intros H.
  destruct (price_list_inv _ _ _ _ _ _ H)
    as (fares & rest & -> & Hc & Hday & Hrows & _).
  destruct (tg_rows_of_spec _ _ _ _ Hrows) as [Hmap Hrow].
  assert (Hperm : Permutation (map telegram_bot.shown rows)
                              (firstn 15 (best :: rest)))
    by (rewrite Hmap; apply sorted_permutation).
  pose proof (cheapest_first_ordered fares) as Hs. rewrite Hc in Hs.
  split; [|split; [exact Hday|split]].
  - simpl. rewrite <- cheapest_first_head. now rewrite Hc.
  - assert (Hin : In best (map telegram_bot.shown rows)).
    { apply (Permutation_in _ (Permutation_sym Hperm)). now left. }
    apply in_map_iff in Hin. destruct Hin as (row & Heq & Hin).
    exists row. split; [exact Hin|]. split; [exact Heq|].
    rewrite (proj1 (Hrow row Hin)), Heq. apply Qeq_bool_iff, Qeq_refl.
  - intros row Hin. split; [|split].
    + assert (Hin' : In (telegram_bot.shown row) (best :: rest)).
      { apply (in_firstn 15), (Permutation_in _ Hperm). now apply in_map. }
      apply StronglySorted_inv in Hs. destruct Hs as [_ Hs].
      destruct Hin' as [<- | Hin']; [apply Qle_refl|].
      rewrite Forall_forall in Hs. now apply Hs.
    + rewrite (proj1 (Hrow row Hin)). apply Qeq_bool_iff.
    + apply (Hrow row Hin).
Qed.

Lemma price_list_best_is_lowest_witness :
  telegram_bot.get_current_lowest_price (FetchOk march_fares)
  = Some (telegram_bot.mkLowest 150 "2025-03-04" "MAD").
Proof.
  edestruct (price_list_best_is_lowest weekday_iso (FetchOk march_fares))
    as (Hlow & _); [reflexivity|].
  exact Hlow.
Defined.

Lemma tg_rows_of_none (weekday : string -> option string)
      (low : telegram_bot.entry) (l : list telegram_bot.entry)
      (e : telegram_bot.entry) :
  In e l -> weekday (telegram_bot.entry_date e) = None ->
  telegram_bot.rows_of weekday low l = None.
Proof.
  induction l as [|x l IH]; simpl; intros Hin He; [destruct Hin|].
  destruct Hin as [-> | Hin].
  - now rewrite He.
  - rewrite (IH Hin He). now destruct (weekday (telegram_bot.entry_date x)).
Qed.

(** X18.  [get_flight_prices_formatted] answers "no flights found" exactly
    when the fares array is empty, "no fares available" exactly when it is
    not empty but holds no available fare, and the error text exactly when
    the fetch failed or [strptime] rejects the date of one of the fifteen
    cheapest fares; in every other case it returns a list.  It answers one of
    the two "no fares" texts exactly when [get_current_lowest_price] finds
    nothing in the same response. *)
Theorem price_list_outcomes
        (weekday : string -> option string) (r : FetchResult) :
  (telegram_bot.get_flight_prices_formatted weekday r
   = telegram_bot.NoFlightsFound <-> r = FetchOk [])
  /\ (telegram_bot.get_flight_prices_formatted weekday r
      = telegram_bot.NoFaresAvailable
      <-> exists fares, r = FetchOk fares /\ fares <> []
                        /\ none_available fares)
  /\ (telegram_bot.get_flight_prices_formatted weekday r
      = telegram_bot.ErrorFetching
      <-> r = FetchError
          \/ exists fares e,
               r = FetchOk fares
               /\ In e (firstn 15 (cheapest_first fares))
               /\ weekday (telegram_bot.entry_date e) = None)
  /\ (forall fares,
         r = FetchOk fares ->
         (telegram_bot.get_flight_prices_formatted weekday r
          = telegram_bot.NoFlightsFound
          \/ telegram_bot.get_flight_prices_formatted weekday r
             = telegram_bot.NoFaresAvailable)
         <-> telegram_bot.get_current_lowest_price r = None).
Proof.
  destruct r as [|fares].
  - simpl. split; [split; discriminate|]. split; [|split].
    + split; [discriminate | now intros (f & Hf & _)].
    + split; [now left | reflexivity].
    + discriminate.
  - assert (Hnone : cheapest_first fares = [] <-> none_available fares).
    { rewrite no_lowest_iff_none_available. simpl.
      rewrite <- cheapest_first_head.
      destruct (cheapest_first fares); split; (discriminate || reflexivity). }
    unfold telegram_bot.get_flight_prices_formatted.
    destruct fares as [|x fares'].
    { split; [now split|]. split; [|split].
      - split; [discriminate | now intros (f & [= <-] & Hf & _)].
      - split; [discriminate|].
        intros [H | (f & e & [= <-] & [] & _)]. discriminate H.
      - intros f [= <-]. split; [reflexivity | now left]. }
    fold (cheapest_first (x :: fares')).
    set (fares := x :: fares') in *.
    destruct (cheapest_first fares) as [|low rest] eqn:Hc.
    { assert (Hna : none_available fares) by now apply Hnone.
      split; [split; discriminate|]. split; [|split].
      - split; [|reflexivity]. intros _. exists fares.
        split; [reflexivity|]. split; [discriminate | exact Hna].
      - split; [discriminate|].
        intros [H | (f & e & [= <-] & He & _)]; [discriminate H|].
        rewrite Hc in He. destruct He.
      - intros f [= <-]. split; [|now right].
        intros _. now apply no_lowest_iff_none_available. }
    assert (Hsome : ~ none_available fares).
    { intros Hna. apply Hnone in Hna. discriminate Hna. }
    assert (Hlowest : telegram_bot.get_current_lowest_price (FetchOk fares)
                      <> None).
    { intros Hl. apply Hsome. now apply no_lowest_iff_none_available. }
    assert (Herr : forall e, In e (firstn 15 (low :: rest)) ->
                             weekday (telegram_bot.entry_date e) = None ->
                             match weekday (telegram_bot.entry_date low) with
                             | Some d =>
                                 match telegram_bot.rows_of weekday low
                                         (ryanair_api.sorted
                                            telegram_bot.by_date
                                            (firstn 15 (low :: rest))) with
                                 | Some rows =>
                                     telegram_bot.PriceList low d rows
                                       (if Nat.ltb 15
                                             (List.length (low :: rest))
                                        then Some (List.length (low :: rest)
                                                   - 15)%nat
                                        else None)
                                 | None => telegram_bot.ErrorFetching
                                 end
                             | None => telegram_bot.ErrorFetching
                             end = telegram_bot.ErrorFetching).
    { intros e He Hw.
      destruct (weekday (telegram_bot.entry_date low)); [|reflexivity].
      rewrite (tg_rows_of_none weekday low _ e); [reflexivity| |exact Hw].
      now apply (sorted_in telegram_bot.by_date). }
    split; [|split; [|split]].
    + split; [|discriminate].
      destruct (weekday (telegram_bot.entry_date low)); [|discriminate].
      destruct (telegram_bot.rows_of weekday low _); discriminate.
    + split.
      * destruct (weekday (telegram_bot.entry_date low)); [|discriminate].
        destruct (telegram_bot.rows_of weekday low _); discriminate.
      * intros (f & [= <-] & _ & Hna). now destruct Hsome.
    + split.
      * intros H. right. exists fares.
        destruct (weekday (telegram_bot.entry_date low)) eqn:Hw.
        -- destruct (telegram_bot.rows_of weekday low _) eqn:Hrows;
             [discriminate|].
           destruct (List.existsb
                       (fun e => match weekday (telegram_bot.entry_date e) with
                                 | Some _ => false | None => true end)
                       (ryanair_api.sorted telegram_bot.by_date
                                           (firstn 15 (low :: rest)))) eqn:Hex.
           ++ apply existsb_exists in Hex. destruct Hex as (e & Hin & He).
              exists e. split; [reflexivity|]. rewrite Hc. split.
              ** exact (proj1 (sorted_in _ _ _) Hin).
              ** now destruct (weekday (telegram_bot.entry_date e)).
           ++ exfalso. revert Hrows. apply tg_rows_of_total.
              intros e Hin Hnone'. apply not_true_iff_false in Hex.
              apply Hex, existsb_exists. exists e.
              split; [exact Hin | now rewrite Hnone'].
        -- exists low. split; [reflexivity|]. rewrite Hc.
           split; [now left | exact Hw].
      * intros [H | (f & e & [= <-] & He & Hw)]; [discriminate H|].
        rewrite Hc in He. now apply (Herr e).
    + intros f [= <-]. split.
      * intros [H | H]; exfalso; revert H;
          (destruct (weekday (telegram_bot.entry_date low)); [|discriminate];
           destruct (telegram_bot.rows_of weekday low _); discriminate).
      * intros H. now destruct Hlowest.
Qed.

Lemma price_list_outcomes_witness :
  telegram_bot.get_flight_prices_formatted weekday_iso
                                           (FetchOk [Some sold_out; None])
  = telegram_bot.NoFaresAvailable
  /\ telegram_bot.get_flight_prices_formatted
       weekday_iso
       (FetchOk (march_fares ++ [Some (fare "2025-02-30" 100 false)]))
     = telegram_bot.ErrorFetching.
Proof.
  split.
  - apply (proj1 (proj2 (price_list_outcomes
                           weekday_iso (FetchOk [Some sold_out; None])))).
    exists [Some sold_out; None]. split; [reflexivity|].
    split; [discriminate|].
    intros f [Hf | [Hf | []]]; [now injection Hf as <- | discriminate Hf].
  - apply (proj1 (proj2 (proj2 (price_list_outcomes
                                  weekday_iso
                                  (FetchOk (march_fares
                                              ++ [Some (fare "2025-02-30" 100
                                                             false)])))))).
    right. eexists. eexists. split; [reflexivity|].
    split; [left; reflexivity | reflexivity].
Defined.

(** ** The listings of the command-line tools *)

Lemma key_le_total (f g : Fare) :
  ryanair_api.key_le f g = true \/ ryanair_api.key_le g f = true.
Proof.
  unfold ryanair_api.key_le.
  destruct (ryanair_api.price_value f), (ryanair_api.price_value g); auto.
  apply Qle_bool_total.
Qed.

Lemma key_le_trans (f g h : Fare) :
  ryanair_api.key_le f g = true -> ryanair_api.key_le g h = true ->
  ryanair_api.key_le f h = true.
Proof.
  unfold ryanair_api.key_le.
  destruct (ryanair_api.price_value f), (ryanair_api.price_value g),
    (ryanair_api.price_value h); try discriminate; auto.
  apply Qle_bool_trans.
Qed.

Lemma day_key_le_total (f g : Fare) :
  day_key_le f g = true \/ day_key_le g f = true.
Proof.
  unfold day_key_le. destruct (day f), (day g); auto. apply String.leb_total.
Qed.

Lemma day_key_le_trans (f g h : Fare) :
  day_key_le f g = true -> day_key_le g h = true -> day_key_le f h = true.
Proof.
  unfold day_key_le.
  destruct (day f), (day g), (day h); try discriminate; auto.
  apply string_leb_trans.
Qed.

Lemma sorted_by_value (l : list Fare) :
  forallb check_flights.has_value l = true ->
  ryanair_api.sorted check_flights.value_le l
  = ryanair_api.sorted ryanair_api.key_le l.
Proof.
  intros H. apply sorted_agree. intros f g Hf Hg.
  rewrite forallb_forall in H.
  pose proof (H f Hf) as Hvf. pose proof (H g Hg) as Hvg.
  unfold check_flights.has_value, check_flights.value_le, ryanair_api.key_le
    in *.
  destruct (ryanair_api.price_value f); [|discriminate].
  now destruct (ryanair_api.price_value g).
Qed.

Lemma sorted_by_day (l : list Fare) :
  forallb check_flights.has_day l = true ->
  ryanair_api.sorted check_flights.day_le l = ryanair_api.sorted day_key_le l.
Proof.
  intros H. apply sorted_agree. intros f g Hf Hg.
  rewrite forallb_forall in H.
  pose proof (H f Hf) as Hdf. pose proof (H g Hg) as Hdg.
  unfold check_flights.has_day, check_flights.day_le, day_key_le in *.
  destruct (day f); [|discriminate]. now destruct (day g).
Qed.

Lemma under_limit_filter (limit : pyfloat) (l : list Fare) :
  match check_flights.under_limit limit l with
  | Some under =>
      forallb check_flights.has_value l = true
      /\ under = filter (fun f => match ryanair_api.price_value f with
                                  | Some v => le_float v limit
                                  | None => false
                                  end) l
  | None => forallb check_flights.has_value l = false
  end.
Proof.
  induction l as [|f l IH]; [now split|].
  cbn [check_flights.under_limit forallb filter].
  assert (Hf : check_flights.has_value f
               = match ryanair_api.price_value f with
                 | Some _ => true | None => false end) by reflexivity.
  rewrite Hf. clear Hf.
  destruct (ryanair_api.price_value f) as [v|]; [|reflexivity].
  destruct (check_flights.under_limit limit l) as [under|].
  - destruct IH as [Hv ->]. split; [exact Hv|].
    now destruct (le_float v limit).
  - exact IH.
Qed.

Lemma valid_fares_origin (fares : Fares) (f : Fare) :
  In f (check_flights.valid_fares fares) <->
  In (Some f) fares /\ unavailable f = false /\ price f <> None.
Proof.
  unfold check_flights.valid_fares. rewrite in_flat_map. split.
  - intros ([g|] & Hin & Hf); [|destruct Hf]. simpl in Hf.
    destruct (price g) eqn:Hp; [|destruct Hf].
    destruct (unavailable g) eqn:Hu; [destruct Hf|].
    destruct Hf as [<- | []]. rewrite Hp. now repeat split.
  - intros (Hin & Hu & Hp). exists (Some f). split; [exact Hin|]. simpl.
    destruct (price f); [|now destruct Hp]. rewrite Hu. now left.
Qed.

(** What a listing of [display_valid] says about the fares it was given. *)
Lemma display_valid_listing (weekday : string -> option string)
      (show_all : bool) (l : list Fare) (lowest : Fare) (rows : list Fare) :
  check_flights.display_valid weekday show_all l
  = check_flights.Listing lowest rows ->
  In lowest l
  /\ check_flights.printable weekday lowest = true
  /\ (exists v, ryanair_api.price_value lowest = Some v
                /\ forall f w, In f l -> ryanair_api.price_value f = Some w ->
                               v <= w)
  /\ (rows = []
      \/ (show_all = true /\ (1 < List.length l)%nat
          /\ Permutation rows l
          /\ StronglySorted (fun a b => day_key_le a b = true) rows
          /\ forall f, In f rows -> check_flights.printable weekday f = true))
  /\ (rows = [] -> show_all = false \/ (List.length l <= 1)%nat).
Proof.
  unfold check_flights.display_valid.
  destruct l as [|f0 l0]; [discriminate|]. set (l := f0 :: l0).
  destruct (forallb check_flights.has_value l) eqn:Hv; [|discriminate].
  rewrite (sorted_by_value l Hv).
  pose proof (sorted_ordered ryanair_api.key_le key_le_total key_le_trans l)
    as Hs.
  pose proof (sorted_permutation ryanair_api.key_le l) as Hp.
  pose proof (sorted_length ryanair_api.key_le l) as Hlen.
  destruct (ryanair_api.sorted ryanair_api.key_le l) as [|low s] eqn:Hsorted;
    [discriminate|].
  destruct (check_flights.printable weekday low) eqn:Hprint; [|discriminate].
  assert (Hlow : In low l) by (apply (Permutation_in _ Hp); now left).
  assert (Hmin : exists v, ryanair_api.price_value low = Some v
                           /\ forall f w, In f l ->
                                          ryanair_api.price_value f = Some w ->
                                          v <= w).
  { rewrite forallb_forall in Hv. pose proof (Hv low Hlow) as Hvl.
    unfold check_flights.has_value in Hvl.
    destruct (ryanair_api.price_value low) as [v|] eqn:Hpv; [|discriminate].
    exists v. split; [reflexivity|]. intros f w Hf Hw.
    apply (Permutation_in _ (Permutation_sym Hp)) in Hf.
    apply StronglySorted_inv in Hs. destruct Hs as [_ Hs].
    destruct Hf as [<- | Hf].
    - rewrite Hpv in Hw. injection Hw as <-. apply Qle_refl.
    - rewrite Forall_forall in Hs. specialize (Hs f Hf).
      unfold ryanair_api.key_le in Hs. rewrite Hpv, Hw in Hs.
      now apply Qle_bool_iff. }
  destruct (show_all && Nat.ltb 1 (List.length (low :: s)))%bool eqn:Hshow.
  - destruct (forallb check_flights.has_day (low :: s)) eqn:Hd; [|discriminate].
    rewrite (sorted_by_day _ Hd).
    destruct (forallb (check_flights.printable weekday)
                      (ryanair_api.sorted day_key_le (low :: s))) eqn:Hrows;
      [|discriminate].
    intros H. injection H as Hl Hr. subst lowest rows.
    apply andb_true_iff in Hshow. destruct Hshow as [Hall Hlt].
    apply Nat.ltb_lt in Hlt. rewrite Hlen in Hlt.
    split; [exact Hlow|]. split; [exact Hprint|]. split; [exact Hmin|]. split.
    + right. split; [exact Hall|]. split; [exact Hlt|]. split; [|split].
      * eapply Permutation_trans;
          [exact (sorted_permutation day_key_le (low :: s)) | exact Hp].
      * exact (sorted_ordered day_key_le day_key_le_total day_key_le_trans
                              (low :: s)).
      * intros f Hf. rewrite forallb_forall in Hrows. now apply Hrows.
    + intros Hnil. exfalso.
      pose proof (sorted_length day_key_le (low :: s)) as Hl.
      change (ryanair_api.sorted day_key_le (low :: s) = []) in Hnil.
      rewrite Hnil in Hl. discriminate Hl.
  - intros H. injection H as Hl Hr. subst lowest rows.
    split; [exact Hlow|]. split; [exact Hprint|]. split; [exact Hmin|].
    split; [now left|].
    intros _. apply andb_false_iff in Hshow.
    destruct Hshow as [Hall | Hlt]; [now left|].
    right. apply Nat.ltb_ge in Hlt. now rewrite Hlen in Hlt.
Qed.

(** A row that cannot be printed makes the table raise. *)
Lemma display_valid_raises (weekday : string -> option string)
      (l : list Fare) (f : Fare) :
  In f l -> check_flights.printable weekday f = false ->
  (1 < List.length l)%nat ->
  check_flights.display_valid weekday true l = check_flights.Raises.
Proof.
  intros Hin Hbad Hlen. unfold check_flights.display_valid.
  destruct l as [|f0 l0]; [destruct Hin|]. set (l := f0 :: l0) in *.
  destruct (forallb check_flights.has_value l); [|reflexivity].
  pose proof (sorted_permutation check_flights.value_le l) as Hp.
  pose proof (sorted_length check_flights.value_le l) as Hl.
  destruct (ryanair_api.sorted check_flights.value_le l) as [|low s] eqn:Hs;
    [apply Permutation_nil in Hp; discriminate Hp|].
  destruct (check_flights.printable weekday low); [|reflexivity].
  rewrite Hl. apply Nat.ltb_lt in Hlen. rewrite Hlen. cbn [andb].
  destruct (forallb check_flights.has_day (low :: s)); [|reflexivity].
  assert (Hrows : forallb (check_flights.printable weekday)
                          (ryanair_api.sorted check_flights.day_le (low :: s))
                  = false).
  { apply not_true_iff_false. intros Hall. rewrite forallb_forall in Hall.
    assert (Hf : In f (ryanair_api.sorted check_flights.day_le (low :: s))).
    { apply (proj2 (sorted_in check_flights.day_le (low :: s) f)).
      now apply (Permutation_in _ (Permutation_sym Hp)). }
    specialize (Hall f Hf). congruence. }
  now rewrite Hrows.
Qed.

Lemma display_flights_kept (weekday : string -> option string)
      (fares : Fares) (show_all : bool) (price_limit : option pyfloat)
      (lowest : Fare) (rows : list Fare) :
  check_flights.display_flights weekday fares show_all price_limit
  = check_flights.Listing lowest rows ->
  check_flights.display_valid weekday show_all (kept fares price_limit)
  = check_flights.Listing lowest rows.
Proof.
  unfold check_flights.display_flights, kept.
  destruct price_limit as [limit|]; [|trivial].
  pose proof (under_limit_filter limit (check_flights.valid_fares fares)) as H.
  destruct (check_flights.under_limit limit (check_flights.valid_fares fares))
    as [under|]; [|discriminate].
  destruct H as [_ ->].
  destruct (filter _ (check_flights.valid_fares fares)); [discriminate|trivial].
Qed.

(** X19.  When [display_flights] prints a complete listing, the fare shown
    as LOWEST PRICE is a fare of the response that is not flagged
    unavailable, no fare kept is cheaper, its day is a date [strptime]
    accepts and its timestamp keys are there; with a limit it and every row
    are priced at or below the limit.  The table is printed exactly when
    [show_all] is set and more than one fare is kept, and then its rows are
    the fares kept, each once, in ascending date order, every one with a day
    [strptime] accepts.  When the table is asked for and more than one fare is
    kept, a single kept fare whose day [strptime] rejects, or which lacks the
    key ["day"] or a timestamp key, makes [display_flights] raise. *)
Theorem display_flights_lists_kept
        (weekday : string -> option string)
        (fares : Fares) (show_all : bool) (price_limit : option pyfloat) :
  (forall lowest rows,
      check_flights.display_flights weekday fares show_all price_limit
      = check_flights.Listing lowest rows ->
      (In (Some lowest) fares /\ unavailable lowest = false)
      /\ check_flights.printable weekday lowest = true
      /\ (exists v, ryanair_api.price_value lowest = Some v
                    /\ (forall f w, In f (kept fares price_limit) ->
                                    ryanair_api.price_value f = Some w ->
                                    v <= w)
                    /\ forall limit, price_limit = Some limit ->
                                     le_float v limit = true)
      /\ (rows <> [] <->
          show_all = true /\ (1 < List.length (kept fares price_limit))%nat)
      /\ (rows <> [] ->
          Permutation rows (kept fares price_limit)
          /\ StronglySorted (fun a b => day_key_le a b = true) rows
          /\ (forall f, In f rows ->
                        check_flights.printable weekday f = true)
          /\ forall limit f w, price_limit = Some limit -> In f rows ->
                               ryanair_api.price_value f = Some w ->
                               le_float w limit = true))
  /\ (forall f,
         In f (kept fares price_limit) ->
         check_flights.printable weekday f = false ->
         show_all = true ->
         (1 < List.length (kept fares price_limit))%nat ->
         check_flights.display_flights weekday fares show_all price_limit
         = check_flights.Raises).
Proof.
  assert (Hkept : forall f, In f (kept fares price_limit) ->
                            In f (check_flights.valid_fares fares)
                            /\ forall limit w,
                                 price_limit = Some limit ->
                                 ryanair_api.price_value f = Some w ->
                                 le_float w limit = true).
  { intros f Hf. unfold kept in Hf. destruct price_limit as [limit|].
    - apply filter_In in Hf. destruct Hf as [Hf Hle]. split; [exact Hf|].
      intros l w [= <-] Hw. now rewrite Hw in Hle.
    - split; [exact Hf | discriminate]. }
  split.
  - intros lowest rows H. apply display_flights_kept in H.
    destruct (display_valid_listing _ _ _ _ _ H)
      as (Hin & Hprint & (v & Hv & Hmin) & Hrows & Hnil).
    split; [|split; [exact Hprint|split; [|split]]].
    + apply Hkept in Hin. destruct Hin as [Hin _].
      apply valid_fares_origin in Hin. now destruct Hin as (H1 & H2 & _).
    + exists v. split; [exact Hv|]. split; [exact Hmin|].
      intros limit Hl. now apply (proj2 (Hkept lowest Hin) limit v).
    + split.
      * intros Hne. destruct Hrows as [-> | (Hall & Hlt & _)];
          [now destruct Hne | now split].
      * intros [Hall Hlt] ->. destruct (Hnil eq_refl) as [Hf | Hle];
          [congruence | lia].
    + intros Hne. destruct Hrows as [-> | (_ & _ & Hp & Hs & Hd)];
        [now destruct Hne|].
      split; [exact Hp|]. split; [exact Hs|]. split; [exact Hd|].
      intros limit f w Hl Hf Hw.
      apply (proj2 (Hkept f (Permutation_in _ Hp Hf)) limit w Hl Hw).
  - intros f Hf Hbad -> Hlen.
    unfold check_flights.display_flights. unfold kept in Hf, Hlen.
    destruct price_limit as [limit|].
    + pose proof (under_limit_filter limit (check_flights.valid_fares fares))
        as Hu.
      destruct (check_flights.under_limit limit
                                          (check_flights.valid_fares fares))
        as [under|]; [|reflexivity].
      destruct Hu as [_ ->].
      destruct (filter _ (check_flights.valid_fares fares)) as [|f0 l0] eqn:Hk;
        [destruct Hf|].
      now apply (display_valid_raises weekday (f0 :: l0) f).
    + now apply (display_valid_raises weekday _ f).
Qed.

Lemma display_flights_lists_kept_witness :
  (exists rows,
      check_flights.display_flights weekday_full march_fares true
                                    (Some (Finite 160))
      = check_flights.Listing (fare "2025-03-04" 150 false) rows
      /\ Permutation rows (kept march_fares (Some (Finite 160)))
      /\ List.length rows = 2%nat)
  /\ weekday_full "2025-02-30" = None
  /\ check_flights.display_flights weekday_full [Some february_30] false None
     = check_flights.Raises
  /\ check_flights.display_flights
       weekday_full (march_fares ++ [Some february_30]) true None
     = check_flights.Raises.
Proof.
  split; [|split; [reflexivity|split; [reflexivity|]]].
  - eexists. split; [reflexivity|].
    edestruct (proj1 (display_flights_lists_kept
                        weekday_full march_fares true (Some (Finite 160))))
      as (_ & _ & _ & _ & Hrows); [reflexivity|].
    destruct Hrows as (Hperm & _); [discriminate|].
    split; [exact Hperm | reflexivity].
  - apply (proj2 (display_flights_lists_kept
                    weekday_full (march_fares ++ [Some february_30]) true None)
                 february_30); try reflexivity.
    + apply valid_fares_origin. split; [|now split].
      apply in_or_app. right. now left.
    + simpl. lia.
Defined.

Lemma api_valid_fares_in (fares : Fares) (f : Fare) :
  In f (ryanair_api.valid_fares fares) <->
  In (Some f) fares /\ has_amount (Some f) = true.
Proof.
  unfold ryanair_api.valid_fares. rewrite in_flat_map. split.
  - intros ([g|] & Hin & Hf); [|destruct Hf]. simpl in Hf.
    destruct (ryanair_api.price_value g) as [v|] eqn:Hv; [|destruct Hf].
    destruct (truthy_num v) eqn:Ht; [|destruct Hf].
    destruct Hf as [<- | []]. split; [exact Hin|].
    simpl. now rewrite Hv.
  - intros (Hin & Ha). exists (Some f). split; [exact Hin|].
    simpl in *. destruct (ryanair_api.price_value f) as [v|]; [|discriminate].
    rewrite Ha. now left.
Qed.

Lemma api_valid_fares_count (fares : Fares) :
  List.length (ryanair_api.valid_fares fares)
  = List.length (filter has_amount fares).
Proof.
  induction fares as [|x rest IH]; [reflexivity|].
  unfold ryanair_api.valid_fares. cbn [flat_map filter].
  fold (ryanair_api.valid_fares rest). rewrite length_app, IH.
  destruct x as [f|]; [|reflexivity]. simpl.
  destruct (ryanair_api.price_value f) as [v|]; [|reflexivity].
  now destruct (truthy_num v).
Qed.

Lemma listed_fare_lines (l : list Fare) :
  (forall f, In f l -> has_amount (Some f) = true) ->
  listed (flat_map ryanair_api.fare_line l) = map printed l.
Proof.
  induction l as [|f l IH]; intros H; [reflexivity|].
  cbn [flat_map map]. unfold listed in *. rewrite flat_map_app.
  rewrite IH by (intros g Hg; apply H; now right).
  f_equal. specialize (H f (or_introl eq_refl)).
  unfold ryanair_api.fare_line, printed. simpl in H.
  destruct (ryanair_api.price_value f) as [v|]; [|discriminate].
  now rewrite H.
Qed.

Lemma format_cheapest_fares_listed (fares : Fares) :
  listed (ryanair_api.format_cheapest_fares fares)
  = map printed (ryanair_api.sorted ryanair_api.key_le
                                    (ryanair_api.valid_fares fares)).
Proof.
  unfold ryanair_api.format_cheapest_fares.
  destruct fares as [|x rest]; [reflexivity|].
  set (fares := x :: rest).
  change (listed (flat_map ryanair_api.fare_line
                           (ryanair_api.sorted ryanair_api.key_le
                                               (ryanair_api.valid_fares fares)))
          = map printed (ryanair_api.sorted ryanair_api.key_le
                                            (ryanair_api.valid_fares fares))).
  apply listed_fare_lines. intros f Hf.
  apply (proj1 (sorted_in ryanair_api.key_le _ f)) in Hf.
  now apply api_valid_fares_in in Hf.
Qed.

Lemma printed_ordered (l : list Fare) :
  StronglySorted (fun f g => ryanair_api.key_le f g = true) l ->
  (forall f, In f l -> has_amount (Some f) = true) ->
  StronglySorted (fun a b => snd a <= snd b) (map printed l).
Proof.
  induction 1 as [|a l Hl IH Ha]; intros Hall; [constructor|].
  cbn [map]. constructor.
  - apply IH. intros f Hf. apply Hall. now right.
  - apply Forall_forall. intros p Hp. apply in_map_iff in Hp.
    destruct Hp as (b & <- & Hb). rewrite Forall_forall in Ha.
    specialize (Ha b Hb).
    pose proof (Hall a (or_introl eq_refl)) as Haa.
    pose proof (Hall b (or_intror Hb)) as Hab.
    unfold printed, ryanair_api.key_le in *. cbn [snd has_amount] in *.
    destruct (ryanair_api.price_value a) as [v|]; [|discriminate].
    destruct (ryanair_api.price_value b) as [w|]; [|discriminate].
    now apply Qle_bool_iff.
Qed.

(** X20.  The lines of [format_cheapest_fares] are in non-decreasing order
    of amount, one for each fare of the response with a non-zero price value
    (flagged unavailable or not), each showing that fare's day and value;
    fares without a price value, with value zero, and null entries give no
    line. *)
Theorem cheapest_fares_lines_in_price_order (fares : Fares) :
  let out := listed (ryanair_api.format_cheapest_fares fares) in
  StronglySorted (fun a b => snd a <= snd b) out
  /\ List.length out = List.length (filter has_amount fares)
  /\ (forall d v, In (d, v) out ->
                  ~ v == 0
                  /\ exists f, In (Some f) fares
                               /\ ryanair_api.price_value f = Some v
                               /\ day_of f = d)
  /\ (forall f v, In (Some f) fares -> ryanair_api.price_value f = Some v ->
                  ~ v == 0 -> In (day_of f, v) out).
Proof.
  intros out. unfold out. rewrite format_cheapest_fares_listed.
  set (l := ryanair_api.sorted ryanair_api.key_le
                               (ryanair_api.valid_fares fares)).
  assert (Hin : forall f, In f l <->
                          In (Some f) fares /\ has_amount (Some f) = true).
  { intros f. unfold l. now rewrite sorted_in, api_valid_fares_in. }
  assert (Hamount : forall f, has_amount (Some f) = true ->
                              exists v, ryanair_api.price_value f = Some v
                                        /\ ~ v == 0 /\ printed f = (day_of f, v)).
  { intros f Ha. unfold printed. simpl in Ha.
    destruct (ryanair_api.price_value f) as [v|]; [|discriminate].
    exists v. split; [reflexivity|]. split; [|reflexivity].
    unfold truthy_num in Ha.
    now rewrite negb_true_iff, <- not_true_iff_false, Qeq_bool_iff in Ha. }
  split; [|split; [|split]].
  - apply printed_ordered.
    + exact (sorted_ordered ryanair_api.key_le key_le_total key_le_trans
                            (ryanair_api.valid_fares fares)).
    + intros f Hf. now apply Hin in Hf.
  - rewrite length_map. unfold l. rewrite sorted_length.
    apply api_valid_fares_count.
  - intros d v Hd. apply in_map_iff in Hd. destruct Hd as (f & Hf & Hl).
    apply Hin in Hl. destruct Hl as [Hl Ha].
    destruct (Hamount f Ha) as (w & Hw & Hnz & Hp).
    rewrite Hp in Hf. injection Hf as <- <-.
    split; [exact Hnz|]. now exists f.
  - intros f v Hf Hv Hnz.
    assert (Ha : has_amount (Some f) = true).
    { simpl. rewrite Hv. unfold truthy_num.
      now rewrite negb_true_iff, <- not_true_iff_false, Qeq_bool_iff. }
    destruct (Hamount f Ha) as (w & Hw & _ & Hp).
    rewrite Hv in Hw. injection Hw as <-. rewrite <- Hp.
    apply in_map. apply Hin. now split.
Qed.

Lemma cheapest_fares_lines_in_price_order_witness :
  listed (ryanair_api.format_cheapest_fares
            (march_fares ++ [Some free_seat]))
  = [("2025-03-04", 150); ("2025-03-08", 150); ("2025-03-11", 150);
     ("2025-03-01", 180)]
  /\ In ("2025-03-08", 150)
        (listed (ryanair_api.format_cheapest_fares
                   (march_fares ++ [Some free_seat]))).
Proof.
  split; [reflexivity|].
  apply (proj2 (proj2 (proj2 (cheapest_fares_lines_in_price_order
                                (march_fares ++ [Some free_seat]))))
               sold_out 150);
    [|reflexivity | discriminate].
  apply in_or_app. left. right. right. right. now left.
Defined.

Lemma display_valid_message (weekday : string -> option string)
      (show_all : bool) (l : list Fare) :
  match check_flights.display_valid weekday show_all l with
  | check_flights.NoFlightsUnder _ => False
  | check_flights.NoFlightsAvailable => l = []
  | _ => l <> []
  end.
Proof.
  unfold check_flights.display_valid.
  destruct l as [|f0 l0]; [reflexivity|].
  destruct (forallb check_flights.has_value (f0 :: l0)); [|discriminate].
  pose proof (sorted_permutation check_flights.value_le (f0 :: l0)) as Hp.
  destruct (ryanair_api.sorted check_flights.value_le (f0 :: l0)) as [|low s].
  - apply Permutation_nil in Hp. discriminate Hp.
  - destruct (check_flights.printable weekday low); [|discriminate].
    destruct (show_all && Nat.ltb 1 (List.length (low :: s)))%bool;
      [|discriminate].
    destruct (forallb check_flights.has_day (low :: s)); [|discriminate].
    destruct (forallb (check_flights.printable weekday) _); discriminate.
Qed.

(** X21.  [display_flights] prints "no flights found under L" exactly when
    a limit L is given, every valid fare carries a price value and none is
    priced at or below L (also when there is no valid fare at all); it prints
    "no flights available" exactly when no limit is given and the response
    has no valid fare.  A valid fare without a price value makes it raise,
    with or without a limit. *)
Theorem display_flights_messages
        (weekday : string -> option string)
        (fares : Fares) (show_all : bool) (price_limit : option pyfloat) :
  (forall limit,
      check_flights.display_flights weekday fares show_all price_limit
      = check_flights.NoFlightsUnder limit
      <-> price_limit = Some limit
          /\ forallb check_flights.has_value (check_flights.valid_fares fares)
             = true
          /\ kept fares price_limit = [])
  /\ (check_flights.display_flights weekday fares show_all price_limit
      = check_flights.NoFlightsAvailable
      <-> price_limit = None /\ check_flights.valid_fares fares = [])
  /\ (forall f, In f (check_flights.valid_fares fares) ->
                ryanair_api.price_value f = None ->
                check_flights.display_flights weekday fares show_all
                                              price_limit
                = check_flights.Raises).
Proof.
  pose proof (display_valid_message weekday show_all) as Hmsg.
  unfold check_flights.display_flights, kept.
  destruct price_limit as [limit|].
  - pose proof (under_limit_filter limit (check_flights.valid_fares fares))
      as Hu.
    destruct (check_flights.under_limit limit (check_flights.valid_fares fares))
      as [under|].
    + destruct Hu as [Hv ->].
      destruct (filter _ (check_flights.valid_fares fares)) as [|f0 l0] eqn:Hk.
      * split; [|split].
        -- intros limit'. split.
           ++ intros [= <-]. now repeat split.
           ++ now intros ([= <-] & _ & _).
        -- split; [discriminate | now intros [? _]].
        -- intros f Hf Hnone. rewrite forallb_forall in Hv.
           specialize (Hv f Hf). unfold check_flights.has_value in Hv.
           now rewrite Hnone in Hv.
      * specialize (Hmsg (f0 :: l0)). split; [|split].
        -- intros limit'. split.
           ++ intros H. now rewrite H in Hmsg.
           ++ now intros (_ & _ & ?).
        -- split; [|now intros [? _]].
           intros H. rewrite H in Hmsg. discriminate Hmsg.
        -- intros f Hf Hnone. rewrite forallb_forall in Hv.
           specialize (Hv f Hf). unfold check_flights.has_value in Hv.
           now rewrite Hnone in Hv.
    + split; [|split].
      * intros limit'. split; [discriminate|].
        intros (_ & Hv & _). congruence.
      * split; [discriminate | now intros [? _]].
      * reflexivity.
  - specialize (Hmsg (check_flights.valid_fares fares)). split; [|split].
    + intros limit'. split; [|now intros [? _]].
      intros H. now rewrite H in Hmsg.
    + split.
      * intros H. rewrite H in Hmsg. now split.
      * now intros [_ ->].
    + intros f Hf Hnone. unfold check_flights.display_valid.
      destruct (check_flights.valid_fares fares) as [|f0 l0] eqn:Hl;
        [destruct Hf|].
      assert (Hv : forallb check_flights.has_value (f0 :: l0) = false).
      { apply not_true_iff_false. intros Hv. rewrite forallb_forall in Hv.
        specialize (Hv f Hf). unfold check_flights.has_value in Hv.
        now rewrite Hnone in Hv. }
      now rewrite Hv.
Qed.

Lemma display_flights_messages_witness :
  check_flights.display_flights weekday_full march_fares true
                                (Some (Finite 100))
  = check_flights.NoFlightsUnder 100
  /\ check_flights.display_flights weekday_full [Some sold_out] true
                                   (Some (Finite 100))
     = check_flights.NoFlightsUnder 100
  /\ check_flights.display_flights weekday_full march_fares true (Some NaN)
     = check_flights.NoFlightsUnder NaN
  /\ check_flights.display_flights weekday_full [Some sold_out] true None
     = check_flights.NoFlightsAvailable
  /\ check_flights.display_flights
       weekday_full
       (march_fares ++ [Some (mkFare (Some "2025-03-15")
                                     (Some (mkPrice None (Some "MAD")))
                                     false Null Null)])
       true None
     = check_flights.Raises.
Proof.
  split; [|split; [|split; [|split]]].
  - now apply (proj1 (display_flights_messages
                        weekday_full march_fares true (Some (Finite 100)))).
  - now apply (proj1 (display_flights_messages
                        weekday_full [Some sold_out] true (Some (Finite 100)))).
  - now apply (proj1 (display_flights_messages
                        weekday_full march_fares true (Some NaN))).
  - now apply (proj1 (proj2 (display_flights_messages
                               weekday_full [Some sold_out] true None))).
  - apply (proj2 (proj2 (display_flights_messages weekday_full _ true None))
                 (mkFare (Some "2025-03-15") (Some (mkPrice None (Some "MAD")))
                         false Null Null));
      [|reflexivity].
    apply valid_fares_origin. split; [|now split].
    apply in_or_app. right. now left.
Defined.

(** ** The month queried by [get_monthly_prices] *)

Lemma days_before_year_succ (y : Z) :
  (datetime.days_before_year (y + 1)
   = datetime.days_before_year y + 365
     + (if datetime.is_leap y then 1 else 0))%Z.
Proof.
  unfold datetime.days_before_year, datetime.is_leap. cbv zeta.
  replace (y + 1 - 1)%Z with y by lia.
  destruct (Z.eqb_spec (y mod 4) 0) as [H4 | H4];
    destruct (Z.eqb_spec (y mod 100) 0) as [H100 | H100];
    destruct (Z.eqb_spec (y mod 400) 0) as [H400 | H400];
    cbn [andb orb negb]; Z.div_mod_to_equations; lia.
Qed.

Lemma days_before_year_mono (y : Z) (k : nat) :
  (datetime.days_before_year y
   <= datetime.days_before_year (y + Z.of_nat k))%Z.
Proof.
  induction k as [|k IH].
  - replace (y + Z.of_nat 0)%Z with y by lia. lia.
  - replace (y + Z.of_nat (S k))%Z with (y + Z.of_nat k + 1)%Z by lia.
    rewrite days_before_year_succ.
    destruct (datetime.is_leap (y + Z.of_nat k)); lia.
Qed.

Lemma days_before_year_le (y y' : Z) :
  (y <= y')%Z ->
  (datetime.days_before_year y <= datetime.days_before_year y')%Z.
Proof.
  intros H. replace y' with (y + Z.of_nat (Z.to_nat (y' - y)))%Z by lia.
  apply days_before_year_mono.
Qed.

Ltac month_tables :=
  cbv [datetime.DAYS_BEFORE_MONTH datetime.DAYS_IN_MONTH Z.eqb Z.ltb Z.compare
       Pos.compare Pos.compare_cont Pos.eqb andb] in *.

Ltac month_cases m :=
  let H := fresh in
  assert (H : (m = 1 \/ m = 2 \/ m = 3 \/ m = 4 \/ m = 5 \/ m = 6 \/ m = 7
               \/ m = 8 \/ m = 9 \/ m = 10 \/ m = 11 \/ m = 12)%Z) by lia;
  repeat (destruct H as [H | H]); subst m.

(** Within a year the ordinal grows with the month and the day. *)
Lemma day_of_year_bounds (leap : bool) (m d : Z) :
  (1 <= m <= 12)%Z ->
  (1 <= d <= (if ((m =? 2)%Z && leap)%bool then 29
              else datetime.DAYS_IN_MONTH m))%Z ->
  (1 <= datetime.DAYS_BEFORE_MONTH m
        + (if ((2 <? m)%Z && leap)%bool then 1 else 0) + d
   <= 365 + (if leap then 1 else 0))%Z.
Proof.
  intros Hm Hd. month_cases m; destruct leap; month_tables; lia.
Qed.

Lemma day_of_year_lt (leap : bool) (m d m' d' : Z) :
  (1 <= m)%Z -> (m < m')%Z -> (m' <= 12)%Z ->
  (d <= (if ((m =? 2)%Z && leap)%bool then 29
         else datetime.DAYS_IN_MONTH m))%Z ->
  (1 <= d')%Z ->
  (datetime.DAYS_BEFORE_MONTH m
   + (if ((2 <? m)%Z && leap)%bool then 1 else 0) + d
   < datetime.DAYS_BEFORE_MONTH m'
     + (if ((2 <? m')%Z && leap)%bool then 1 else 0) + d')%Z.
Proof.
  intros Hm Hlt Hm' Hd Hd'.
  assert (Hm1 : (1 <= m <= 12)%Z) by lia.
  assert (Hm2 : (1 <= m' <= 12)%Z) by lia.
  month_cases m; month_cases m'; try lia; destruct leap; month_tables; lia.
Qed.

Lemma valid_bounds (d : datetime.date) :
  datetime.valid d = true ->
  (1 <= datetime.year d <= 9999
   /\ 1 <= datetime.month d <= 12
   /\ 1 <= datetime.dayOfMonth d
      <= datetime.days_in_month (datetime.year d) (datetime.month d))%Z.
Proof.
  unfold datetime.valid, datetime.MINYEAR, datetime.MAXYEAR.
  rewrite !andb_true_iff, !Z.leb_le. lia.
Qed.

Lemma ymd2ord_in_year (d : datetime.date) :
  datetime.valid d = true ->
  (datetime.days_before_year (datetime.year d) < datetime.ymd2ord d
   <= datetime.days_before_year (datetime.year d + 1))%Z.
Proof.
  intros Hv. apply valid_bounds in Hv. destruct Hv as (_ & Hm & Hd).
  rewrite days_before_year_succ.
  unfold datetime.ymd2ord, datetime.days_before_month.
  unfold datetime.days_in_month in Hd.
  pose proof (day_of_year_bounds (datetime.is_leap (datetime.year d))
                                 _ _ Hm Hd).
  lia.
Qed.

(** [date.toordinal] is one-to-one on calendar dates. *)
Lemma ymd2ord_inj (d d' : datetime.date) :
  datetime.valid d = true -> datetime.valid d' = true ->
  datetime.ymd2ord d = datetime.ymd2ord d' -> d = d'.
Proof.
  intros Hv Hv' Heq.
  pose proof (ymd2ord_in_year d Hv) as Hy.
  pose proof (ymd2ord_in_year d' Hv') as Hy'.
  assert (Hyear : datetime.year d = datetime.year d').
  { destruct (Z.lt_trichotomy (datetime.year d) (datetime.year d'))
      as [Hlt | [Heqy | Hgt]]; [|exact Heqy|].
    - pose proof (days_before_year_le (datetime.year d + 1) (datetime.year d')).
      lia.
    - pose proof (days_before_year_le (datetime.year d' + 1) (datetime.year d)).
      lia. }
  apply valid_bounds in Hv, Hv'.
  destruct Hv as (_ & Hm & Hd), Hv' as (_ & Hm' & Hd').
  destruct d as [y m dd], d' as [y' m' dd'].
  cbn [datetime.year datetime.month datetime.dayOfMonth] in *. subst y'.
  unfold datetime.ymd2ord, datetime.days_before_month,
    datetime.days_in_month in *.
  cbn [datetime.year datetime.month datetime.dayOfMonth] in *.
  assert (Hmonth : m = m').
  { destruct (Z.lt_trichotomy m m') as [Hlt | [Heqm | Hgt]]; [|exact Heqm|].
    - pose proof (day_of_year_lt (datetime.is_leap y) m dd m' dd'). lia.
    - pose proof (day_of_year_lt (datetime.is_leap y) m' dd' m dd). lia. }
  subst m'. f_equal. lia.
Qed.

Lemma ymd2ord_range (d : datetime.date) :
  datetime.valid d = true ->
  (1 <= datetime.ymd2ord d <= datetime.MAXORDINAL)%Z.
Proof.
  intros Hv. pose proof (ymd2ord_in_year d Hv) as Hy.
  apply valid_bounds in Hv. destruct Hv as (Hyr & _).
  pose proof (days_before_year_le 1 (datetime.year d)) as Hlo.
  pose proof (days_before_year_le (datetime.year d + 1) 10000) as Hhi.
  change (datetime.days_before_year 1) with 0%Z in Hlo.
  change (datetime.days_before_year 10000) with 3652059%Z in Hhi.
  change datetime.MAXORDINAL with 3652059%Z. lia.
Qed.

(** [date.fromordinal(d.toordinal()) == d]: what [strptime], the day
    arithmetic and [strftime] rely on. *)
Lemma ord2ymd_ymd2ord (d : datetime.date) :
  datetime.valid d = true -> datetime.ord2ymd (datetime.ymd2ord d) = d.
Proof.
  intros Hv. apply ymd2ord_inj; [|exact Hv|apply ymd2ord_ord2ymd].
  apply ord2ymd_valid. now apply ymd2ord_range.
Qed.

Lemma month_after_ordinal (y m : Z) :
  (1 <= m <= 12)%Z ->
  (datetime.ymd2ord (month_after y m) + -1
   = datetime.ymd2ord (datetime.mkDate y m (datetime.days_in_month y m)))%Z.
Proof.
  intros Hm. pose proof (days_before_year_succ y) as Hs.
  unfold month_after, datetime.ymd2ord, datetime.days_before_month,
    datetime.days_in_month.
  month_cases m; cbv [Z.eqb Pos.eqb];
    cbn [datetime.year datetime.month datetime.dayOfMonth
         Z.add Pos.add Pos.succ];
    destruct (datetime.is_leap y); month_tables; lia.
Qed.

(** X22.  [get_monthly_prices("YYYY-MM")] queries from the first to the last
    day of that month (28, 29, 30 or 31 by the calendar) for every month of
    the years 1 to 9999 but December 9999.  Month 0 is not rejected: the
    query then ends on 31 December of the year before.  A month below 0 or
    above 12, a year outside 1..9999, December 9999 and month 0 of year 1
    raise before any request is made. *)
Theorem monthly_query_covers_month (y m : Z) :
  ((1 <= y <= 9999)%Z -> (1 <= m <= 12)%Z -> (m = 12 -> y < 9999)%Z ->
   ryanair_api.get_monthly_prices y m
   = Some (ryanair_api.mkQuery
             (datetime.mkDate y m 1)
             (datetime.mkDate y m (datetime.days_in_month y m))))
  /\ ((2 <= y <= 9999)%Z -> m = 0%Z ->
      ryanair_api.get_monthly_prices y m
      = Some (ryanair_api.mkQuery (datetime.mkDate y 0 1)
                                  (datetime.mkDate (y - 1) 12 31)))
  /\ ((m < 0 \/ 12 < m \/ y < 1 \/ 9999 < y \/ (m = 12 /\ y = 9999)
       \/ (m = 0 /\ y = 1))%Z ->
      ryanair_api.get_monthly_prices y m = None).
Proof.
  split; [|split].
  - intros Hy Hm Hdec.
    assert (Hlast : datetime.valid
                      (datetime.mkDate y m (datetime.days_in_month y m))
                    = true).
    { unfold datetime.valid, datetime.MINYEAR, datetime.MAXYEAR.
      cbn [datetime.year datetime.month datetime.dayOfMonth].
      rewrite !andb_true_iff, !Z.leb_le.
      assert (1 <= datetime.days_in_month y m)%Z; [|lia].
      unfold datetime.days_in_month.
      month_cases m; destruct (datetime.is_leap y); month_tables; lia. }
    assert (Hnext : (if (m =? 12)%Z then ryanair_api.first_of_month (y + 1) 1
                     else ryanair_api.first_of_month y (m + 1))
                    = Some (month_after y m)).
    { unfold month_after, ryanair_api.first_of_month, datetime.valid,
        datetime.MINYEAR, datetime.MAXYEAR, datetime.days_in_month.
      destruct (Z.eqb_spec m 12) as [-> | Hne];
        cbn [datetime.year datetime.month datetime.dayOfMonth].
      - assert (H : ((1 <=? y + 1)%Z && (y + 1 <=? 9999)%Z)%bool = true)
          by (rewrite andb_true_iff, !Z.leb_le; lia).
        now rewrite H.
      - assert (Hm' : (1 <= m <= 11)%Z) by lia.
        assert (H : ((1 <=? y)%Z && (y <=? 9999)%Z)%bool = true)
          by (rewrite andb_true_iff, !Z.leb_le; lia).
        rewrite H. clear Hm Hdec Hne Hlast.
        assert (Hc : (m = 1 \/ m = 2 \/ m = 3 \/ m = 4 \/ m = 5 \/ m = 6
                      \/ m = 7 \/ m = 8 \/ m = 9 \/ m = 10 \/ m = 11)%Z)
          by lia.
        repeat (destruct Hc as [Hc | Hc]); subst m;
          destruct (datetime.is_leap y); reflexivity. }
    unfold ryanair_api.get_monthly_prices. rewrite Hnext.
    unfold datetime.add_days. rewrite month_after_ordinal by exact Hm.
    pose proof (ymd2ord_range _ Hlast) as [Hlo Hhi].
    apply Z.leb_le in Hlo, Hhi. rewrite Hlo, Hhi. cbn [andb].
    now rewrite ord2ymd_ymd2ord.
  - intros Hy ->.
    assert (Hprev : datetime.valid (datetime.mkDate (y - 1) 12 31) = true).
    { unfold datetime.valid, datetime.MINYEAR, datetime.MAXYEAR.
      cbn [datetime.year datetime.month datetime.dayOfMonth].
      rewrite !andb_true_iff, !Z.leb_le.
      change (datetime.days_in_month (y - 1) 12) with 31%Z. lia. }
    assert (Hfirst : ryanair_api.first_of_month y (0 + 1)
                     = Some (datetime.mkDate y 1 1)).
    { unfold ryanair_api.first_of_month, datetime.valid, datetime.MINYEAR,
        datetime.MAXYEAR.
      cbn [datetime.year datetime.month datetime.dayOfMonth].
      assert (H : ((1 <=? y)%Z && (y <=? 9999)%Z)%bool = true)
        by (rewrite andb_true_iff, !Z.leb_le; lia).
      now rewrite H. }
    unfold ryanair_api.get_monthly_prices.
    change (0 =? 12)%Z with false. cbv iota. rewrite Hfirst.
    unfold datetime.add_days.
    assert (Hord : (datetime.ymd2ord (datetime.mkDate y 1 1) + -1
                    = datetime.ymd2ord (datetime.mkDate (y - 1) 12 31))%Z).
    { pose proof (month_after_ordinal (y - 1) 12) as H.
      unfold month_after in H. change (12 =? 12)%Z with true in H.
      cbv iota in H. replace (y - 1 + 1)%Z with y in H by lia.
      change (datetime.days_in_month (y - 1) 12) with 31%Z in H.
      apply H. lia. }
    rewrite Hord.
    pose proof (ymd2ord_range _ Hprev) as [Hlo Hhi].
    apply Z.leb_le in Hlo, Hhi. rewrite Hlo, Hhi. cbn [andb].
    now rewrite ord2ymd_ymd2ord.
  - intros H. unfold ryanair_api.get_monthly_prices.
    destruct (Z.eqb_spec m 12) as [-> | Hne].
    + unfold ryanair_api.first_of_month, datetime.valid, datetime.MINYEAR,
        datetime.MAXYEAR.
      cbn [datetime.year datetime.month datetime.dayOfMonth].
      destruct (Z.leb_spec 1 (y + 1)) as [Hlo | Hlo]; [|reflexivity].
      destruct (Z.leb_spec (y + 1) 9999) as [Hhi | Hhi]; [|reflexivity].
      assert (y = 0)%Z by lia. subst y. reflexivity.
    + unfold ryanair_api.first_of_month, datetime.valid, datetime.MINYEAR,
        datetime.MAXYEAR.
      cbn [datetime.year datetime.month datetime.dayOfMonth].
      destruct (Z.leb_spec 1 y) as [Hlo | Hlo]; [|reflexivity].
      destruct (Z.leb_spec y 9999) as [Hhi | Hhi]; [|reflexivity].
      destruct (Z.leb_spec 1 (m + 1)) as [Hmlo | Hmlo]; [|reflexivity].
      destruct (Z.leb_spec (m + 1) 12) as [Hmhi | Hmhi]; [|reflexivity].
      assert (m = 0 /\ y = 1)%Z as [-> ->] by lia. reflexivity.
Qed.

Lemma monthly_query_covers_month_witness :
  ryanair_api.get_monthly_prices 2024 2
  = Some (ryanair_api.mkQuery (datetime.mkDate 2024 2 1)
                              (datetime.mkDate 2024 2 29))
  /\ ryanair_api.get_monthly_prices 2025 0
     = Some (ryanair_api.mkQuery (datetime.mkDate 2025 0 1)
                                 (datetime.mkDate 2024 12 31))
  /\ ryanair_api.get_monthly_prices 2025 13 = None.
Proof.
  split; [|split].
  - apply (proj1 (monthly_query_covers_month 2024 2)); lia.
  - apply (proj1 (proj2 (monthly_query_covers_month 2025 0)));
      [lia | reflexivity].
  - apply (proj2 (proj2 (monthly_query_covers_month 2025 13))). lia.
Defined.
